(** * BSEB external data integration layer

    A shallow embedding of the TypeScript services that fetch student
    records from the examination-board API:

    - [BsebBaseService]   (bseb/common/bseb-base.service.ts): HTTP with
      retry, cache access, error normalisation, field lookup;
    - [FormDataService]   (bseb/services/form-data.service.ts);
    - [AdmitCardService]  (bseb/services/admit-card.service.ts), of which
      the repository holds two versions: one that POSTs to a dedicated
      endpoint and one that GETs the form-data endpoint.

    Asynchronous code is embedded in a trace monad: a computation reads the
    history of I/O performed so far and yields an outcome (a value or a
    thrown error) together with the I/O events it performed itself.  The
    collaborators that are not part of these services (axios, the Redis
    service, JSON, the clock) are fields of an environment record whose
    answers may depend on the whole history. *)

From Stdlib Require Import Ascii String List ZArith Bool Arith Lia.
Import ListNotations.
Open Scope string_scope.
Open Scope list_scope.
Open Scope Z_scope.

Set Implicit Arguments.

(** ** JavaScript values

    JSON-shaped data.  Numbers are the integers (no claim depends on a
    fractional part); an object is the list of its own properties in
    insertion order. *)

#[warnings="-register-all"]
Inductive JsValue : Type :=
| JUndefined
| JNull
| JBool (b : bool)
| JNum (n : Z)
| JStr (s : string)
| JArr (items : list JsValue)
| JObj (fields : list (string * JsValue)).

(** [if (v)], [!v], [a || b], [a ?? b]. *)
Definition truthy (v : JsValue) : bool :=
  match v with
  | JUndefined | JNull => false
  | JBool b => b
  | JNum n => negb (n =? 0)
  | JStr s => negb (s =? "")%string
  | JArr _ | JObj _ => true
  end.

Definition nullish (v : JsValue) : bool :=
  match v with
  | JUndefined | JNull => true
  | _ => false
  end.

Definition js_or (a b : JsValue) : JsValue := if truthy a then a else b.
Definition js_coalesce (a b : JsValue) : JsValue := if nullish a then b else a.

Infix "||'" := js_or (at level 50, left associativity).
Infix "??" := js_coalesce (at level 50, left associativity).

Fixpoint lookup (key : string) (fields : list (string * JsValue)) : JsValue :=
  match fields with
  | [] => JUndefined
  | (k, v) :: rest => if (key =? k)%string then v else lookup key rest
  end.

(** [v[key]] on a value that is neither [null] nor [undefined]: the own
    property of an object, [undefined] on anything else. *)
Definition prop (v : JsValue) (key : string) : JsValue :=
  match v with
  | JObj fields => lookup key fields
  | _ => JUndefined
  end.

(** An optional string field of a DTO; [`${x}`] prints an absent one as
    ["undefined"]. *)
Definition truthy_str (o : option string) : bool :=
  match o with
  | Some s => negb (s =? "")%string
  | None => false
  end.

Definition str_or (o : option string) (d : string) : string :=
  match o with
  | Some s => if (s =? "")%string then d else s
  | None => d
  end.

Definition interp (o : option string) : string :=
  match o with Some s => s | None => "undefined" end.

(** A template literal, given as the list of its pieces. *)
Definition template (pieces : list string) : string := String.concat "" pieces.

(** ** Errors and outcomes *)

Record AxiosResponse : Type := mkResponse {
  status : Z;
  data : JsValue
}.

(** What a [catch] clause receives: an axios error ([axios.isAxiosError]
    holds; [response] is present when the server answered, [code] is the
    network error code) or any other [Error]. *)
Inductive JsError : Type :=
| AxiosError (code : option string) (response : option AxiosResponse)
             (message : string)
| OtherError (name : string) (message : string).

Definition isAxiosError (error : JsError) : bool :=
  match error with AxiosError _ _ _ => true | OtherError _ _ => false end.

Definition error_message (error : JsError) : string :=
  match error with
  | AxiosError _ _ m => m
  | OtherError _ m => m
  end.

Inductive Outcome (A : Type) : Type :=
| Returned (a : A)
| Threw (error : JsError).
Arguments Returned {A} a.
Arguments Threw {A} error.

Definition TypeError (what : string) : JsError :=
  OtherError "TypeError" (String.append "Cannot read properties of " what).

(** [v.key] as an expression: reading a property of [null] or [undefined]
    throws. *)
Definition member (v : JsValue) (key : string) : Outcome JsValue :=
  match v with
  | JUndefined => Threw (TypeError "undefined")
  | JNull => Threw (TypeError "null")
  | _ => Returned (prop v key)
  end.

(** ** I/O events and the environment *)

Record AxiosRequestConfig : Type := mkRequestConfig {
  cfg_timeout : Z;
  cfg_headers : list (string * string)
}.

Inductive Request : Type :=
| Get (url : string) (config : AxiosRequestConfig)
| Post (url : string) (body : JsValue) (config : AxiosRequestConfig).

Inductive LogLevel : Type := LogInfo | LogWarn | LogError.

Inductive Event : Type :=
| EvAxios (request : Request)
| EvRedisGet (key : string)
| EvRedisSet (key value : string) (ttlSeconds : Z)
| EvRedisDelete (key : string)
| EvDelay (ms : Z)
| EvLog (level : LogLevel) (text : string).

Definition Trace : Type := list Event.

Record Env : Type := mkEnv {
  axios : Trace -> Request -> Outcome AxiosResponse;
  redis_get : Trace -> string -> Outcome (option string);
  redis_set : Trace -> string -> string -> Z -> Outcome unit;
  redis_delete : Trace -> string -> Outcome unit;
  JSON_parse : string -> Outcome JsValue;
  JSON_stringify : JsValue -> Outcome string;
  toISOString : Trace -> string
}.

(** ** The trace monad *)

Definition M (A : Type) : Type := Trace -> Outcome A * Trace.

Definition ret {A} (a : A) : M A := fun _ => (Returned a, []).
Definition throw {A} (error : JsError) : M A := fun _ => (Threw error, []).

Definition bind {A B} (m : M A) (f : A -> M B) : M B :=
  fun h =>
    match m h with
    | (Returned a, es) =>
        let (r, es') := f a (h ++ es) in (r, es ++ es')
    | (Threw error, es) => (Threw error, es)
    end.

Definition try_catch {A} (body : M A) (handler : JsError -> M A) : M A :=
  fun h =>
    match body h with
    | (Returned a, es) => (Returned a, es)
    | (Threw error, es) =>
        let (r, es') := handler error (h ++ es) in (r, es ++ es')
    end.

Definition lift {A} (o : Outcome A) : M A := fun _ => (o, []).
Definition perform {A} (answer : Trace -> Outcome A) (ev : Event) : M A :=
  fun h => (answer h, [ev]).
Definition emit (ev : Event) : M unit := fun _ => (Returned tt, [ev]).

Notation "x <- m ;; k" := (bind m (fun x => k))
  (at level 61, m at next level, right associativity).
Notation "m ;;; k" := (bind m (fun _ => k))
  (at level 61, right associativity).

(** ** Configuration (bseb/config/bseb-api.config.ts) *)

Record GlobalConfig : Type := mkGlobal {
  timeout : Z;
  userAgent : string;
  retryAttempts : nat;
  retryDelay : Z
}.

Record FormDataConfig : Type := mkFormDataConfig {
  fd_baseUrl : string;
  fd_hash : string;
  fd_cacheTtl : Z;
  fd_cachePrefix : string
}.

(** The POST version of the admit-card service reads [endpoints], the GET
    version reads [hash], which the configuration file does not define for
    this domain. *)
Record AdmitCardConfig : Type := mkAdmitCardConfig {
  ac_baseUrl : string;
  ac_endpoints_theory : string;
  ac_endpoints_practical : string;
  ac_hash : option string;
  ac_cacheTtl : Z;
  ac_cachePrefix : string
}.

Record ApiConfig : Type := mkApiConfig {
  formData : FormDataConfig;
  admitCard : AdmitCardConfig;
  global : GlobalConfig
}.

Definition BsebApiConfig : ApiConfig :=
  {| formData :=
       {| fd_baseUrl := "https://examapi.biharboardonline.org/export/app";
          fd_hash := "a591a6d40bf420404a011733cfb7b190d62c6";
          fd_cacheTtl := 86400;
          fd_cachePrefix := "bseb:form" |};
     admitCard :=
       {| ac_baseUrl := "http://115.243.18.52:8081/api/BsebInter";
          ac_endpoints_theory := "GetAdmitCardTheory";
          ac_endpoints_practical := "GetAdmitCardPractical";
          ac_hash := None;
          ac_cacheTtl := 3600;
          ac_cachePrefix := "bseb:admitcard" |};
     global :=
       {| timeout := 30000;
          userAgent := "BSEBConnect/1.0";
          retryAttempts := 2;
          retryDelay := 1000 |} |}.

(** ** Response envelopes (bseb/dto/common/base-response.dto.ts)

    [BsebBaseResponse] and [BsebErrorResponse] share one record, since the
    services cast the second to the first.  An absent key is [None]. *)

Record BsebBaseResponse : Type := mkEnvelope {
  success : bool;
  payload : option JsValue;        (* data? *)
  message : option JsValue;
  errorCode : option string;
  cached : option bool;
  timestamp : option string
}.

(** Decimal rendering of the numbers that appear in log lines. *)
Fixpoint show_digits (fuel n : nat) (acc : string) : string :=
  match fuel with
  | O => acc
  | S fuel' =>
      let d := String (Ascii.ascii_of_nat (48 + Nat.modulo n 10)) acc in
      if Nat.ltb n 10 then d else show_digits fuel' (Nat.div n 10) d
  end.

Definition show_nat (n : nat) : string := show_digits (S n) n "".

Definition show_Z (z : Z) : string :=
  if z <? 0 then template ["-"; show_nat (Z.to_nat (- z))]
  else show_nat (Z.to_nat z).

(** ** BsebBaseService (bseb/common/bseb-base.service.ts) *)

Section BsebBaseService.

Variable config : ApiConfig.
Variable env : Env.

Definition logger (level : LogLevel) (text : string) : M unit :=
  emit (EvLog level text).

(** [delay(ms)]: a timer, the only effect of which is the passing of time. *)
Definition delay (ms : Z) : M unit := emit (EvDelay ms).

(** [new Date().toISOString()] *)
Definition now : M string := fun h => (Returned (toISOString env h), []).

(** A call of [axios.get] or [axios.post]. *)
Definition send (request : Request) : M AxiosResponse :=
  perform (fun h => axios env h request) (EvAxios request).

Definition axios_get (url : string) (c : AxiosRequestConfig) : M AxiosResponse :=
  send (Get url c).

Definition axios_post (url : string) (body : JsValue) (c : AxiosRequestConfig)
  : M AxiosResponse :=
  send (Post url body c).

(** [error.response?.status] *)
Definition response_status (error : JsError) : option Z :=
  match error with
  | AxiosError _ (Some response) _ => Some (status response)
  | _ => None
  end.

(** The test that guards [throw error] in the [catch] clause of
    [executeWithRetry]. *)
Definition isClientError (error : JsError) : bool :=
  isAxiosError error &&
  match response_status error with
  | Some status => (400 <=? status) && (status <? 500)
  | None => false
  end.

(** The [for] loop of [executeWithRetry], entered at [attempt] with
    [remaining = retries - attempt] further iterations after this one.
    [retries] is a natural number, so the loop condition
    [attempt <= retries] holds on entry and [lastError] is set whenever
    the loop is left; [throw lastError!] then throws the error of the
    iteration that ran last. *)
Fixpoint attemptLoop (requestFn : M AxiosResponse)
         (retries attempt remaining : nat) : M JsValue :=
  try_catch
    (response <- requestFn ;; ret (data response))
    (fun error =>
       let lastError := error in
       if isClientError error then throw error
       else
         (if (attempt <? retries)%nat
          then
            logger LogWarn
              (template ["Request failed, retrying ("; show_nat (attempt + 1);
                         "/"; show_nat retries; ")..."]) ;;;
            delay (retryDelay (global config) * Z.of_nat (attempt + 1))
          else ret tt) ;;;
         match remaining with
         | O => throw lastError
         | S remaining' =>
             attemptLoop requestFn retries (S attempt) remaining'
         end).

Definition executeWithRetry (requestFn : M AxiosResponse) (retries : nat)
  : M JsValue :=
  attemptLoop requestFn retries 0 retries.

Definition httpGet (url : string) : M JsValue :=
  let defaultConfig :=
    {| cfg_timeout := timeout (global config);
       cfg_headers := [("Accept", "application/json");
                       ("User-Agent", userAgent (global config))] |} in
  executeWithRetry (axios_get url defaultConfig)
                   (retryAttempts (global config)).

Definition httpPost (url : string) (body : JsValue) : M JsValue :=
  let defaultConfig :=
    {| cfg_timeout := timeout (global config);
       cfg_headers := [("Content-Type", "application/json");
                       ("Accept", "application/json");
                       ("User-Agent", userAgent (global config))] |} in
  executeWithRetry (axios_post url body defaultConfig)
                   (retryAttempts (global config)).

(** [getFromCache]: the parsed entry, or [null]. *)
Definition getFromCache (cacheKey : string) : M JsValue :=
  try_catch
    (cached <- perform (fun h => redis_get env h cacheKey)
                       (EvRedisGet cacheKey) ;;
     if truthy_str cached
     then lift (JSON_parse env (interp cached))
     else ret JNull)
    (fun error =>
       logger LogWarn
         (template ["Cache read error for "; cacheKey; ": ";
                    error_message error]) ;;;
       ret JNull).

Definition setInCache (cacheKey : string) (value : JsValue) (ttlSeconds : Z)
  : M unit :=
  try_catch
    (text <- lift (JSON_stringify env value) ;;
     perform (fun h => redis_set env h cacheKey text ttlSeconds)
             (EvRedisSet cacheKey text ttlSeconds))
    (fun error =>
       logger LogWarn
         (template ["Cache write error for "; cacheKey; ": ";
                    error_message error])).

Definition deleteFromCache (cacheKey : string) : M unit :=
  try_catch
    (perform (fun h => redis_delete env h cacheKey) (EvRedisDelete cacheKey))
    (fun error =>
       logger LogWarn
         (template ["Cache delete error for "; cacheKey; ": ";
                    error_message error])).

Fixpoint forEach {A} (f : A -> M unit) (items : list A) : M unit :=
  match items with
  | [] => ret tt
  | x :: rest => f x ;;; forEach f rest
  end.

Definition deleteCacheByPrefix (prefix identifier : string) : M unit :=
  let patterns :=
    [template [prefix; ":"; identifier];
     template [prefix; ":theory:"; identifier];
     template [prefix; ":practical:"; identifier]] in
  forEach deleteFromCache patterns.

(** [responseData?.message] *)
Definition optional_message (responseData : JsValue) : JsValue :=
  if nullish responseData then JUndefined else prop responseData "message".

Definition code_is (code : option string) (name : string) : bool :=
  match code with
  | Some c => (c =? name)%string
  | None => false
  end.

Definition errorResponse (text : JsValue) (code timestamp : string)
  : BsebBaseResponse :=
  {| success := false;
     payload := None;
     message := Some text;
     errorCode := Some code;
     cached := None;
     timestamp := Some timestamp |}.

(** [handleApiError].  The log line of an HTTP error leaves out the
    rendering of the response body. *)
Definition handleApiError (error : JsError) (context identifier : string)
  : M BsebBaseResponse :=
  timestamp <- now ;;
  let unexpected :=
    logger LogError
      (template ["Unexpected error ["; context; "] ("; identifier; "): ";
                 error_message error]) ;;;
    ret (errorResponse
           (JStr "An unexpected error occurred. Please try again.")
           "UNKNOWN_ERROR" timestamp) in
  match error with
  | AxiosError code (Some response) _ =>
      let status := status response in
      let responseData := data response in
      logger LogError
        (template ["BSEB API error ["; context; "] ("; identifier; "): ";
                   show_Z status]) ;;;
      if status =? 404 then
        ret (errorResponse
               (optional_message responseData
                ||' JStr "No record found for the given details.")
               "NOT_FOUND" timestamp)
      else if status =? 400 then
        ret (errorResponse
               (optional_message responseData
                ||' JStr "Invalid request parameters.")
               "BAD_REQUEST" timestamp)
      else if (status =? 401) || (status =? 403) then
        ret (errorResponse (JStr "Access denied to BSEB services.")
                           "UNAUTHORIZED" timestamp)
      else if 500 <=? status then
        ret (errorResponse
               (JStr "BSEB server error. Please try again later.")
               "SERVER_ERROR" timestamp)
      else
        ret (errorResponse
               (optional_message responseData
                ||' JStr (template ["Failed to fetch "; context; "."]))
               "API_ERROR" timestamp)
  | AxiosError code None _ =>
      if code_is code "ECONNABORTED" then
        logger LogError
          (template ["BSEB API timeout ["; context; "] ("; identifier; ")"]) ;;;
        ret (errorResponse (JStr "Request timed out. Please try again.")
                           "TIMEOUT" timestamp)
      else if code_is code "ENOTFOUND" || code_is code "ECONNREFUSED" then
        logger LogError
          (template ["BSEB API unreachable ["; context; "] ("; identifier;
                     ")"]) ;;;
        ret (errorResponse
               (JStr "BSEB server is currently unavailable. Please try again later.")
               "UNAVAILABLE" timestamp)
      else unexpected
  | OtherError _ _ => unexpected
  end.

Definition createSuccessResponse (value : JsValue) (fromCache : bool)
  : M BsebBaseResponse :=
  timestamp <- now ;;
  ret {| success := true;
         payload := Some value;
         message := None;
         errorCode := None;
         cached := Some fromCache;
         timestamp := Some timestamp |}.

(** [getFieldValue(obj, ...keys)] *)
Fixpoint getFieldValue (obj : JsValue) (keys : list string) : Outcome JsValue :=
  match keys with
  | [] => Returned JUndefined
  | key :: rest =>
      match member obj key with
      | Threw error => Threw error
      | Returned v =>
          if negb (nullish v) then Returned v else getFieldValue obj rest
      end
  end.

End BsebBaseService.

(** Sequencing of pure code that may throw. *)
Definition bindO {A B} (o : Outcome A) (f : A -> Outcome B) : Outcome B :=
  match o with
  | Returned a => f a
  | Threw error => Threw error
  end.

Notation "x <~ o ;; k" := (bindO o (fun x => k))
  (at level 61, o at next level, right associativity).

(** [items.map(f)] for an [f] that may throw. *)
Fixpoint mapO {A B} (f : A -> Outcome B) (items : list A) : Outcome (list B) :=
  match items with
  | [] => Returned []
  | x :: rest =>
      y <~ f x ;;
      ys <~ mapO f rest ;;
      Returned (y :: ys)
  end.

(** ** FormDataService (bseb/services/form-data.service.ts) *)

Module FormDataService.
Section FormDataService.

Variable config : ApiConfig.
Variable env : Env.

(** In the three helpers the guard [if (!x) return undefined] leaves a
    truthy [x], whose properties can be read without a throw. *)
Definition transformSubject (rawSubject : JsValue) : JsValue :=
  if negb (truthy rawSubject) then JUndefined
  else
    JObj [("name", prop rawSubject "name");
          ("code", prop rawSubject "code");
          ("isChecked", prop rawSubject "is_checked" ?? JBool false);
          ("readonly", prop rawSubject "readonly" ?? JBool true)].

Definition transformSubjects (rawSubjects : JsValue) : JsValue :=
  if negb (truthy rawSubjects) then JUndefined
  else
    JObj [("mil", transformSubject (prop rawSubjects "mil"));
          ("sil", transformSubject (prop rawSubjects "sil"));
          ("optional", transformSubject (prop rawSubjects "optional"));
          ("vocational", transformSubject (prop rawSubjects "vocational"));
          ("compulsory1", transformSubject (prop rawSubjects "compulsory_1"));
          ("compulsory2", transformSubject (prop rawSubjects "compulsory_2"));
          ("compulsory3", transformSubject (prop rawSubjects "compulsory_3"));
          ("compulsory4", transformSubject (prop rawSubjects "compulsory_4"))].

Definition transformAddress (rawAddress : JsValue) : JsValue :=
  if negb (truthy rawAddress) then JUndefined
  else
    JObj [("city", prop rawAddress "city");
          ("address", prop rawAddress "address");
          ("pincode", prop rawAddress "pincode");
          ("district", prop rawAddress "district");
          ("state", prop rawAddress "state")].

(** [transformResponse(raw)]: the first property read, [raw.school_code],
    throws when [raw] is [null] or [undefined]; once it has succeeded the
    other reads of [raw] succeed too. *)
Definition transformResponse (raw : JsValue) : Outcome JsValue :=
  schoolCode <~ member raw "school_code" ;;
  Returned
    (JObj [("schoolCode", schoolCode);
           ("schoolName", prop raw "school_name");
           ("registrationNumber", prop raw "reg_no");
           ("applicationNumber", prop raw "application_no");
           ("name", prop raw "name");
           ("fatherName", prop raw "father_name");
           ("motherName", prop raw "mother_name");
           ("dateOfBirth", prop raw "dob");
           ("gender", prop raw "gender");
           ("caste", prop raw "caste");
           ("category", prop raw "category");
           ("religion", prop raw "religion");
           ("nationality", prop raw "nationality");
           ("area", prop raw "area");
           ("isDifferentlyAbled", prop raw "is_differently_abled");
           ("isVisuallyImpaired", prop raw "is_visually_impaired");
           ("maritalStatus", prop raw "marital_status");
           ("medium", prop raw "medium");
           ("mobile", prop raw "mobile");
           ("email", prop raw "email");
           ("address", transformAddress (prop raw "address"));
           ("subjects", transformSubjects (prop raw "subjects"));
           ("photoUrl", prop raw "photo");
           ("signatureUrl", prop raw "sign");
           ("rawData", raw)]).

Definition cacheKeyOf (registrationNumber : string) : string :=
  template [fd_cachePrefix (formData config); ":"; registrationNumber].

Definition urlOf (registrationNumber : string) : string :=
  template [fd_baseUrl (formData config); "/"; registrationNumber;
            "?hash="; fd_hash (formData config)].

(** The envelope returned when the upstream reports a failure of its own. *)
Definition upstreamFailure (apiResponse : JsValue) : BsebBaseResponse :=
  {| success := false;
     payload := None;
     message := Some (prop apiResponse "message"
                      ||' JStr "No data returned from BSEB API");
     errorCode := None;
     cached := None;
     timestamp := None |}.

Definition getFormData (registrationNumber : string) : M BsebBaseResponse :=
  let cacheKey := cacheKeyOf registrationNumber in
  try_catch
    (cachedData <- getFromCache env cacheKey ;;
     if truthy cachedData then
       logger LogInfo
         (template ["Cache hit for form data: "; registrationNumber]) ;;;
       createSuccessResponse env cachedData true
     else
       let url := urlOf registrationNumber in
       logger LogInfo
         (template ["Fetching form data from BSEB API: ";
                    registrationNumber]) ;;;
       apiResponse <- httpGet config env url ;;
       flag <- lift (member apiResponse "success") ;;
       if negb (truthy flag) || negb (truthy (prop apiResponse "data")) then
         ret (upstreamFailure apiResponse)
       else
         formData' <- lift (transformResponse (prop apiResponse "data")) ;;
         setInCache env cacheKey formData' (fd_cacheTtl (formData config)) ;;;
         createSuccessResponse env formData' false)
    (fun error => handleApiError env error "form-data" registrationNumber).

Definition clearCache (registrationNumber : string) : M unit :=
  let cacheKey := cacheKeyOf registrationNumber in
  deleteFromCache env cacheKey ;;;
  logger LogInfo
    (template ["Cache cleared for form data: "; registrationNumber]).

End FormDataService.
End FormDataService.

(** ** AdmitCardService (bseb/services/admit-card.service.ts) *)

Record GetAdmitCardRequestDto : Type := mkDto {
  registrationNumber : option string;
  rollCode : option string;
  rollNumber : option string
}.

Inductive AdmitCardType : Type := THEORY | PRACTICAL.

Definition type_text (type : AdmitCardType) : string :=
  match type with
  | THEORY => "theory"
  | PRACTICAL => "practical"
  end.

Definition getIdentifier (dto : GetAdmitCardRequestDto) : string :=
  if truthy_str (registrationNumber dto) then interp (registrationNumber dto)
  else template [interp (rollCode dto); "-"; interp (rollNumber dto)].

(** *** The version that POSTs to the admit-card endpoints *)

Module AdmitCardService_POST.
Section AdmitCardService.

Variable config : ApiConfig.
Variable env : Env.

Definition transformSubject (s : JsValue) : Outcome JsValue :=
  subjectName <~ getFieldValue s ["SubjectName"; "subjectName"] ;;
  subjectCode <~ getFieldValue s ["SubjectCode"; "subjectCode"] ;;
  subjectGroup <~ getFieldValue s ["SubjectGroup"; "subjectGroup"] ;;
  examDate <~ getFieldValue s ["ExamDate"; "examDate"] ;;
  examTime <~ getFieldValue s ["ExamTime"; "examTime"] ;;
  examShift <~ getFieldValue s ["ExamShift"; "examShift"] ;;
  Returned (JObj [("subjectName", subjectName);
                  ("subjectCode", subjectCode);
                  ("subjectGroup", subjectGroup);
                  ("examDate", examDate);
                  ("examTime", examTime);
                  ("examShift", examShift)]).

Definition transformResponse (rawData : JsValue) : Outcome JsValue :=
  upperStudent <~ member rawData "StudentDetails" ;;
  let studentDetails :=
    upperStudent ||' prop rawData "studentDetails" ||' JObj [] in
  let subjectDetails :=
    prop rawData "SubjectDetails" ||' prop rawData "subjectDetails"
    ||' JArr [] in
  studentName <~ getFieldValue studentDetails ["StudentName"; "studentName"] ;;
  fatherName <~ getFieldValue studentDetails ["FatherName"; "fatherName"] ;;
  motherName <~ getFieldValue studentDetails ["MotherName"; "motherName"] ;;
  dateOfBirth <~ getFieldValue studentDetails ["DateOfBirth"; "dateOfBirth"] ;;
  gender <~ getFieldValue studentDetails ["Gender"; "gender"] ;;
  registrationNumber <~ getFieldValue studentDetails
                          ["RegistrationNumber"; "registrationNumber"] ;;
  rollCode <~ getFieldValue studentDetails
                ["Rollcode"; "RollCode"; "rollcode"; "rollCode"] ;;
  rollNumber <~ getFieldValue studentDetails ["RollNumber"; "rollNumber"] ;;
  schoolName <~ getFieldValue studentDetails ["SchoolName"; "schoolName"] ;;
  schoolCode <~ getFieldValue studentDetails ["SchoolCode"; "schoolCode"] ;;
  casteCategory <~ getFieldValue studentDetails
                     ["casteCategory"; "CasteCategory"] ;;
  religion <~ getFieldValue studentDetails ["Religion"; "religion"] ;;
  examType <~ getFieldValue studentDetails ["ExamType"; "examType"] ;;
  examCenterName <~ getFieldValue studentDetails
                      ["ExamCenterName"; "examCenterName"] ;;
  examCenterCode <~ getFieldValue studentDetails
                      ["ExamCenterCode"; "examCenterCode"] ;;
  subjects <~ match subjectDetails with
              | JArr items => mapO transformSubject items
              | _ => Returned []
              end ;;
  Returned
    (JObj [("studentDetails",
            JObj [("studentName", studentName);
                  ("fatherName", fatherName);
                  ("motherName", motherName);
                  ("dateOfBirth", dateOfBirth);
                  ("gender", gender);
                  ("registrationNumber", registrationNumber);
                  ("rollCode", rollCode);
                  ("rollNumber", rollNumber);
                  ("schoolName", schoolName);
                  ("schoolCode", schoolCode);
                  ("casteCategory", casteCategory);
                  ("religion", religion);
                  ("examType", examType);
                  ("examCenterName", examCenterName);
                  ("examCenterCode", examCenterCode)]);
           ("subjectDetails", JArr subjects)]).

Definition cacheKeyOf (type : AdmitCardType) (identifier : string) : string :=
  template [ac_cachePrefix (admitCard config); ":"; type_text type; ":";
            identifier].

Definition urlOf (type : AdmitCardType) : string :=
  let endpoint :=
    match type with
    | THEORY => ac_endpoints_theory (admitCard config)
    | PRACTICAL => ac_endpoints_practical (admitCard config)
    end in
  template [ac_baseUrl (admitCard config); "/"; endpoint].

Definition requestBodyOf (dto : GetAdmitCardRequestDto) : JsValue :=
  JObj [("registrationNumber", JStr (str_or (registrationNumber dto) ""));
        ("rollCode", JStr (str_or (rollCode dto) ""));
        ("rollNumber", JStr (str_or (rollNumber dto) ""))].

Definition getAdmitCard (dto : GetAdmitCardRequestDto) (type : AdmitCardType)
  : M BsebBaseResponse :=
  let identifier := getIdentifier dto in
  let cacheKey := cacheKeyOf type identifier in
  try_catch
    (cachedData <- getFromCache env cacheKey ;;
     if truthy cachedData then
       logger LogInfo
         (template ["Cache hit for "; type_text type; " admit card: ";
                    identifier]) ;;;
       createSuccessResponse env cachedData true
     else
       let url := urlOf type in
       let requestBody := requestBodyOf dto in
       logger LogInfo
         (template ["Fetching "; type_text type;
                    " admit card from BSEB API: "; identifier]) ;;;
       rawData <- httpPost config env url requestBody ;;
       admitCardData <- lift (transformResponse rawData) ;;
       setInCache env cacheKey admitCardData
                  (ac_cacheTtl (admitCard config)) ;;;
       createSuccessResponse env admitCardData false)
    (fun error =>
       handleApiError env error
         (template [type_text type; "-admit-card"]) identifier).

Definition getTheoryAdmitCard (dto : GetAdmitCardRequestDto) :=
  getAdmitCard dto THEORY.

Definition getPracticalAdmitCard (dto : GetAdmitCardRequestDto) :=
  getAdmitCard dto PRACTICAL.

Definition clearCache (identifier : string) : M unit :=
  deleteCacheByPrefix env (ac_cachePrefix (admitCard config)) identifier ;;;
  logger LogInfo (template ["Cache cleared for admit card: "; identifier]).

End AdmitCardService.
End AdmitCardService_POST.

(** *** The version that GETs the form-data endpoint *)

(** [s.replace(c, d)] for one-character [c] and [d]: the first occurrence. *)
Fixpoint replace_first (c d : ascii) (s : string) : string :=
  match s with
  | EmptyString => EmptyString
  | String a rest =>
      if Ascii.eqb a c then String d rest
      else String a (replace_first c d rest)
  end.

Module AdmitCardService_GET.
Section AdmitCardService.

Variable config : ApiConfig.
Variable env : Env.

Definition subjectKeys : list string :=
  ["mil"; "sil"; "compulsory_1"; "compulsory_2"; "compulsory_3";
   "compulsory_4"; "optional"; "vocational"].

(** One turn of the loop over [subjectKeys]: what it pushes. *)
Definition subjectEntry (subjects : JsValue) (key : string) : list JsValue :=
  let subject := prop subjects key in
  if truthy subject && truthy (prop subject "name") then
    [JObj [("subjectName", prop subject "name");
           ("subjectCode", prop subject "code" ||' JStr "");
           ("subjectGroup", JStr (replace_first "_"%char " "%char key));
           ("examDate", JStr "");
           ("examTime", JStr "");
           ("examShift", JStr "")]]
  else [].

Definition transformResponse (rawData : JsValue) (type : AdmitCardType)
  : Outcome JsValue :=
  rawSubjects <~ member rawData "subjects" ;;
  let subjects := rawSubjects ||' JObj [] in
  let subjectList := flat_map (subjectEntry subjects) subjectKeys in
  Returned
    (JObj [("studentDetails",
            JObj [("studentName", prop rawData "name" ||' JStr "");
                  ("fatherName", prop rawData "father_name" ||' JStr "");
                  ("motherName", prop rawData "mother_name" ||' JStr "");
                  ("dateOfBirth", prop rawData "dob" ||' JStr "");
                  ("gender", prop rawData "gender" ||' JStr "");
                  ("registrationNumber", prop rawData "reg_no" ||' JStr "");
                  ("rollCode", prop rawData "roll_code" ||' JStr "");
                  ("rollNumber", prop rawData "roll_no" ||' JStr "");
                  ("schoolName", prop rawData "school_name" ||' JStr "");
                  ("schoolCode", prop rawData "school_code" ||' JStr "");
                  ("casteCategory", prop rawData "category" ||' JStr "");
                  ("religion", prop rawData "religion" ||' JStr "");
                  ("examType",
                   JStr (match type with
                         | THEORY => "Theory"
                         | PRACTICAL => "Practical"
                         end));
                  ("examCenterName",
                   prop rawData "exam_center_name"
                   ||' prop rawData "school_name" ||' JStr "");
                  ("examCenterCode",
                   prop rawData "exam_center_code"
                   ||' prop rawData "school_code" ||' JStr "")]);
           ("subjectDetails", JArr subjectList);
           ("photoUrl", prop rawData "photo" ||' JStr "")]).

Definition cacheKeyOf (type : AdmitCardType) (identifier : string) : string :=
  template [ac_cachePrefix (admitCard config); ":"; type_text type; ":";
            identifier].

Definition urlOf (identifier : string) : string :=
  template [ac_baseUrl (admitCard config); "/"; identifier; "?hash=";
            interp (ac_hash (admitCard config))].

Definition registrationRequired : BsebBaseResponse :=
  {| success := false;
     payload := None;
     message := Some (JStr "Registration number is required");
     errorCode := None;
     cached := None;
     timestamp := None |}.

Definition upstreamFailure (apiResponse : JsValue) : BsebBaseResponse :=
  {| success := false;
     payload := None;
     message := Some (prop apiResponse "message"
                      ||' JStr "No data returned from BSEB API");
     errorCode := None;
     cached := None;
     timestamp := None |}.

Definition getAdmitCard (dto : GetAdmitCardRequestDto) (type : AdmitCardType)
  : M BsebBaseResponse :=
  if negb (truthy_str (registrationNumber dto)) then
    ret registrationRequired
  else
    let identifier := interp (registrationNumber dto) in
    let cacheKey := cacheKeyOf type identifier in
    try_catch
      (cachedData <- getFromCache env cacheKey ;;
       if truthy cachedData then
         logger LogInfo
           (template ["Cache hit for "; type_text type; " admit card: ";
                      identifier]) ;;;
         createSuccessResponse env cachedData true
       else
         let url := urlOf identifier in
         logger LogInfo
           (template ["Fetching "; type_text type;
                      " admit card from BSEB API: "; url]) ;;;
         apiResponse <- httpGet config env url ;;
         flag <- lift (member apiResponse "success") ;;
         if negb (truthy flag) || negb (truthy (prop apiResponse "data")) then
           ret (upstreamFailure apiResponse)
         else
           admitCardData <-
             lift (transformResponse (prop apiResponse "data") type) ;;
           setInCache env cacheKey admitCardData
                      (ac_cacheTtl (admitCard config)) ;;;
           createSuccessResponse env admitCardData false)
      (fun error =>
         handleApiError env error
           (template [type_text type; "-admit-card"]) identifier).

Definition getTheoryAdmitCard (dto : GetAdmitCardRequestDto) :=
  getAdmitCard dto THEORY.

Definition getPracticalAdmitCard (dto : GetAdmitCardRequestDto) :=
  getAdmitCard dto PRACTICAL.

Definition clearCache (identifier : string) : M unit :=
  deleteCacheByPrefix env (ac_cachePrefix (admitCard config)) identifier ;;;
  logger LogInfo (template ["Cache cleared for admit card: "; identifier]).

End AdmitCardService.
End AdmitCardService_GET.

(** ** Observations on traces *)

Definition is_upstream_call (ev : Event) : bool :=
  match ev with EvAxios _ => true | _ => false end.

Definition is_cache_call (ev : Event) : bool :=
  match ev with
  | EvRedisGet _ | EvRedisSet _ _ _ | EvRedisDelete _ => true
  | _ => false
  end.

Definition is_cache_write (ev : Event) : bool :=
  match ev with
  | EvRedisSet _ _ _ | EvRedisDelete _ => true
  | _ => false
  end.

Definition is_error_log (ev : Event) : bool :=
  match ev with EvLog LogError _ => true | _ => false end.

Definition upstream_calls (es : Trace) : nat := length (filter is_upstream_call es).
Definition cache_calls (es : Trace) : nat := length (filter is_cache_call es).
Definition cache_writes (es : Trace) : nat := length (filter is_cache_write es).
Definition error_logs (es : Trace) : nat := length (filter is_error_log es).

(** A warning of the logger. *)
Definition is_warning (ev : Event) : Prop :=
  exists text, ev = EvLog LogWarn text.

(** The events of the retry loop: calls, waits and warnings. *)
Definition is_retry_event (ev : Event) : bool :=
  match ev with
  | EvAxios _ | EvDelay _ | EvLog LogWarn _ => true
  | _ => false
  end.

(** The waits of a trace, in order. *)
Fixpoint delays (es : Trace) : list Z :=
  match es with
  | [] => []
  | EvDelay ms :: rest => ms :: delays rest
  | _ :: rest => delays rest
  end.

(** ** Sample environments, for the examples *)

Definition sampleEnv (http : Outcome AxiosResponse)
           (cacheRead : Outcome (option string)) : Env :=
  {| axios := fun _ _ => http;
     redis_get := fun _ _ => cacheRead;
     redis_set := fun _ _ _ _ => Returned tt;
     redis_delete := fun _ _ => Returned tt;
     JSON_parse := fun text => Returned (JStr text);
     JSON_stringify := fun _ => Returned "{}";
     toISOString := fun _ => "2025-01-01T00:00:00.000Z" |}.

Definition httpError (code : Z) : JsError :=
  AxiosError (Some "ERR_BAD_RESPONSE")
             (Some {| status := code; data := JNull |})
             "Request failed".

Definition httpFailure {A} (code : Z) : Outcome A := Threw (httpError code).

(** ** The retry policy, as the specification words it *)

(** A transient failure: an HTTP status of 500 or more, a network-level
    timeout or any other failure without an HTTP response. *)
Definition transient (error : JsError) : bool :=
  match error with
  | AxiosError _ (Some response) _ => 500 <=? status response
  | AxiosError _ None _ => true
  | OtherError _ _ => true
  end.

Definition retryWarning (attempt retries : nat) : Event :=
  EvLog LogWarn
    (template ["Request failed, retrying ("; show_nat (attempt + 1); "/";
               show_nat retries; ")..."]).

(** What [k] failed attempts leave in the trace: for each one the events
    of the call itself, a warning and a wait of [retryDelay] times the
    1-based number of the attempt. *)
Fixpoint failedAttempts (retryDelay : Z) (calls : nat -> Trace)
         (retries k : nat) : Trace :=
  match k with
  | O => []
  | S k' =>
      failedAttempts retryDelay calls retries k'
      ++ calls k'
      ++ [retryWarning k' retries; EvDelay (retryDelay * Z.of_nat (k' + 1))]
  end.

(** Every call of a request sent through axios is the one event. *)
Definition sending (request : Request) : nat -> Trace :=
  fun _ => [EvAxios request].

Definition linearBackoff (retryDelay : Z) (retries : nat) : list Z :=
  map (fun attemptNumber => retryDelay * Z.of_nat attemptNumber) (seq 1 retries).

Fixpoint increasing (l : list Z) : Prop :=
  match l with
  | [] => True
  | x :: rest =>
      match rest with
      | [] => True
      | y :: _ => x < y /\ increasing rest
      end
  end.

(** ** The error mapping table, as the specification words it *)

(** The error carries an HTTP response whose status satisfies [p]. *)
Definition http_status (p : Z -> bool) (error : JsError) : bool :=
  match error with
  | AxiosError _ (Some response) _ => p (status response)
  | _ => false
  end.

(** The error is a network failure with one of the given codes. *)
Definition network_code (names : list string) (error : JsError) : bool :=
  match error with
  | AxiosError (Some code) _ _ => existsb (String.eqb code) names
  | _ => false
  end.

Definition mappingTable : list ((JsError -> bool) * string) :=
  [(http_status (fun s => s =? 404), "NOT_FOUND");
   (http_status (fun s => s =? 400), "BAD_REQUEST");
   (http_status (fun s => (s =? 401) || (s =? 403)), "UNAUTHORIZED");
   (http_status (fun s => 500 <=? s), "SERVER_ERROR");
   (http_status (fun _ => true), "API_ERROR");
   (network_code ["ECONNABORTED"], "TIMEOUT");
   (network_code ["ENOTFOUND"; "ECONNREFUSED"], "UNAVAILABLE");
   (fun _ => true, "UNKNOWN_ERROR")].

(** First match wins. *)
Fixpoint firstMatch (table : list ((JsError -> bool) * string))
         (error : JsError) : option string :=
  match table with
  | [] => None
  | (condition, code) :: rest =>
      if condition error then Some code else firstMatch rest error
  end.

Definition taxonomy : list string :=
  ["NOT_FOUND"; "BAD_REQUEST"; "UNAUTHORIZED"; "SERVER_ERROR"; "API_ERROR";
   "TIMEOUT"; "UNAVAILABLE"; "UNKNOWN_ERROR"].

(** ** Field reconciliation, as the specification words it *)


(** ** Requests that name no student *)

(** Neither a registration number nor the pair of roll code and roll
    number. *)
Definition lacks_identifier (dto : GetAdmitCardRequestDto) : bool :=
  negb (truthy_str (registrationNumber dto)) &&
  negb (truthy_str (rollCode dto) && truthy_str (rollNumber dto)).

(** A run that answers with a failure envelope carrying a message and
    touches neither the upstream nor the cache. *)
Definition rejected_without_io (run : Outcome BsebBaseResponse * Trace) : Prop :=
  (exists r text,
      fst run = Returned r /\ success r = false /\ message r = Some text) /\
  upstream_calls (snd run) = 0%nat /\
  cache_calls (snd run) = 0%nat.

(** ** Keeping the raw payload *)

(** The normalised record holds the raw payload under one of its keys. *)
Definition preserves_raw (normalized raw : JsValue) : Prop :=
  exists key, prop normalized key = raw.

Definition sampleAdmitCardPayload : JsValue :=
  JObj [("StudentDetails", JObj [("StudentName", JStr "A")]);
        ("Remarks", JStr "unmapped")].

Definition sampleFormPayload : JsValue :=
  JObj [("name", JStr "A"); ("remarks", JStr "unmapped")].

(** ** The cache-aside shape shared by the three fetches

    Each fetch is a [try]/[catch] around: read the cache; on a hit, log and
    answer from the cache; on a miss, run the fetch proper.  The [catch]
    clause hands the error to [handleApiError]. *)

Definition cacheAside (env : Env) (cacheKey hitText : string)
           (fresh : M BsebBaseResponse) (context identifier : string)
  : M BsebBaseResponse :=
  try_catch
    (cachedData <- getFromCache env cacheKey ;;
     if truthy cachedData then
       logger LogInfo hitText ;;;
       createSuccessResponse env cachedData true
     else fresh)
    (fun error => handleApiError env error context identifier).

(** The envelope invariant: a failure has no data and has a message. *)
Definition well_formed (r : BsebBaseResponse) : Prop :=
  success r = false ->
  payload r = None /\ exists text, message r = Some text /\ truthy text = true.

(** The data of the envelope is the entry that the cache store held under
    [cacheKey] when the fetch began, and no upstream call was made. *)
Definition served_from_cache (env : Env) (cacheKey : string) (h : Trace)
           (r : BsebBaseResponse) (es : Trace) : Prop :=
  exists v,
    fst (getFromCache env cacheKey h) = Returned v /\
    truthy v = true /\
    payload r = Some v /\
    upstream_calls es = 0%nat.

(** What the fetch proper may answer with: fresh data after at least one
    upstream call, or a failure with a message. *)
Definition fresh_envelope (r : BsebBaseResponse) (es : Trace) : Prop :=
  (success r = true -> cached r = Some false /\ (1 <= upstream_calls es)%nat) /\
  (success r = false ->
   payload r = None /\ cached r = None /\
   exists text, message r = Some text /\ truthy text = true).

Definition fresh_ok (fresh : M BsebBaseResponse) : Prop :=
  forall h r es, fresh h = (Returned r, es) -> fresh_envelope r es.

(** The fetch proper of each service: the [else] branch of its cache test. *)

Definition freshFormData (config : ApiConfig) (env : Env)
           (registrationNumber : string) : M BsebBaseResponse :=
  let cacheKey := FormDataService.cacheKeyOf config registrationNumber in
  let url := FormDataService.urlOf config registrationNumber in
  logger LogInfo
    (template ["Fetching form data from BSEB API: "; registrationNumber]) ;;;
  apiResponse <- httpGet config env url ;;
  flag <- lift (member apiResponse "success") ;;
  if negb (truthy flag) || negb (truthy (prop apiResponse "data")) then
    ret (FormDataService.upstreamFailure apiResponse)
  else
    formData' <- lift (FormDataService.transformResponse
                         (prop apiResponse "data")) ;;
    setInCache env cacheKey formData' (fd_cacheTtl (formData config)) ;;;
    createSuccessResponse env formData' false.

Definition freshAdmitCard_POST (config : ApiConfig) (env : Env)
           (dto : GetAdmitCardRequestDto) (type : AdmitCardType)
  : M BsebBaseResponse :=
  let identifier := getIdentifier dto in
  let cacheKey := AdmitCardService_POST.cacheKeyOf config type identifier in
  logger LogInfo
    (template ["Fetching "; type_text type; " admit card from BSEB API: ";
               identifier]) ;;;
  rawData <- httpPost config env (AdmitCardService_POST.urlOf config type)
                      (AdmitCardService_POST.requestBodyOf dto) ;;
  admitCardData <- lift (AdmitCardService_POST.transformResponse rawData) ;;
  setInCache env cacheKey admitCardData (ac_cacheTtl (admitCard config)) ;;;
  createSuccessResponse env admitCardData false.

Definition freshAdmitCard_GET (config : ApiConfig) (env : Env)
           (identifier : string) (type : AdmitCardType)
  : M BsebBaseResponse :=
  let cacheKey := AdmitCardService_GET.cacheKeyOf config type identifier in
  let url := AdmitCardService_GET.urlOf config identifier in
  logger LogInfo
    (template ["Fetching "; type_text type; " admit card from BSEB API: ";
               url]) ;;;
  apiResponse <- httpGet config env url ;;
  flag <- lift (member apiResponse "success") ;;
  if negb (truthy flag) || negb (truthy (prop apiResponse "data")) then
    ret (AdmitCardService_GET.upstreamFailure apiResponse)
  else
    admitCardData <-
      lift (AdmitCardService_GET.transformResponse
              (prop apiResponse "data") type) ;;
    setInCache env cacheKey admitCardData (ac_cacheTtl (admitCard config)) ;;;
    createSuccessResponse env admitCardData false.

(** What a fetch run from history [h] owes its caller: it returns an
    envelope, the envelope is well formed, [cached] is [true] exactly when
    the data was served from the cache, and fresh data comes with an
    upstream call. *)
Definition envelope_contract (env : Env) (cacheKey : string) (h : Trace)
           (run : Outcome BsebBaseResponse * Trace) : Prop :=
  exists r es,
    run = (Returned r, es) /\
    well_formed r /\
    (cached r = Some true <-> served_from_cache env cacheKey h r es) /\
    (success r = true -> cached r = Some false ->
     (1 <= upstream_calls es)%nat).

(** The line logged before the upstream is asked for form data. *)
Definition fetchingFormData (registrationNumber : string) : Event :=
  EvLog LogInfo
    (template ["Fetching form data from BSEB API: "; registrationNumber]).

(** An upstream that answers 200 with the given body, over a cache store
    that fails on every operation. *)
Definition brokenCacheEnv (body : JsValue) : Env :=
  {| axios := fun _ _ => Returned {| status := 200; data := body |};
     redis_get := fun _ _ => Threw (OtherError "Error" "Connection is closed.");
     redis_set := fun _ _ _ _ =>
                    Threw (OtherError "Error" "Connection is closed.");
     redis_delete := fun _ _ =>
                       Threw (OtherError "Error" "Connection is closed.");
     JSON_parse := fun text => Returned (JStr text);
     JSON_stringify := fun _ => Returned "{}";
     toISOString := fun _ => "2025-01-01T00:00:00.000Z" |}.

(** What [getFromCache] leaves in the trace when the store throws. *)
Definition cacheReadFailure (cacheKey : string) (error : JsError) : Trace :=
  [EvRedisGet cacheKey;
   EvLog LogWarn
     (template ["Cache read error for "; cacheKey; ": "; error_message error])].

(** ** Further observations, for the properties beyond the retry policy *)

(** The outcome of [executeWithRetry] on the outcome of its last call. *)
Definition responseData (o : Outcome AxiosResponse) : Outcome JsValue :=
  match o with
  | Returned response => Returned (data response)
  | Threw error => Threw error
  end.

(** An outcome that ends the retry loop whatever the attempt: a response or
    a client error. *)
Definition final (o : Outcome AxiosResponse) : bool :=
  match o with
  | Returned _ => true
  | Threw error => isClientError error
  end.

(** The keys of the delete commands of a trace, in order. *)
Fixpoint deleted_keys (es : Trace) : list string :=
  match es with
  | [] => []
  | EvRedisDelete key :: rest => key :: deleted_keys rest
  | _ :: rest => deleted_keys rest
  end.

(** The write commands of a trace, in order: key, text and time to live. *)
Fixpoint written (es : Trace) : list (string * string * Z) :=
  match es with
  | [] => []
  | EvRedisSet key text ttl :: rest => (key, text, ttl) :: written rest
  | _ :: rest => written rest
  end.

(** The entry a key-value store holds under [key] after the commands of
    [h], expiry left aside: the text of the last write that no delete
    followed. *)
Definition stored (h : Trace) (key : string) : option string :=
  fold_left
    (fun entry ev =>
       match ev with
       | EvRedisSet k text _ => if (k =? key)%string then Some text else entry
       | EvRedisDelete k => if (k =? key)%string then None else entry
       | _ => entry
       end)
    h None.

(** An environment whose cache store answers every read with what the
    history has left under the key. *)
Definition store_like (env : Env) : Prop :=
  forall h key, redis_get env h key = Returned (stored h key).

(** A store in memory over an upstream that always gives the same answer;
    every value is cached as the text ["entry"], which parses to [entry]. *)
Definition memoryEnv (http : Outcome AxiosResponse) (entry : JsValue) : Env :=
  {| axios := fun _ _ => http;
     redis_get := fun h key => Returned (stored h key);
     redis_set := fun _ _ _ _ => Returned tt;
     redis_delete := fun _ _ => Returned tt;
     JSON_parse := fun _ => Returned entry;
     JSON_stringify := fun _ => Returned "entry";
     toISOString := fun _ => "2025-01-01T00:00:00.000Z" |}.

(** The texts [handleApiError] has of its own. *)
Definition fixedMessages (context : string) : list JsValue :=
  [JStr "No record found for the given details.";
   JStr "Invalid request parameters.";
   JStr "Access denied to BSEB services.";
   JStr "BSEB server error. Please try again later.";
   JStr (template ["Failed to fetch "; context; "."]);
   JStr "Request timed out. Please try again.";
   JStr "BSEB server is currently unavailable. Please try again later.";
   JStr "An unexpected error occurred. Please try again."].

(** The codes under which [handleApiError] passes the upstream's message
    on. *)
Definition relayingCodes : list string :=
  ["NOT_FOUND"; "BAD_REQUEST"; "API_ERROR"].

(** An upstream that answers 503 to its first [failures] calls and [http]
    afterwards, over an empty cache. *)
Definition flakyEnv (failures : nat) (http : Outcome AxiosResponse) : Env :=
  {| axios := fun h _ =>
                if (upstream_calls h <? failures)%nat then httpFailure 503
                else http;
     redis_get := fun _ _ => Returned None;
     redis_set := fun _ _ _ _ => Returned tt;
     redis_delete := fun _ _ => Returned tt;
     JSON_parse := fun text => Returned (JStr text);
     JSON_stringify := fun _ => Returned "{}";
     toISOString := fun _ => "2025-01-01T00:00:00.000Z" |}.

(** What a fetch may do to the outside: at most [retries + 1] upstream
    calls, no delete, and at most one write, which is under the fetch's
    own key, with the domain's time to live, of the serialised data that
    the envelope returns as fresh. *)
Definition io_contract (env : Env) (cacheKey : string) (ttl : Z)
           (retries : nat) (run : Outcome BsebBaseResponse * Trace) : Prop :=
  exists r es,
    run = (Returned r, es) /\
    (upstream_calls es <= retries + 1)%nat /\
    deleted_keys es = [] /\
    (written es = [] \/
     exists text value,
       written es = [(cacheKey, text, ttl)] /\
       JSON_stringify env value = Returned text /\
       payload r = Some value /\
       success r = true /\ cached r = Some false).

(** The same, of the fetch proper, which may also throw. *)
Definition fresh_io (env : Env) (cacheKey : string) (ttl : Z) (retries : nat)
           (fresh : M BsebBaseResponse) : Prop :=
  forall h o es,
    fresh h = (o, es) ->
    (1 <= upstream_calls es <= retries + 1)%nat /\
    deleted_keys es = [] /\
    (written es = [] \/
     exists text value r,
       written es = [(cacheKey, text, ttl)] /\
       JSON_stringify env value = Returned text /\
       o = Returned r /\
       payload r = Some value /\
       success r = true /\ cached r = Some false).

(** Fresh successful data is an object, and is written whenever it can be
    serialised. *)
Definition fresh_writes (env : Env) (cacheKey : string) (ttl : Z)
           (fresh : M BsebBaseResponse) : Prop :=
  forall h r es,
    fresh h = (Returned r, es) -> success r = true ->
    exists value,
      payload r = Some value /\ truthy value = true /\
      forall text,
        JSON_stringify env value = Returned text ->
        written es = [(cacheKey, text, ttl)].

(** After a successful fetch of [value], whose serialisation parses back to
    it, the next fetch answers from the cache with the same [value] and
    without an upstream call. *)
Definition caches_result (env : Env) (fetch : M BsebBaseResponse) (h : Trace)
  : Prop :=
  forall r1 es1 value text,
    fetch h = (Returned r1, es1) ->
    success r1 = true -> payload r1 = Some value ->
    JSON_stringify env value = Returned text ->
    text <> "" ->
    JSON_parse env text = Returned value ->
    exists r2 es2,
      fetch (h ++ es1) = (Returned r2, es2) /\
      success r2 = true /\ cached r2 = Some true /\
      payload r2 = Some value /\
      upstream_calls es2 = 0%nat.

(** The record [transformResponse] makes of the sample form payload. *)
Definition sampleFormRecord : JsValue :=
  match FormDataService.transformResponse sampleFormPayload with
  | Returned normalized => normalized
  | Threw _ => JNull
  end.

(** A successful upstream envelope around the sample form payload. *)
Definition sampleFormAnswer : Outcome AxiosResponse :=
  Returned {| status := 200;
              data := JObj [("success", JBool true);
                            ("data", sampleFormPayload)] |}.

(** The next fetch, run from [h], is not answered from the cache: it calls
    the upstream. *)
Definition fetched_afresh (fetch : M BsebBaseResponse) (h : Trace) : Prop :=
  exists r es,
    fetch h = (Returned r, es) /\
    cached r <> Some true /\
    (1 <= upstream_calls es)%nat.

(** An upstream that answers every call with the same error. *)
Definition upstream_down (env : Env) (error : JsError) : Prop :=
  forall h request, axios env h request = Threw error.

(** The run of a fetch that ends in the classification of [error]: after
    one call if it is a client error, after [retryAttempts + 1] calls and
    the waits of the linear backoff otherwise, and with nothing written. *)
Definition error_outcome (config : ApiConfig) (error : JsError)
           (run : Outcome BsebBaseResponse * Trace) : Prop :=
  exists r,
    fst run = Returned r /\
    success r = false /\ payload r = None /\
    errorCode r = firstMatch mappingTable error /\
    written (snd run) = [] /\
    upstream_calls (snd run)
    = (if isClientError error then 1
       else retryAttempts (global config) + 1)%nat /\
    delays (snd run)
    = (if isClientError error then []
       else linearBackoff (retryDelay (global config))
                          (retryAttempts (global config))).

(** The value the POST transformer maps subjects from:
    [rawData.SubjectDetails || rawData.subjectDetails || []]. *)
Definition rawSubjectDetails (rawData : JsValue) : JsValue :=
  prop rawData "SubjectDetails" ||' prop rawData "subjectDetails" ||' JArr [].

(** The subject entries of the GET transformer: a name, and no schedule. *)
Definition unscheduled (subject : JsValue) : Prop :=
  truthy (prop subject "subjectName") = true /\
  nullish (prop subject "subjectCode") = false /\
  prop subject "examDate" = JStr "" /\
  prop subject "examTime" = JStr "" /\
  prop subject "examShift" = JStr "".

(** ** The validators of the request DTO (bseb/dto/admit-card)

    The decorators of [GetAdmitCardRequestDto], read as class-validator
    runs them: [@ValidateIf(c)] skips the checks of its property when [c]
    is false, [@IsString()] wants a string and [@IsNotEmpty()] one that is
    not empty.  On a field that is an optional string the two checks
    together ask for a string that is present and not empty. *)

Definition passes (condition : bool) (field : option string) : bool :=
  if condition then truthy_str field else true.

Definition valid (dto : GetAdmitCardRequestDto) : bool :=
  passes (negb (truthy_str (rollCode dto)) && negb (truthy_str (rollNumber dto)))
         (registrationNumber dto)
  && passes (negb (truthy_str (registrationNumber dto))) (rollCode dto)
  && passes (negb (truthy_str (registrationNumber dto))) (rollNumber dto).

(** The record the POST transformer makes of an empty payload. *)
Definition sampleAdmitCardRecord : JsValue :=
  match AdmitCardService_POST.transformResponse (JObj []) with
  | Returned normalized => normalized
  | Threw _ => JNull
  end.

(** ** ProfileService (profile/profile.service.ts)

    The student records come from Prisma and the password checks from
    bcrypt; both are parameters here.  A method yields its outcome and the
    database calls it made, in order. *)

Inductive DbCall : Type :=
| DbFindUnique (id : Z)
| DbUpdate (id : Z) (changes : list (string * JsValue))
| DbDelete (id : Z).

Definition D (A : Type) : Type := (Outcome A * list DbCall)%type.

Definition retD {A} (a : A) : D A := (Returned a, []).
Definition throwD {A} (error : JsError) : D A := (Threw error, []).

Definition bindD {A B} (m : D A) (f : A -> D B) : D B :=
  match m with
  | (Returned a, calls) => let (o, calls') := f a in (o, calls ++ calls')
  | (Threw error, calls) => (Threw error, calls)
  end.

Definition liftD {A} (o : Outcome A) : D A := (o, []).

Notation "x <-- m ;; k" := (bindD m (fun x => k))
  (at level 61, m at next level, right associativity).

Definition NotFoundException (text : string) : JsError :=
  OtherError "NotFoundException" text.

Definition UnauthorizedException (text : string) : JsError :=
  OtherError "UnauthorizedException" text.

(** [{...fields, key: value}]: the value takes the place of an earlier one
    under the same key, or comes last. *)
Fixpoint assign (key : string) (value : JsValue)
         (fields : list (string * JsValue)) : list (string * JsValue) :=
  match fields with
  | [] => [(key, value)]
  | (k, v) :: rest =>
      if (key =? k)%string then (k, value) :: rest
      else (k, v) :: assign key value rest
  end.

(** [const { key, ...rest } = fields]: the rest. *)
Definition omit (key : string) (fields : list (string * JsValue))
  : list (string * JsValue) :=
  filter (fun field => negb (fst field =? key)%string) fields.

Record ChangePasswordDto : Type := mkChangePasswordDto {
  currentPassword : JsValue;
  newPassword : JsValue
}.

Inductive ImageType : Type := photo | signature.

Module ProfileService.
Section ProfileService.

(** [process.env.USE_S3 === 'true'], the bucket and the region. *)
Variable useS3 : bool.
Variable bucketName : string.
Variable region : string.

(** Prisma's [student.findUnique], [student.update] and [student.delete],
    and bcrypt's [compare] and [hash]. *)
Variable findUnique : Z -> Outcome (option (list (string * JsValue))).
Variable update : Z -> list (string * JsValue)
                  -> Outcome (list (string * JsValue)).
Variable delete : Z -> Outcome unit.
Variable compare : JsValue -> JsValue -> Outcome bool.
Variable hash : JsValue -> Z -> Outcome JsValue.

Definition prisma_findUnique (id : Z) : D (option (list (string * JsValue))) :=
  (findUnique id, [DbFindUnique id]).

Definition prisma_update (id : Z) (changes : list (string * JsValue))
  : D (list (string * JsValue)) :=
  (update id changes, [DbUpdate id changes]).

Definition prisma_delete (id : Z) : D unit := (delete id, [DbDelete id]).

(** [getFullUrl]: a truthy argument that is not a string has no
    [startsWith]. *)
Definition getFullUrl (relativePath : JsValue) : Outcome JsValue :=
  if negb (truthy relativePath) then Returned JNull
  else
    match relativePath with
    | JStr path =>
        if String.prefix "http://" path || String.prefix "https://" path then
          Returned (JStr path)
        else if useS3 then
          Returned (JStr (template ["https://"; bucketName; ".s3."; region;
                                    ".amazonaws.com/"; path]))
        else Returned (JStr path)
    | _ =>
        Threw (OtherError "TypeError"
                          "relativePath.startsWith is not a function")
    end.

Definition transformStudentUrls (student : list (string * JsValue))
  : Outcome JsValue :=
  photoUrl <~ getFullUrl (lookup "photoUrl" student) ;;
  signatureUrl <~ getFullUrl (lookup "signatureUrl" student) ;;
  Returned (JObj (assign "signatureUrl" signatureUrl
                         (assign "photoUrl" photoUrl student))).

Definition getProfile (userId : Z) : D JsValue :=
  student <-- prisma_findUnique userId ;;
  match student with
  | None => throwD (NotFoundException "Student not found")
  | Some student =>
      let studentWithoutPassword := omit "password" student in
      data <-- liftD (transformStudentUrls studentWithoutPassword) ;;
      retD (JObj [("status", JNum 1); ("data", data)])
  end.

Definition updateProfile (userId : Z) (updateDto : list (string * JsValue))
  : D JsValue :=
  student <-- prisma_update userId updateDto ;;
  let studentWithoutPassword := omit "password" student in
  data <-- liftD (transformStudentUrls studentWithoutPassword) ;;
  retD (JObj [("status", JNum 1);
              ("message", JStr "Profile updated successfully");
              ("data", data)]).

Definition uploadImage (userId : Z) (type : ImageType) (filename : string)
  : D JsValue :=
  let updateData :=
    match type with
    | photo => [("photoUrl", JStr filename)]
    | signature => [("signatureUrl", JStr filename)]
    end in
  student <-- prisma_update userId updateData ;;
  let studentWithoutPassword := omit "password" student in
  data <-- liftD (transformStudentUrls studentWithoutPassword) ;;
  retD (JObj [("status", JNum 1);
              ("message",
               JStr (template [match type with
                               | photo => "photo"
                               | signature => "signature"
                               end; " uploaded successfully"]));
              ("data", data)]).

Definition upgradeClass (userId : Z) (upgradeDto : JsValue) : D JsValue :=
  newClass <-- liftD (member upgradeDto "newClass") ;;
  student <-- prisma_update userId
    [("class", newClass);
     ("stream", prop upgradeDto "newStream" ||' JUndefined);
     ("rollNumber", prop upgradeDto "newRollNumber" ||' JUndefined);
     ("rollCode", prop upgradeDto "newRollCode" ||' JUndefined);
     ("registrationNumber",
      prop upgradeDto "newRegistrationNumber" ||' JUndefined);
     ("schoolName", prop upgradeDto "newSchoolName" ||' JUndefined)] ;;
  let userWithoutPassword := omit "password" student in
  data <-- liftD (transformStudentUrls userWithoutPassword) ;;
  retD (JObj [("status", JNum 1);
              ("message", JStr "Class upgraded successfully");
              ("data", data)]).

Definition changePassword (userId : Z) (changePasswordDto : ChangePasswordDto)
  : D JsValue :=
  user <-- prisma_findUnique userId ;;
  match user with
  | None => throwD (NotFoundException "User not found")
  | Some user =>
      isCurrentPasswordValid <--
        liftD (compare (currentPassword changePasswordDto)
                       (lookup "password" user)) ;;
      if negb isCurrentPasswordValid then
        throwD (UnauthorizedException "Current password is incorrect")
      else
        isSamePassword <--
          liftD (compare (newPassword changePasswordDto)
                         (lookup "password" user)) ;;
        if isSamePassword then
          throwD (UnauthorizedException
                    "New password must be different from current password")
        else
          hashedPassword <--
            liftD (hash (newPassword changePasswordDto) 10) ;;
          _ <-- prisma_update userId [("password", hashedPassword)] ;;
          retD (JObj [("status", JNum 1);
                      ("message", JStr "Password changed successfully")])
  end.

Definition deleteAccount (userId : Z) : D JsValue :=
  _ <-- prisma_delete userId ;;
  retD (JObj [("status", JNum 1);
              ("message", JStr "Account deleted successfully")]).

End ProfileService.
End ProfileService.

(** What a profile response shows of the student record it was made from:
    no password, the two URLs made absolute, every other field as it is. *)
Definition public_profile (useS3 : bool) (bucketName region : string)
           (student : list (string * JsValue)) (response : JsValue) : Prop :=
  let data := prop response "data" in
  prop data "password" = JUndefined /\
  ProfileService.getFullUrl useS3 bucketName region (lookup "photoUrl" student)
  = Returned (prop data "photoUrl") /\
  ProfileService.getFullUrl useS3 bucketName region
                            (lookup "signatureUrl" student)
  = Returned (prop data "signatureUrl") /\
  forall key,
    key <> "password" -> key <> "photoUrl" -> key <> "signatureUrl" ->
    prop data key = lookup key student.

(** A student record as Prisma returns it. *)
Definition sampleStudent : list (string * JsValue) :=
  [("id", JNum 7);
   ("fullName", JStr "NANDINI KUMARI");
   ("password", JStr "$2b$10$hash");
   ("photoUrl", JStr "photo/91341-00009-24.jpg");
   ("signatureUrl", JNull)].

(** The line logged before the upstream is asked for an admit card, in the
    GET version. *)
Definition fetchingAdmitCard_GET (config : ApiConfig) (type : AdmitCardType)
           (identifier : string) : Event :=
  EvLog LogInfo
    (template ["Fetching "; type_text type; " admit card from BSEB API: ";
               AdmitCardService_GET.urlOf config identifier]).

(** A fresh success: the envelope carries [normalized] as fresh data and
    nothing else, and [normalized] is what the trace writes under
    [cacheKey] whenever it can be serialised. *)
Definition fresh_success (env : Env) (cacheKey : string) (ttl : Z)
           (normalized : JsValue) (r : BsebBaseResponse) (es : Trace) : Prop :=
  success r = true /\ payload r = Some normalized /\
  cached r = Some false /\ message r = None /\ errorCode r = None /\
  forall text,
    JSON_stringify env normalized = Returned text ->
    written es = [(cacheKey, text, ttl)].

(** The requests sent to the upstream in a trace, in order. *)
Fixpoint requests (es : Trace) : list Request :=
  match es with
  | [] => []
  | EvAxios request :: rest => request :: requests rest
  | _ :: rest => requests rest
  end.

(** The configuration [httpGet] and [httpPost] send with every request. *)
Definition getConfig (config : ApiConfig) : AxiosRequestConfig :=
  {| cfg_timeout := timeout (global config);
     cfg_headers := [("Accept", "application/json");
                     ("User-Agent", userAgent (global config))] |}.

Definition postConfig (config : ApiConfig) : AxiosRequestConfig :=
  {| cfg_timeout := timeout (global config);
     cfg_headers := [("Content-Type", "application/json");
                     ("Accept", "application/json");
                     ("User-Agent", userAgent (global config))] |}.

(** All upstream traffic of a run is the one [request], sent at most
    [retries + 1] times. *)
Definition sends_only (request : Request) (retries : nat) (es : Trace) : Prop :=
  exists n, (n <= retries + 1)%nat /\ requests es = repeat request n.

(** * Properties *)

(** ** Running computations *)

Lemma run_bind {A B} (m : M A) (f : A -> M B) h :
  bind m f h =
  match m h with
  | (Returned a, es) => let (r, es') := f a (h ++ es) in (r, es ++ es')
  | (Threw error, es) => (Threw error, es)
  end.
Proof. reflexivity. Qed.

Lemma run_try_catch {A} (body : M A) handler h :
  try_catch body handler h =
  match body h with
  | (Returned a, es) => (Returned a, es)
  | (Threw error, es) =>
      let (r, es') := handler error (h ++ es) in (r, es ++ es')
  end.
Proof. reflexivity. Qed.

Lemma transient_not_client error :
  transient error = true -> isClientError error = false.
Proof.
  destruct error as [code [response|] text | name text]; simpl; auto.
  intros H. apply Z.leb_le in H.
  unfold isClientError. simpl.
  apply andb_false_intro2, Z.ltb_ge. lia.
Qed.

Lemma client_status_is_client code response text :
  400 <= status response < 500 ->
  isClientError (AxiosError code (Some response) text) = true.
Proof.
  intros [H1 H2]. unfold isClientError. simpl.
  apply andb_true_intro. split; [apply Z.leb_le | apply Z.ltb_lt]; assumption.
Qed.

(** A client error ends the loop on the spot, whatever the attempt: the
    outcome and events are those of the one call. *)
Lemma attemptLoop_client_error config requestFn retries attempt remaining h
      error es :
  requestFn h = (Threw error, es) ->
  isClientError error = true ->
  attemptLoop config requestFn retries attempt remaining h = (Threw error, es).
Proof.
  intros Hrun Hclient.
  destruct remaining; simpl; rewrite run_try_catch, run_bind, Hrun, Hclient;
    unfold throw; rewrite app_nil_r; reflexivity.
Qed.

Lemma upstream_calls_app es es' :
  upstream_calls (es ++ es') = (upstream_calls es + upstream_calls es')%nat.
Proof. unfold upstream_calls. rewrite filter_app, length_app. reflexivity. Qed.

Lemma delays_app es es' : delays (es ++ es') = delays es ++ delays es'.
Proof.
  induction es as [|ev es IH]; simpl; auto.
  destruct ev; simpl; rewrite IH; reflexivity.
Qed.

Lemma upstream_calls_failedAttempts d request retries k :
  upstream_calls (failedAttempts d (sending request) retries k) = k.
Proof.
  induction k as [|k IH]; simpl; auto.
  rewrite upstream_calls_app, IH. unfold upstream_calls. simpl. lia.
Qed.

Lemma delays_failedAttempts d request retries k :
  delays (failedAttempts d (sending request) retries k) = linearBackoff d k.
Proof.
  unfold linearBackoff.
  induction k as [|k IH]; simpl failedAttempts; auto.
  rewrite delays_app, IH, seq_S, map_app. simpl.
  replace (k + 1)%nat with (S k) by lia. reflexivity.
Qed.

Lemma increasing_linear d n start :
  0 < d ->
  increasing (map (fun k => d * Z.of_nat k) (seq start n)).
Proof.
  intros Hd. revert start.
  induction n as [|n IH]; intros start; simpl; auto.
  destruct n as [|n]; simpl; auto.
  split; [nia | exact (IH (S start))].
Qed.

Section RetryPolicy.

Variable config : ApiConfig.
Variable requestFn : M AxiosResponse.
Variable retries : nat.
Variable h : Trace.
Variable calls : nat -> Trace.
Variable errors : nat -> JsError.

(** Every attempt up to the last fails, and fails transiently. *)
Hypothesis all_transient :
  forall k, (k <= retries)%nat ->
    requestFn (h ++ failedAttempts (retryDelay (global config))
                                   calls retries k)
    = (Threw (errors k), calls k) /\
    transient (errors k) = true.

Lemma attemptLoop_transient remaining :
  forall attempt, (attempt + remaining = retries)%nat ->
    exists es,
      attemptLoop config requestFn retries attempt remaining
        (h ++ failedAttempts (retryDelay (global config))
                             calls retries attempt)
      = (Threw (errors retries), es) /\
      failedAttempts (retryDelay (global config)) calls retries attempt ++ es
      = failedAttempts (retryDelay (global config)) calls retries retries
        ++ calls retries.
Proof.
  induction remaining as [|remaining IH]; intros attempt Hsum.
  - assert (attempt = retries) by lia. subst attempt.
    destruct (all_transient (Nat.le_refl retries)) as [Hcall Htr].
    exists (calls retries). split; [|reflexivity].
    simpl. rewrite run_try_catch, run_bind.
    rewrite Hcall, (transient_not_client _ Htr), Nat.ltb_irrefl.
    unfold ret, throw, bind. rewrite !app_nil_r. reflexivity.
  - assert (Hle : (attempt <= retries)%nat) by lia.
    destruct (all_transient Hle) as [Hcall Htr].
    destruct (IH (S attempt)) as [es [Hrun Hes]]; [lia|].
    exists (calls attempt
            ++ [retryWarning attempt retries;
                EvDelay (retryDelay (global config)
                         * Z.of_nat (attempt + 1))] ++ es).
    split.
    + simpl attemptLoop. rewrite run_try_catch, run_bind.
      rewrite Hcall.
      rewrite (transient_not_client _ Htr).
      assert (Hlt : (attempt <? retries)%nat = true)
        by (apply Nat.ltb_lt; lia).
      rewrite Hlt. rewrite run_bind.
      unfold logger, delay, emit. rewrite run_bind. simpl fst.
      cbv beta iota.
      replace (((h ++ failedAttempts (retryDelay (global config))
                                     calls retries attempt)
                ++ calls attempt)
               ++ [EvLog LogWarn
                     (template ["Request failed, retrying (";
                                show_nat (attempt + 1); "/";
                                show_nat retries; ")..."])]
               ++ [EvDelay (retryDelay (global config)
                            * Z.of_nat (attempt + 1))])
        with (h ++ failedAttempts (retryDelay (global config))
                                  calls retries (S attempt)).
      * rewrite Hrun. reflexivity.
      * simpl failedAttempts. unfold retryWarning.
        rewrite <- !app_assoc. reflexivity.
    + rewrite <- Hes. simpl failedAttempts.
      rewrite <- !app_assoc. reflexivity.
Qed.

Lemma executeWithRetry_transient :
  executeWithRetry config requestFn retries h
  = (Threw (errors retries),
     failedAttempts (retryDelay (global config)) calls retries retries
     ++ calls retries).
Proof.
  destruct (attemptLoop_transient retries 0%nat (Nat.add_0_l retries))
    as [es [Hrun Hes]].
  simpl in Hrun, Hes. rewrite app_nil_r in Hrun.
  unfold executeWithRetry. rewrite Hrun, Hes. reflexivity.
Qed.

End RetryPolicy.

(** C1. When every attempt fails transiently (HTTP status of 500 or more,
    timeout, or an error without an HTTP response), [executeWithRetry] runs
    the operation exactly [retries + 1] times and, after the failed attempt
    number [n] (counted from 1) and before the next one, waits
    [retryDelay * n]; at the end it throws the error of the last attempt as
    it received it.  For any operation the trace is that of the
    [retries + 1] runs with the warnings and waits in between; for a
    request sent through axios, against any environment, the calls number
    [retries + 1] and the waits are [retryDelay * 1, ..., retryDelay *
    retries], strictly increasing when [retryDelay] is positive. *)
Theorem executeWithRetry_transient_failures :
  forall (config : ApiConfig) (retries : nat) (h : Trace)
         (errors : nat -> JsError),
    (forall (requestFn : M AxiosResponse) (calls : nat -> Trace),
        (forall k, (k <= retries)%nat ->
           requestFn (h ++ failedAttempts (retryDelay (global config))
                                          calls retries k)
           = (Threw (errors k), calls k) /\
           transient (errors k) = true) ->
        executeWithRetry config requestFn retries h
        = (Threw (errors retries),
           failedAttempts (retryDelay (global config)) calls retries retries
           ++ calls retries)) /\
    (forall (env : Env) (request : Request),
        (forall k, (k <= retries)%nat ->
           axios env (h ++ failedAttempts (retryDelay (global config))
                                          (sending request) retries k) request
           = Threw (errors k) /\
           transient (errors k) = true) ->
        let run := executeWithRetry config (send env request) retries h in
        fst run = Threw (errors retries) /\
        snd run = failedAttempts (retryDelay (global config))
                                 (sending request) retries retries
                  ++ [EvAxios request] /\
        upstream_calls (snd run) = (retries + 1)%nat /\
        delays (snd run) = linearBackoff (retryDelay (global config)) retries /\
        (0 < retryDelay (global config) -> increasing (delays (snd run)))).
Proof.
  intros config retries h errors.
  split.
  - intros requestFn calls Hall.
    apply executeWithRetry_transient. exact Hall.
  - intros env request Hall run.
    assert (Hrun : run = (Threw (errors retries),
                          failedAttempts (retryDelay (global config))
                                         (sending request) retries retries
                          ++ [EvAxios request])).
    { subst run.
      apply (@executeWithRetry_transient config (send env request) retries h
                                         (sending request) errors).
      intros k Hk. destruct (Hall k Hk) as [Hcall Htr].
      split; [|exact Htr].
      unfold send, perform. rewrite Hcall. reflexivity. }
    rewrite Hrun. cbn [fst snd].
    split; [reflexivity|]. split; [reflexivity|].
    rewrite upstream_calls_app, delays_app,
      upstream_calls_failedAttempts, delays_failedAttempts.
    simpl. rewrite app_nil_r.
    repeat split; auto.
    intros Hd. apply increasing_linear. exact Hd.
Qed.

(** With the configured two retries and one-second base delay, an upstream
    that always answers 503 is called three times, with waits of 1000 and
    2000 ms. *)
Lemma executeWithRetry_transient_failures_witness :
  let env := sampleEnv (httpFailure 503) (Returned None) in
  let request := Get "u" {| cfg_timeout := 30000; cfg_headers := [] |} in
  let run := executeWithRetry BsebApiConfig (send env request) 2 [] in
  fst run = httpFailure 503 /\
  upstream_calls (snd run) = 3%nat /\
  delays (snd run) = [1000; 2000].
Proof.
  intros env request run.
  destruct (executeWithRetry_transient_failures BsebApiConfig 2 []
              (fun _ => httpError 503)) as [_ Hsend].
  destruct (Hsend env request) as [Hfst [_ [Hcalls [Hdelays _]]]].
  - intros k _. split; reflexivity.
  - split; [exact Hfst | split; [exact Hcalls | exact Hdelays]].
Defined.

(** C2. When the operation fails with an HTTP error whose status lies in
    [400, 500), [executeWithRetry] throws that very error after the one
    call: its trace is the trace of that call, with no wait and no second
    call.  This holds for any operation; for a request sent through axios
    the trace is the single call event. *)
Theorem executeWithRetry_client_error :
  forall (config : ApiConfig) (retries : nat) (h : Trace)
         (code : option string) (response : AxiosResponse) (text : string),
    400 <= status response < 500 ->
    (forall (requestFn : M AxiosResponse) (es : Trace),
        requestFn h = (Threw (AxiosError code (Some response) text), es) ->
        executeWithRetry config requestFn retries h
        = (Threw (AxiosError code (Some response) text), es)) /\
    (forall (env : Env) (request : Request),
        axios env h request = Threw (AxiosError code (Some response) text) ->
        let run := executeWithRetry config (send env request) retries h in
        fst run = Threw (AxiosError code (Some response) text) /\
        snd run = [EvAxios request] /\
        upstream_calls (snd run) = 1%nat /\
        delays (snd run) = []).
Proof.
  intros config retries h code response text Hstatus.
  assert (Hgen : forall (requestFn : M AxiosResponse) (es : Trace),
             requestFn h = (Threw (AxiosError code (Some response) text), es) ->
             executeWithRetry config requestFn retries h
             = (Threw (AxiosError code (Some response) text), es)).
  { intros requestFn es Hrun. unfold executeWithRetry.
    apply attemptLoop_client_error; [exact Hrun|].
    apply client_status_is_client. exact Hstatus. }
  split; [exact Hgen|].
  intros env request Hcall run. subst run.
  rewrite (Hgen (send env request) [EvAxios request]).
  - repeat split.
  - unfold send, perform. rewrite Hcall. reflexivity.
Qed.

Lemma executeWithRetry_client_error_witness :
  let env := sampleEnv (httpFailure 404) (Returned None) in
  let request := Get "u" {| cfg_timeout := 30000; cfg_headers := [] |} in
  let run := executeWithRetry BsebApiConfig (send env request) 2 [] in
  fst run = httpFailure 404 /\ snd run = [EvAxios request].
Proof.
  intros env request run.
  destruct (executeWithRetry_client_error BsebApiConfig 2 []
              (Some "ERR_BAD_RESPONSE") {| status := 404; data := JNull |}
              "Request failed") as [_ Hsend].
  - simpl. lia.
  - destruct (Hsend env request eq_refl) as [Hfst [Hsnd _]].
    split; [exact Hfst | exact Hsnd].
Defined.

(** ** The error normaliser *)

Lemma firstMatch_in_taxonomy error :
  exists code, firstMatch mappingTable error = Some code /\ In code taxonomy.
Proof.
  unfold mappingTable, firstMatch.
  repeat match goal with
         | |- context [if ?c then _ else _] => destruct c
         end;
    eexists; (split; [reflexivity | simpl; tauto]).
Qed.

(** C3. For every error, [handleApiError] returns (it does not throw) an
    envelope whose [errorCode] is the one the mapping table gives, rows
    tried in order and the first match taken: 404, 400, 401 or 403, 500 and
    above, any other HTTP response, timeout code, DNS or refused-connection
    code, anything else.  The code is one of the eight of the taxonomy. *)
Theorem handleApiError_classification :
  forall (env : Env) (error : JsError) (context identifier : string)
         (h : Trace),
  exists (r : BsebBaseResponse) (es : Trace),
    handleApiError env error context identifier h = (Returned r, es) /\
    errorCode r = firstMatch mappingTable error /\
    (exists code, errorCode r = Some code /\ In code taxonomy).
Proof.
  intros env error context identifier h.
  assert (Hrun : exists r es,
             handleApiError env error context identifier h = (Returned r, es) /\
             errorCode r = firstMatch mappingTable error).
  { destruct error as [code [[s d]|] text | name text];
      unfold handleApiError, now, bind, logger, emit, ret, code_is;
      cbn -[Z.eqb Z.leb String.eqb template show_Z].
    - destruct (s =? 404) eqn:E404;
        [ do 2 eexists; split; reflexivity |].
      destruct (s =? 400) eqn:E400;
        [ do 2 eexists; split; reflexivity |].
      destruct ((s =? 401) || (s =? 403)) eqn:E401;
        [ do 2 eexists; split; reflexivity |].
      destruct (500 <=? s) eqn:E500;
        do 2 eexists; split; reflexivity.
    - destruct code as [c|]; cbn -[String.eqb template].
      + destruct (c =? "ECONNABORTED")%string eqn:E1;
          cbn -[String.eqb template];
          [ do 2 eexists; split; reflexivity |].
        destruct (c =? "ENOTFOUND")%string eqn:E2;
          cbn -[String.eqb template];
          [ do 2 eexists; split; reflexivity |].
        destruct (c =? "ECONNREFUSED")%string eqn:E3;
          cbn -[String.eqb template];
          do 2 eexists; split; reflexivity.
      + do 2 eexists; split; reflexivity.
    - do 2 eexists; split; reflexivity. }
  destruct Hrun as [r [es [Hrun Hcode]]].
  exists r, es. split; [exact Hrun|]. split; [exact Hcode|].
  rewrite Hcode. apply firstMatch_in_taxonomy.
Qed.

(** ** Field reconciliation *)




(** ** The cache adapter never throws *)

(** [getFromCache] returns on every environment.  It performs the one read,
    then at most logs a warning; when the store or the parser throws, the
    result is [null]. *)
Lemma getFromCache_returns env cacheKey h :
  exists v es,
    getFromCache env cacheKey h = (Returned v, EvRedisGet cacheKey :: es) /\
    Forall is_warning es /\
    (forall error, redis_get env h cacheKey = Threw error -> v = JNull).
Proof.
  unfold getFromCache. rewrite run_try_catch, run_bind.
  unfold perform, logger, emit, ret, lift.
  destruct (redis_get env h cacheKey) as [cached|error] eqn:Hget.
  - destruct (truthy_str cached).
    + destruct (JSON_parse env (interp cached)) as [v|error].
      * exists v, []. repeat split; auto. discriminate.
      * rewrite run_bind. eexists JNull, [_]. simpl.
        repeat split; auto. constructor; [eexists; reflexivity | constructor].
    + exists JNull, []. repeat split; auto.
  - rewrite run_bind. eexists JNull, [_]. simpl.
    repeat split; auto. constructor; [eexists; reflexivity | constructor].
Qed.

(** [setInCache] returns on every environment; it performs at most the one
    write and at most logs a warning. *)
Lemma setInCache_returns env cacheKey value ttl h :
  exists es,
    setInCache env cacheKey value ttl h = (Returned tt, es) /\
    upstream_calls es = 0%nat /\ error_logs es = 0%nat.
Proof.
  unfold setInCache. rewrite run_try_catch, run_bind.
  unfold perform, logger, emit, lift.
  destruct (JSON_stringify env value) as [text|error].
  - destruct (redis_set env (h ++ []) cacheKey text ttl) as [[]|error];
      eexists; repeat split; reflexivity.
  - eexists; repeat split; reflexivity.
Qed.

Lemma deleteFromCache_returns env cacheKey h :
  exists es,
    deleteFromCache env cacheKey h = (Returned tt, EvRedisDelete cacheKey :: es) /\
    Forall is_warning es.
Proof.
  unfold deleteFromCache. rewrite run_try_catch.
  unfold perform, logger, emit.
  destruct (redis_delete env h cacheKey) as [[]|error].
  - exists []. split; auto.
  - eexists [_]. split; [reflexivity|].
    constructor; [eexists; reflexivity | constructor].
Qed.

Lemma forEach_deleteFromCache_returns env keys :
  forall h, exists es, forEach (deleteFromCache env) keys h = (Returned tt, es).
Proof.
  induction keys as [|key keys IH]; intros h; simpl.
  - eexists; reflexivity.
  - rewrite run_bind.
    destruct (deleteFromCache_returns env key h) as [es [-> _]].
    destruct (IH (h ++ EvRedisDelete key :: es)) as [es' ->].
    eexists; reflexivity.
Qed.

(** ** What the retry loop leaves in the trace *)

Lemma count_app (p : Event -> bool) es es' :
  length (filter p (es ++ es'))
  = (length (filter p es) + length (filter p es'))%nat.
Proof. rewrite filter_app, length_app. reflexivity. Qed.

Lemma retry_events_counts es :
  forallb is_retry_event es = true ->
  cache_calls es = 0%nat /\ cache_writes es = 0%nat /\ error_logs es = 0%nat.
Proof.
  unfold cache_calls, cache_writes, error_logs.
  induction es as [|ev es IH]; simpl; auto.
  intros H. apply andb_prop in H. destruct H as [Hev Hes].
  destruct ev as [| | | | |[] ?]; simpl in *; try discriminate; auto.
Qed.

Lemma warnings_counts es :
  Forall is_warning es ->
  upstream_calls es = 0%nat /\ cache_calls es = 0%nat /\
  cache_writes es = 0%nat /\ error_logs es = 0%nat.
Proof.
  unfold upstream_calls, cache_calls, cache_writes, error_logs.
  induction 1 as [|ev es [text ->] _ IH]; simpl; auto.
Qed.

(** Whatever the upstream answers, [executeWithRetry] on a request begins
    with a call and performs nothing but calls, warnings and waits. *)
Lemma attemptLoop_events config env request retries remaining :
  forall attempt h,
  exists r es,
    attemptLoop config (send env request) retries attempt remaining h
    = (r, EvAxios request :: es) /\
    forallb is_retry_event es = true.
Proof.
  induction remaining as [|remaining IH]; intros attempt h;
    simpl attemptLoop; rewrite run_try_catch, run_bind;
    unfold send at 1, perform;
    destruct (axios env h request) as [response|error].
  - do 2 eexists. split; reflexivity.
  - destruct (isClientError error); [do 2 eexists; split; reflexivity|].
    rewrite run_bind.
    destruct (attempt <? retries)%nat; do 2 eexists; split; reflexivity.
  - do 2 eexists. split; reflexivity.
  - destruct (isClientError error); [do 2 eexists; split; reflexivity|].
    rewrite run_bind.
    destruct (attempt <? retries)%nat.
    + rewrite run_bind. unfold logger, delay, emit. cbv beta iota.
      match goal with
      | |- context [attemptLoop _ _ _ _ _ ?h'] =>
          destruct (IH (S attempt) h') as [r [es [-> Hes]]]
      end.
      do 2 eexists. split; [reflexivity|]. simpl. exact Hes.
    + unfold ret. cbv beta iota.
      match goal with
      | |- context [attemptLoop _ _ _ _ _ ?h'] =>
          destruct (IH (S attempt) h') as [r [es [-> Hes]]]
      end.
      do 2 eexists. split; [reflexivity|]. simpl. exact Hes.
Qed.

Lemma executeWithRetry_events config env request retries h :
  exists r es,
    executeWithRetry config (send env request) retries h = (r, es) /\
    (1 <= upstream_calls es)%nat /\
    cache_calls es = 0%nat /\ cache_writes es = 0%nat /\ error_logs es = 0%nat.
Proof.
  unfold executeWithRetry.
  destruct (attemptLoop_events config env request retries retries 0%nat h)
    as [r [es [-> Hes]]].
  exists r, (EvAxios request :: es). split; [reflexivity|].
  destruct (retry_events_counts es Hes) as [H1 [H2 H3]].
  unfold upstream_calls, cache_calls, cache_writes, error_logs in *.
  simpl. repeat split; auto; lia.
Qed.

(** ** The error normaliser answers with a failure envelope *)

Lemma js_or_truthy a b : truthy b = true -> truthy (a ||' b) = true.
Proof. unfold js_or. destruct (truthy a) eqn:E; auto. Qed.

Ltac failure_envelope :=
  do 2 eexists;
  do 4 (split; [reflexivity|]);
  split;
  [ eexists; split;
    [ reflexivity | first [reflexivity | apply js_or_truthy; reflexivity] ]
  | split; [eexists; reflexivity | split; reflexivity] ].

Lemma handleApiError_returns env error context identifier h :
  exists r es,
    handleApiError env error context identifier h = (Returned r, es) /\
    success r = false /\ payload r = None /\ cached r = None /\
    (exists text, message r = Some text /\ truthy text = true) /\
    (exists code, errorCode r = Some code) /\
    upstream_calls es = 0%nat /\ cache_calls es = 0%nat.
Proof.
  destruct error as [code [[s d]|] text | name text];
    unfold handleApiError, now, bind, logger, emit, ret, code_is;
    cbn -[Z.eqb Z.leb String.eqb template show_Z].
  - destruct (s =? 404); [failure_envelope|].
    destruct (s =? 400); [failure_envelope|].
    destruct ((s =? 401) || (s =? 403)); [failure_envelope|].
    destruct (500 <=? s); failure_envelope.
  - destruct code as [c|]; cbn -[String.eqb template].
    + destruct (c =? "ECONNABORTED")%string; cbn -[String.eqb template];
        [failure_envelope|].
      destruct (c =? "ENOTFOUND")%string; cbn -[String.eqb template];
        [failure_envelope|].
      destruct (c =? "ECONNREFUSED")%string; cbn -[String.eqb template];
        failure_envelope.
    + failure_envelope.
  - failure_envelope.
Qed.

(** ** Validation of admit-card requests *)

(** C10. The GET version of the admit-card service rejects every request
    without a registration number, roll code and roll number supplied or
    not: it returns the envelope [{success: false, message: 'Registration
    number is required'}] and performs no I/O at all. *)
Theorem getAdmitCard_GET_requires_registrationNumber :
  forall (config : ApiConfig) (env : Env) (dto : GetAdmitCardRequestDto)
         (type : AdmitCardType) (h : Trace),
    truthy_str (registrationNumber dto) = false ->
    let run := AdmitCardService_GET.getAdmitCard config env dto type h in
    (exists r,
        fst run = Returned r /\
        success r = false /\
        message r = Some (JStr "Registration number is required") /\
        payload r = None) /\
    snd run = [] /\
    upstream_calls (snd run) = 0%nat /\
    cache_calls (snd run) = 0%nat.
Proof.
  intros config env dto type h Hreg run. subst run.
  unfold AdmitCardService_GET.getAdmitCard. rewrite Hreg. simpl.
  split; [|repeat split].
  eexists. repeat split.
Qed.

Lemma getAdmitCard_GET_requires_registrationNumber_witness :
  let env := sampleEnv (Returned {| status := 200; data := JObj [] |})
                       (Returned None) in
  let dto := {| registrationNumber := None;
                rollCode := Some "71100";
                rollNumber := Some "123456789" |} in
  snd (AdmitCardService_GET.getAdmitCard BsebApiConfig env dto THEORY []) = [].
Proof.
  intros env dto.
  exact (proj1 (proj2 (getAdmitCard_GET_requires_registrationNumber
                         BsebApiConfig env dto THEORY [] eq_refl))).
Defined.

Lemma bind_first_event {A B} (m : M A) (f : A -> M B) h a ev es :
  m h = (Returned a, ev :: es) ->
  exists r es', bind m f h = (r, ev :: es').
Proof.
  intros Hm. rewrite run_bind, Hm.
  destruct (f a (h ++ ev :: es)) as [r es']. do 2 eexists. reflexivity.
Qed.

Lemma try_catch_first_event {A} (body : M A) handler h r ev es :
  body h = (r, ev :: es) ->
  exists r' es', try_catch body handler h = (r', ev :: es').
Proof.
  intros Hbody. rewrite run_try_catch, Hbody.
  destruct r as [a|error]; [do 2 eexists; reflexivity|].
  destruct (handler error (h ++ ev :: es)) as [r' es'].
  do 2 eexists. reflexivity.
Qed.

(** The claim, as the specification has it, fails on the POST version: an
    empty request is looked up in the cache and sent to the upstream. *)
Lemma getAdmitCard_POST_accepts_empty_request :
  let env := sampleEnv (Returned {| status := 200; data := JObj [] |})
                       (Returned None) in
  let dto := {| registrationNumber := None;
                rollCode := None;
                rollNumber := None |} in
  let run := AdmitCardService_POST.getAdmitCard BsebApiConfig env dto THEORY [] in
  lacks_identifier dto = true /\
  (exists r, fst run = Returned r /\ success r = true) /\
  upstream_calls (snd run) = 1%nat /\
  cache_calls (snd run) = 2%nat /\
  ~ rejected_without_io run.
Proof.
  intros env dto run.
  split; [reflexivity|].
  split; [eexists; split; reflexivity|].
  split; [reflexivity|].
  split; [reflexivity|].
  intros [_ [Hcalls _]]. discriminate Hcalls.
Qed.

(** C4, amended.  For a request that names no student, the GET version
    answers with the failure envelope whose message is 'Registration number
    is required' and performs no upstream and no cache call.  The POST
    version does not check the request: it first reads the cache under the
    key of the identifier [`${rollCode}-${rollNumber}`]. *)
Theorem getAdmitCard_without_identifier :
  forall (config : ApiConfig) (env : Env) (dto : GetAdmitCardRequestDto)
         (type : AdmitCardType) (h : Trace),
    lacks_identifier dto = true ->
    rejected_without_io
      (AdmitCardService_GET.getAdmitCard config env dto type h) /\
    fst (AdmitCardService_GET.getAdmitCard config env dto type h)
    = Returned {| success := false;
                  payload := None;
                  message := Some (JStr "Registration number is required");
                  errorCode := None;
                  cached := None;
                  timestamp := None |} /\
    (exists r es,
        AdmitCardService_POST.getAdmitCard config env dto type h
        = (r, EvRedisGet
                (AdmitCardService_POST.cacheKeyOf config type
                   (template [interp (rollCode dto); "-";
                              interp (rollNumber dto)])) :: es)).
Proof.
  intros config env dto type h Hlacks.
  unfold lacks_identifier in Hlacks.
  apply andb_prop in Hlacks. destruct Hlacks as [Hreg _].
  apply negb_true_iff in Hreg.
  split; [|split].
  - unfold rejected_without_io, AdmitCardService_GET.getAdmitCard.
    rewrite Hreg. simpl. split; [|split; reflexivity].
    do 2 eexists. repeat split.
  - unfold AdmitCardService_GET.getAdmitCard. rewrite Hreg. reflexivity.
  - unfold AdmitCardService_POST.getAdmitCard, getIdentifier. rewrite Hreg.
    match goal with
    | |- context [getFromCache env ?key] =>
        destruct (getFromCache_returns env key h) as [v [es [Hget _]]]
    end.
    match goal with
    | |- context [try_catch (bind _ ?f) _ _] =>
        destruct (bind_first_event _ f _ Hget) as [r [es' Hbind]]
    end.
    exact (try_catch_first_event _ _ _ Hbind).
Qed.

Lemma getAdmitCard_without_identifier_witness :
  let env := sampleEnv (Returned {| status := 200; data := JObj [] |})
                       (Returned None) in
  let dto := {| registrationNumber := None;
                rollCode := Some "71100";
                rollNumber := None |} in
  rejected_without_io
    (AdmitCardService_GET.getAdmitCard BsebApiConfig env dto PRACTICAL []).
Proof.
  intros env dto.
  exact (proj1 (getAdmitCard_without_identifier
                  BsebApiConfig env dto PRACTICAL [] eq_refl)).
Defined.

(** ** The raw payload in the normalised records *)

Ltac step_bindO H :=
  match type of H with
  | context [bindO ?o _] =>
      let v := fresh "v" in
      destruct o as [v|]; cbn [bindO] in H; [|discriminate H]
  end.

(** The claim, as the specification has it, fails on both admit-card
    transformers: no key of the normalised record holds the payload. *)
Lemma transformResponse_admit_card_drops_raw :
  (exists normalized,
      AdmitCardService_POST.transformResponse sampleAdmitCardPayload
      = Returned normalized /\
      ~ preserves_raw normalized sampleAdmitCardPayload) /\
  (exists normalized,
      AdmitCardService_GET.transformResponse sampleFormPayload THEORY
      = Returned normalized /\
      ~ preserves_raw normalized sampleFormPayload).
Proof.
  split; eexists; (split; [reflexivity|]); intros [key Hkey];
    cbn [prop lookup] in Hkey;
    repeat match type of Hkey with
           | context [if ?c then _ else _] => destruct c
           end;
    discriminate Hkey.
Qed.

(** C9, amended.  The form-data transformer returns for every payload that
    is neither [null] nor [undefined], and its record holds the payload
    itself under [rawData].  The records of the two admit-card transformers
    are made of [studentDetails] and [subjectDetails] (and [photoUrl] in
    the GET version) and nothing else. *)
Theorem transformResponse_raw_payload :
  (forall raw,
      nullish raw = false ->
      exists normalized,
        FormDataService.transformResponse raw = Returned normalized /\
        prop normalized "rawData" = raw /\
        preserves_raw normalized raw) /\
  (forall rawData normalized,
      AdmitCardService_POST.transformResponse rawData = Returned normalized ->
      exists student subjects,
        normalized = JObj [("studentDetails", JObj student);
                           ("subjectDetails", JArr subjects)]) /\
  (forall rawData type normalized,
      AdmitCardService_GET.transformResponse rawData type = Returned normalized ->
      exists student subjects photo,
        normalized = JObj [("studentDetails", JObj student);
                           ("subjectDetails", JArr subjects);
                           ("photoUrl", photo)]).
Proof.
  split; [|split].
  - intros raw Hraw.
    unfold FormDataService.transformResponse.
    assert (Hmember : member raw "school_code"
                      = Returned (prop raw "school_code"))
      by (destruct raw; simpl in *; congruence).
    rewrite Hmember. cbn [bindO].
    eexists. split; [reflexivity|].
    split; [reflexivity | exists "rawData"; reflexivity].
  - intros rawData normalized Hrun.
    unfold AdmitCardService_POST.transformResponse in Hrun.
    do 17 step_bindO Hrun.
    injection Hrun as <-. do 2 eexists. reflexivity.
  - intros rawData type normalized Hrun.
    unfold AdmitCardService_GET.transformResponse in Hrun.
    step_bindO Hrun.
    injection Hrun as <-. do 3 eexists. reflexivity.
Qed.

Lemma transformResponse_raw_payload_witness :
  exists normalized,
    FormDataService.transformResponse sampleFormPayload = Returned normalized /\
    prop normalized "rawData" = sampleFormPayload.
Proof.
  destruct (proj1 transformResponse_raw_payload sampleFormPayload eq_refl)
    as [normalized [Hrun [Hraw _]]].
  exists normalized. split; [exact Hrun | exact Hraw].
Defined.

(** ** Envelopes of the cache-aside fetch *)

Lemma createSuccessResponse_run env value fromCache h :
  createSuccessResponse env value fromCache h
  = (Returned {| success := true;
                 payload := Some value;
                 message := None;
                 errorCode := None;
                 cached := Some fromCache;
                 timestamp := Some (toISOString env h) |}, []).
Proof. reflexivity. Qed.

Lemma cacheAside_envelope env cacheKey hitText fresh context identifier h :
  fresh_ok fresh ->
  exists r es,
    cacheAside env cacheKey hitText fresh context identifier h
    = (Returned r, es) /\
    well_formed r /\
    (cached r = Some true <-> served_from_cache env cacheKey h r es) /\
    (success r = true -> cached r = Some false ->
     (1 <= upstream_calls es)%nat).
Proof.
  intros Hfresh.
  unfold cacheAside, served_from_cache.
  rewrite run_try_catch, run_bind.
  destruct (getFromCache_returns env cacheKey h) as [v [es1 [Hget [Hwarn _]]]].
  rewrite Hget. cbn [fst].
  destruct (warnings_counts Hwarn) as [Hup1 _].
  destruct (truthy v) eqn:Hv.
  - rewrite run_bind. unfold logger, emit. cbv beta iota.
    rewrite createSuccessResponse_run.
    do 2 eexists. split; [reflexivity|].
    split; [intros Hs; discriminate Hs|].
    split; [|intros _ Hc; discriminate Hc].
    split; [|reflexivity].
    intros _. exists v. repeat split; auto.
    unfold upstream_calls in *. rewrite !count_app. simpl. rewrite Hup1.
    reflexivity.
  - destruct (fresh (h ++ EvRedisGet cacheKey :: es1)) as [[r|error] es2]
      eqn:Hrun.
    + destruct (Hfresh _ _ _ Hrun) as [Hok Hfail].
      do 2 eexists. split; [reflexivity|].
      split; [intros Hs; destruct (Hfail Hs) as [Hp [_ Hm]]; auto|].
      split; [split|].
      * intros Hc. destruct (success r) eqn:Hs.
        -- destruct (Hok eq_refl) as [Hc' _]. congruence.
        -- destruct (Hfail eq_refl) as [_ [Hc' _]]. congruence.
      * intros [v' [Hv' [Htruthy _]]]. injection Hv' as <-. congruence.
      * intros Hs _. destruct (Hok Hs) as [_ Hcalls].
        unfold upstream_calls in *. rewrite count_app. lia.
    + destruct (handleApiError_returns env error context identifier
                  (h ++ (EvRedisGet cacheKey :: es1) ++ es2))
        as [r [es3 [Hhandle [Hs [Hp [Hc [Hm _]]]]]]].
      rewrite Hhandle.
      do 2 eexists. split; [reflexivity|].
      split; [intros _; auto|].
      split; [split|].
      * intros Hc'. congruence.
      * intros [v' [Hv' [Htruthy _]]]. injection Hv' as <-. congruence.
      * intros Hs'. congruence.
Qed.

Lemma getFormData_cacheAside config env registrationNumber :
  FormDataService.getFormData config env registrationNumber
  = cacheAside env (FormDataService.cacheKeyOf config registrationNumber)
      (template ["Cache hit for form data: "; registrationNumber])
      (freshFormData config env registrationNumber)
      "form-data" registrationNumber.
Proof. reflexivity. Qed.

Lemma getAdmitCard_POST_cacheAside config env dto type :
  AdmitCardService_POST.getAdmitCard config env dto type
  = cacheAside env
      (AdmitCardService_POST.cacheKeyOf config type (getIdentifier dto))
      (template ["Cache hit for "; type_text type; " admit card: ";
                 getIdentifier dto])
      (freshAdmitCard_POST config env dto type)
      (template [type_text type; "-admit-card"]) (getIdentifier dto).
Proof. reflexivity. Qed.

Lemma getAdmitCard_GET_cacheAside config env dto type :
  truthy_str (registrationNumber dto) = true ->
  AdmitCardService_GET.getAdmitCard config env dto type
  = cacheAside env
      (AdmitCardService_GET.cacheKeyOf config type
         (interp (registrationNumber dto)))
      (template ["Cache hit for "; type_text type; " admit card: ";
                 interp (registrationNumber dto)])
      (freshAdmitCard_GET config env (interp (registrationNumber dto)) type)
      (template [type_text type; "-admit-card"])
      (interp (registrationNumber dto)).
Proof.
  intros Hreg. unfold AdmitCardService_GET.getAdmitCard. rewrite Hreg.
  reflexivity.
Qed.

(** The tail of every fetch: transform, store, answer. *)
Lemma store_and_answer env cacheKey ttl (o : Outcome JsValue) h r es :
  (value <- lift o ;;
   setInCache env cacheKey value ttl ;;;
   createSuccessResponse env value false) h = (Returned r, es) ->
  exists value,
    o = Returned value /\
    success r = true /\ payload r = Some value /\ cached r = Some false /\
    error_logs es = 0%nat /\ upstream_calls es = 0%nat.
Proof.
  rewrite run_bind. unfold lift.
  destruct o as [value|error]; [|discriminate].
  rewrite run_bind.
  destruct (setInCache_returns env cacheKey value ttl (h ++ []))
    as [es1 [-> [Hup Herr]]].
  rewrite createSuccessResponse_run. cbn [app].
  intros Hrun. injection Hrun as <- <-.
  exists value. rewrite !app_nil_r. repeat split; auto.
Qed.

(** An upstream call through the retry policy, followed by [k]. *)
Lemma after_upstream config env request (k : JsValue -> M BsebBaseResponse)
      text h r es :
  (logger LogInfo text ;;;
   value <- executeWithRetry config (send env request)
                             (retryAttempts (global config)) ;;
   k value) h = (Returned r, es) ->
  exists value es1 es2,
    executeWithRetry config (send env request)
                     (retryAttempts (global config))
                     (h ++ [EvLog LogInfo text])
    = (Returned value, es1) /\
    k value ((h ++ [EvLog LogInfo text]) ++ es1) = (Returned r, es2) /\
    es = [EvLog LogInfo text] ++ es1 ++ es2 /\
    (1 <= upstream_calls es1)%nat /\
    cache_writes es1 = 0%nat /\ error_logs es1 = 0%nat.
Proof.
  rewrite run_bind. unfold logger, emit. cbv beta iota.
  rewrite run_bind.
  destruct (executeWithRetry_events config env request
              (retryAttempts (global config)) (h ++ [EvLog LogInfo text]))
    as [o [es1 [Hrun [Hup [_ [Hwrites Herr]]]]]].
  rewrite Hrun.
  destruct o as [value|error]; [|discriminate].
  destruct (k value ((h ++ [EvLog LogInfo text]) ++ es1)) as [o2 es2] eqn:Hk.
  intros H. injection H as -> <-.
  exists value, es1, es2. repeat split; auto.
Qed.

(** The test of the upstream's own envelope, followed by [tail]. *)
Lemma upstream_envelope_check (apiResponse : JsValue)
      (failure : BsebBaseResponse) (tail : M BsebBaseResponse) h r es :
  (flag <- lift (member apiResponse "success") ;;
   if negb (truthy flag) || negb (truthy (prop apiResponse "data")) then
     ret failure
   else tail) h = (Returned r, es) ->
  nullish apiResponse = false /\
  ((negb (truthy (prop apiResponse "success"))
    || negb (truthy (prop apiResponse "data")) = true /\
    r = failure /\ es = []) \/
   (negb (truthy (prop apiResponse "success"))
    || negb (truthy (prop apiResponse "data")) = false /\
    tail (h ++ []) = (Returned r, es))).
Proof.
  intros Hrun. rewrite run_bind in Hrun. unfold lift in Hrun.
  assert (Hmember : nullish apiResponse = false ->
                    member apiResponse "success"
                    = Returned (prop apiResponse "success"))
    by (destruct apiResponse; simpl; congruence).
  destruct (nullish apiResponse) eqn:Hnull.
  - destruct apiResponse; simpl in *; discriminate.
  - rewrite (Hmember eq_refl) in Hrun. split; [reflexivity|].
    destruct (negb (truthy (prop apiResponse "success"))
              || negb (truthy (prop apiResponse "data"))).
    + unfold ret in Hrun. injection Hrun as <- <-. left. auto.
    + destruct (tail (h ++ [])) as [o es'].
      injection Hrun as -> <-. right. auto.
Qed.

Lemma freshFormData_ok config env registrationNumber :
  fresh_ok (freshFormData config env registrationNumber).
Proof.
  intros h r es Hrun.
  unfold freshFormData, httpGet, axios_get in Hrun. cbv zeta in Hrun.
  apply after_upstream in Hrun.
  destruct Hrun as [api [es1 [es2 [_ [Hk [-> [Hup _]]]]]]].
  apply upstream_envelope_check in Hk.
  destruct Hk as [_ [[_ [-> ->]] | [_ Htail]]].
  - split; [discriminate|]. intros _. repeat split.
    eexists. split; [reflexivity | apply js_or_truthy; reflexivity].
  - apply store_and_answer in Htail.
    destruct Htail as [value [_ [Hs [_ [Hc _]]]]].
    split; [|congruence]. intros _. split; [exact Hc|].
    unfold upstream_calls in *. rewrite !count_app. simpl. lia.
Qed.

Lemma freshAdmitCard_GET_ok config env identifier type :
  fresh_ok (freshAdmitCard_GET config env identifier type).
Proof.
  intros h r es Hrun.
  unfold freshAdmitCard_GET, httpGet, axios_get in Hrun. cbv zeta in Hrun.
  apply after_upstream in Hrun.
  destruct Hrun as [api [es1 [es2 [_ [Hk [-> [Hup _]]]]]]].
  apply upstream_envelope_check in Hk.
  destruct Hk as [_ [[_ [-> ->]] | [_ Htail]]].
  - split; [discriminate|]. intros _. repeat split.
    eexists. split; [reflexivity | apply js_or_truthy; reflexivity].
  - apply store_and_answer in Htail.
    destruct Htail as [value [_ [Hs [_ [Hc _]]]]].
    split; [|congruence]. intros _. split; [exact Hc|].
    unfold upstream_calls in *. rewrite !count_app. simpl. lia.
Qed.

Lemma freshAdmitCard_POST_ok config env dto type :
  fresh_ok (freshAdmitCard_POST config env dto type).
Proof.
  intros h r es Hrun.
  unfold freshAdmitCard_POST, httpPost, axios_post in Hrun. cbv zeta in Hrun.
  apply after_upstream in Hrun.
  destruct Hrun as [rawData [es1 [es2 [_ [Htail [-> [Hup _]]]]]]].
  apply store_and_answer in Htail.
  destruct Htail as [value [_ [Hs [_ [Hc _]]]]].
  split; [|congruence]. intros _. split; [exact Hc|].
  unfold upstream_calls in *. rewrite !count_app. simpl. lia.
Qed.

(** C7. Each of the three fetches returns an envelope (no error escapes)
    in which [success = false] comes with no data and with a message, and
    in which [cached] is [true] if and only if the data is the entry read
    from the cache store at the fetch's key and no upstream call was made;
    a success with [cached = false] has made an upstream call. *)
Theorem fetch_envelope_invariant :
  forall (config : ApiConfig) (env : Env) (h : Trace),
    (forall registrationNumber,
        envelope_contract env
          (FormDataService.cacheKeyOf config registrationNumber) h
          (FormDataService.getFormData config env registrationNumber h)) /\
    (forall dto type,
        envelope_contract env
          (AdmitCardService_POST.cacheKeyOf config type (getIdentifier dto)) h
          (AdmitCardService_POST.getAdmitCard config env dto type h)) /\
    (forall dto type,
        envelope_contract env
          (AdmitCardService_GET.cacheKeyOf config type
             (interp (registrationNumber dto))) h
          (AdmitCardService_GET.getAdmitCard config env dto type h)).
Proof.
  intros config env h. split; [|split].
  - intros registrationNumber. rewrite getFormData_cacheAside.
    apply cacheAside_envelope, freshFormData_ok.
  - intros dto type. rewrite getAdmitCard_POST_cacheAside.
    apply cacheAside_envelope, freshAdmitCard_POST_ok.
  - intros dto type.
    destruct (truthy_str (registrationNumber dto)) eqn:Hreg.
    + rewrite (getAdmitCard_GET_cacheAside config env dto type Hreg).
      apply cacheAside_envelope, freshAdmitCard_GET_ok.
    + unfold AdmitCardService_GET.getAdmitCard. rewrite Hreg. simpl.
      exists AdmitCardService_GET.registrationRequired, [].
      split; [reflexivity|].
      split; [intros _; split; [reflexivity | eexists; split; reflexivity]|].
      split; [split|].
      * intros Hc. discriminate Hc.
      * intros [v [_ [_ [Hp _]]]]. discriminate Hp.
      * intros Hs. discriminate Hs.
Qed.

(** ** Failures reported by the upstream itself *)

(** The claim, as the specification has it, fails on a 2xx answer whose
    body is [null]: the body has no [data], yet reading its [success] flag
    throws inside the [try] block, [handleApiError] runs and the fetch
    answers with the [UNKNOWN_ERROR] envelope instead of the upstream's
    message. *)
Lemma getFormData_null_body_runs_handleApiError :
  let body := JNull in
  let env := sampleEnv (Returned {| status := 200; data := body |})
                       (Returned None) in
  let run := FormDataService.getFormData BsebApiConfig env "91341-00009-24" [] in
  truthy (prop body "data") = false /\
  (exists r,
      fst run = Returned r /\
      success r = false /\
      errorCode r = Some "UNKNOWN_ERROR" /\
      message r
      = Some (JStr "An unexpected error occurred. Please try again.") /\
      message r <> Some (prop body "message"
                         ||' JStr "No data returned from BSEB API")) /\
  error_logs (snd run) = 1%nat /\
  upstream_calls (snd run) = 1%nat /\
  cache_writes (snd run) = 0%nat.
Proof.
  intros body env run.
  split; [reflexivity|].
  split; [|split; [reflexivity | split; reflexivity]].
  eexists. split; [reflexivity|].
  split; [reflexivity|]. split; [reflexivity|]. split; [reflexivity|].
  intros Hm. discriminate Hm.
Qed.

(** C5, amended.  When the cache misses and the upstream answers 2xx with
    a body whose [success] flag is falsy or whose [data] is falsy, the
    answer of [getFormData] depends on the body.  For a body other than
    [null] and [undefined] it returns [{success: false, message}] where
    [message] is the upstream's message (the text 'No data returned from
    BSEB API' if the upstream sent none); the envelope has no [errorCode]
    and nothing is logged as an error: [handleApiError] is not run.  For a
    body that is [null] or [undefined] the read of its [success] flag
    throws, [handleApiError] runs and the answer is the [UNKNOWN_ERROR]
    envelope, with one error logged.  In both cases the trace holds no
    cache write. *)
Theorem getFormData_upstream_reported_failure :
  forall (config : ApiConfig) (env : Env) (registrationNumber : string)
         (h : Trace) (cachedData : JsValue) (es1 : Trace)
         (apiResponse : JsValue) (es2 : Trace),
    getFromCache env (FormDataService.cacheKeyOf config registrationNumber) h
    = (Returned cachedData, es1) ->
    truthy cachedData = false ->
    httpGet config env (FormDataService.urlOf config registrationNumber)
            ((h ++ es1) ++ [fetchingFormData registrationNumber])
    = (Returned apiResponse, es2) ->
    truthy (prop apiResponse "success") = false \/
    truthy (prop apiResponse "data") = false ->
    let run := FormDataService.getFormData config env registrationNumber h in
    (nullish apiResponse = false ->
     (exists r,
         fst run = Returned r /\
         success r = false /\
         payload r = None /\
         message r = Some (prop apiResponse "message"
                           ||' JStr "No data returned from BSEB API") /\
         (truthy (prop apiResponse "message") = true ->
          message r = Some (prop apiResponse "message")) /\
         errorCode r = None) /\
     snd run = es1 ++ [fetchingFormData registrationNumber] ++ es2 /\
     error_logs (snd run) = 0%nat /\
     cache_writes (snd run) = 0%nat) /\
    (nullish apiResponse = true ->
     (exists r,
         fst run = Returned r /\
         success r = false /\
         payload r = None /\
         message r
         = Some (JStr "An unexpected error occurred. Please try again.") /\
         errorCode r = Some "UNKNOWN_ERROR") /\
     (exists line,
         snd run = es1 ++ [fetchingFormData registrationNumber] ++ es2
                       ++ [EvLog LogError line]) /\
     error_logs (snd run) = 1%nat /\
     cache_writes (snd run) = 0%nat).
Proof.
  intros config env registrationNumber h cachedData es1 apiResponse es2
         Hget Hmiss Hhttp Hflag run.
  destruct (getFromCache_returns env
              (FormDataService.cacheKeyOf config registrationNumber) h)
    as [v [es [Hget' [Hwarn _]]]].
  rewrite Hget in Hget'. injection Hget' as _ ->.
  destruct (warnings_counts Hwarn) as [_ [_ [Hw1 He1]]].
  pose proof Hhttp as Hhttp0.
  unfold httpGet, axios_get in Hhttp0. cbv zeta in Hhttp0.
  match type of Hhttp0 with
  | executeWithRetry _ (send _ ?request) ?n ?h' = _ =>
      destruct (executeWithRetry_events config env request n h')
        as [o [es' [Hhttp' [_ [_ [Hw2 He2]]]]]]
  end.
  rewrite Hhttp0 in Hhttp'. injection Hhttp' as _ <-. clear Hhttp0.
  split; intros Hbody.
  - assert (Hcond : negb (truthy (prop apiResponse "success"))
                    || negb (truthy (prop apiResponse "data")) = true)
      by (destruct Hflag as [-> | ->]; simpl; auto using orb_true_r).
    assert (Hmember : member apiResponse "success"
                      = Returned (prop apiResponse "success"))
      by (destruct apiResponse; simpl in *; congruence).
    assert (Hrun : run
                   = (Returned (FormDataService.upstreamFailure apiResponse),
                      (EvRedisGet
                         (FormDataService.cacheKeyOf config registrationNumber)
                       :: es)
                      ++ [fetchingFormData registrationNumber] ++ es2)).
    { subst run. rewrite getFormData_cacheAside. unfold cacheAside.
      rewrite run_try_catch, run_bind, Hget, Hmiss.
      unfold freshFormData. cbv zeta. rewrite run_bind.
      unfold logger, emit. cbv beta iota. rewrite run_bind.
      unfold fetchingFormData in Hhttp. rewrite Hhttp.
      rewrite run_bind. unfold lift. rewrite Hmember, Hcond.
      unfold ret, fetchingFormData. rewrite !app_nil_r. reflexivity. }
    rewrite Hrun. cbn [fst snd].
    split.
    + eexists. split; [reflexivity|]. repeat split.
      intros Hmsg. simpl. unfold js_or. rewrite Hmsg. reflexivity.
    + split; [reflexivity|].
      unfold error_logs, cache_writes in *.
      change (EvRedisGet
                (FormDataService.cacheKeyOf config registrationNumber) :: es)
        with ([EvRedisGet
                 (FormDataService.cacheKeyOf config registrationNumber)]
              ++ es).
      rewrite !count_app, He1, Hw1, He2, Hw2. split; reflexivity.
  - assert (Hmember : exists what,
               member apiResponse "success" = Threw (TypeError what))
      by (destruct apiResponse; try discriminate Hbody;
          eexists; reflexivity).
    destruct Hmember as [what Hmember].
    assert (Hrun : exists line,
               run
               = (Returned
                    (errorResponse
                       (JStr "An unexpected error occurred. Please try again.")
                       "UNKNOWN_ERROR"
                       (toISOString env
                          (h ++ (EvRedisGet
                                   (FormDataService.cacheKeyOf config
                                      registrationNumber) :: es)
                             ++ [fetchingFormData registrationNumber]
                             ++ es2))),
                  (EvRedisGet
                     (FormDataService.cacheKeyOf config registrationNumber)
                   :: es)
                  ++ [fetchingFormData registrationNumber] ++ es2
                  ++ [EvLog LogError line])).
    { eexists. subst run. rewrite getFormData_cacheAside. unfold cacheAside.
      rewrite run_try_catch, run_bind, Hget, Hmiss.
      unfold freshFormData. cbv zeta. rewrite run_bind.
      unfold logger at 1, emit. cbv beta iota. rewrite run_bind.
      unfold fetchingFormData in Hhttp. rewrite Hhttp.
      rewrite run_bind. unfold lift. rewrite Hmember.
      cbv beta iota. rewrite !app_nil_r.
      unfold handleApiError, TypeError, now, bind, logger, emit, ret.
      cbn -[template]. unfold fetchingFormData.
      rewrite <- !app_assoc. reflexivity. }
    destruct Hrun as [line Hrun]. rewrite Hrun. cbn [fst snd].
    split; [eexists; repeat split|].
    split; [exists line; reflexivity|].
    unfold error_logs, cache_writes in *.
    change (EvRedisGet
              (FormDataService.cacheKeyOf config registrationNumber) :: es)
      with ([EvRedisGet
               (FormDataService.cacheKeyOf config registrationNumber)]
            ++ es).
    rewrite !count_app, He1, Hw1, He2, Hw2. split; reflexivity.
Qed.

(** The scenario of the specification: the upstream answers
    [{success: false, message: "x"}]. *)
Lemma getFormData_upstream_reported_failure_witness :
  let body := JObj [("success", JBool false); ("message", JStr "x")] in
  let env := sampleEnv (Returned {| status := 200; data := body |})
                       (Returned None) in
  let run := FormDataService.getFormData BsebApiConfig env "91341-00009-24" [] in
  (exists r, fst run = Returned r /\ success r = false /\
             message r = Some (JStr "x")) /\
  cache_writes (snd run) = 0%nat.
Proof.
  intros body env run.
  destruct (proj1 (getFormData_upstream_reported_failure
                     BsebApiConfig env "91341-00009-24" []
                     (cachedData := JNull) (apiResponse := body)
                     eq_refl eq_refl eq_refl (or_introl eq_refl))
                  eq_refl)
    as [[r [Hfst [Hs [_ [Hm _]]]]] [_ [_ Hwrites]]].
  split; [|exact Hwrites].
  exists r. split; [exact Hfst|]. split; [exact Hs | exact Hm].
Defined.

(** ** A failing cache store *)

Lemma getFromCache_store_throws env cacheKey h error :
  redis_get env h cacheKey = Threw error ->
  getFromCache env cacheKey h = (Returned JNull, cacheReadFailure cacheKey error).
Proof.
  intros Hget. unfold getFromCache.
  rewrite run_try_catch, run_bind. unfold perform. rewrite Hget.
  reflexivity.
Qed.

Lemma truthy_not_nullish v : truthy v = true -> nullish v = false.
Proof. destruct v; simpl; congruence. Qed.

Lemma prop_truthy_not_nullish v key :
  truthy (prop v key) = true -> nullish v = false.
Proof. destruct v; simpl; congruence. Qed.

(** C6. The cache adapter never throws, on any environment: a failing read
    is a miss ([null]), a failing write or delete is swallowed, and so is
    every failure under [deleteCacheByPrefix] and [clearCache].  When the
    store throws on the read of [getFormData] and the upstream then answers
    with a successful envelope, the fetch returns [success = true] with the
    transformed upstream data and [cached = false], and it does so whatever
    the later cache write does. *)
Theorem cache_failures_never_surface :
  forall (config : ApiConfig) (env : Env),
    (forall cacheKey h,
        exists v es,
          getFromCache env cacheKey h = (Returned v, es) /\
          (forall error, redis_get env h cacheKey = Threw error -> v = JNull)) /\
    (forall cacheKey value ttl h,
        exists es, setInCache env cacheKey value ttl h = (Returned tt, es)) /\
    (forall cacheKey h,
        exists es, deleteFromCache env cacheKey h = (Returned tt, es)) /\
    (forall prefix identifier h,
        exists es,
          deleteCacheByPrefix env prefix identifier h = (Returned tt, es)) /\
    (forall registrationNumber h,
        exists es,
          FormDataService.clearCache config env registrationNumber h
          = (Returned tt, es)) /\
    (forall registrationNumber h error apiResponse es2,
        let cacheKey := FormDataService.cacheKeyOf config registrationNumber in
        redis_get env h cacheKey = Threw error ->
        httpGet config env (FormDataService.urlOf config registrationNumber)
                ((h ++ cacheReadFailure cacheKey error)
                 ++ [fetchingFormData registrationNumber])
        = (Returned apiResponse, es2) ->
        truthy (prop apiResponse "success") = true ->
        truthy (prop apiResponse "data") = true ->
        exists r es normalized,
          FormDataService.getFormData config env registrationNumber h
          = (Returned r, es) /\
          FormDataService.transformResponse (prop apiResponse "data")
          = Returned normalized /\
          success r = true /\
          payload r = Some normalized /\
          cached r = Some false /\
          message r = None /\
          upstream_calls es = upstream_calls es2).
Proof.
  intros config env.
  split; [|split; [|split; [|split; [|split]]]].
  - intros cacheKey h.
    destruct (getFromCache_returns env cacheKey h) as [v [es [Hrun [_ Hnull]]]].
    eauto.
  - intros cacheKey value ttl h.
    destruct (setInCache_returns env cacheKey value ttl h) as [es [Hrun _]].
    eauto.
  - intros cacheKey h.
    destruct (deleteFromCache_returns env cacheKey h) as [es [Hrun _]].
    eauto.
  - intros prefix identifier h. unfold deleteCacheByPrefix.
    apply forEach_deleteFromCache_returns.
  - intros registrationNumber h. unfold FormDataService.clearCache.
    rewrite run_bind.
    destruct (deleteFromCache_returns env
                (FormDataService.cacheKeyOf config registrationNumber) h)
      as [es [-> _]].
    eexists. reflexivity.
  - intros registrationNumber h error apiResponse es2 cacheKey
           Hget Hhttp Hsuccess Hdata.
    assert (Hmember : member apiResponse "success"
                      = Returned (prop apiResponse "success")).
    { pose proof (prop_truthy_not_nullish _ _ Hsuccess) as Hbody.
      destruct apiResponse; simpl in *; congruence. }
    assert (Htransform :
              exists normalized,
                FormDataService.transformResponse (prop apiResponse "data")
                = Returned normalized).
    { pose proof (truthy_not_nullish _ Hdata) as Hraw.
      unfold FormDataService.transformResponse.
      destruct (prop apiResponse "data"); simpl in *; try discriminate;
        eexists; reflexivity. }
    destruct Htransform as [normalized Htransform].
    destruct (setInCache_returns env cacheKey normalized
                (fd_cacheTtl (formData config))
                (((((h ++ cacheReadFailure cacheKey error)
                    ++ [fetchingFormData registrationNumber]) ++ es2)
                  ++ []) ++ []))
      as [es3 [Hset [Hup3 _]]].
    rewrite getFormData_cacheAside. unfold cacheAside.
    rewrite run_try_catch, run_bind.
    fold cacheKey. rewrite (getFromCache_store_throws _ _ _ Hget).
    cbn [truthy].
    unfold freshFormData. cbv zeta. rewrite run_bind.
    unfold logger, emit. cbv beta iota. rewrite run_bind.
    unfold fetchingFormData in Hhttp, Hset. rewrite Hhttp.
    rewrite run_bind. unfold lift at 1. rewrite Hmember, Hsuccess, Hdata.
    cbn [negb orb]. rewrite run_bind. unfold lift. rewrite Htransform.
    rewrite run_bind. fold cacheKey. rewrite Hset.
    rewrite createSuccessResponse_run.
    do 3 eexists. split; [reflexivity|]. split; [reflexivity|].
    repeat split.
    unfold upstream_calls in *. cbn [app].
    rewrite !app_nil_r.
    rewrite count_app. cbn [filter is_upstream_call].
    rewrite count_app, Hup3. simpl. lia.
Qed.

(** Over a cache store that fails on every operation, a successful upstream
    answer still reaches the caller. *)
Lemma cache_failures_never_surface_witness :
  let body := JObj [("success", JBool true); ("data", sampleFormPayload)] in
  let env := brokenCacheEnv body in
  exists r es normalized,
    FormDataService.getFormData BsebApiConfig env "91341-00009-24" []
    = (Returned r, es) /\
    FormDataService.transformResponse sampleFormPayload = Returned normalized /\
    success r = true /\
    payload r = Some normalized /\
    cached r = Some false.
Proof.
  intros body env.
  destruct (cache_failures_never_surface BsebApiConfig env)
    as [_ [_ [_ [_ [_ Hfetch]]]]].
  destruct (Hfetch "91341-00009-24" []
              (OtherError "Error" "Connection is closed.") body
              _ eq_refl eq_refl eq_refl eq_refl)
    as [r [es [normalized [Hrun [Htransform [Hs [Hp [Hc _]]]]]]]].
  exists r, es, normalized.
  split; [exact Hrun|]. split; [exact Htransform|].
  split; [exact Hs|]. split; [exact Hp | exact Hc].
Defined.

(** * Further properties *)

(** ** The retry loop stops at the first final outcome *)

Section RetryStops.

Variable config : ApiConfig.
Variable env : Env.
Variable request : Request.
Variable retries : nat.
Variable h : Trace.
Variable errors : nat -> JsError.
Variable k : nat.
Variable o : Outcome AxiosResponse.

Hypothesis within : (k <= retries)%nat.

(** The attempts before the [k]-th fail, and not with a client error. *)
Hypothesis earlier :
  forall j, (j < k)%nat ->
    axios env (h ++ failedAttempts (retryDelay (global config))
                                   (sending request) retries j) request
    = Threw (errors j) /\
    isClientError (errors j) = false.

Hypothesis last_call :
  axios env (h ++ failedAttempts (retryDelay (global config))
                                 (sending request) retries k) request = o.

Hypothesis last_final : final o = true.

Lemma attemptLoop_stops remaining :
  forall attempt,
    (attempt + remaining = retries)%nat -> (attempt <= k)%nat ->
    exists es,
      attemptLoop config (send env request) retries attempt remaining
        (h ++ failedAttempts (retryDelay (global config))
                             (sending request) retries attempt)
      = (responseData o, es) /\
      failedAttempts (retryDelay (global config)) (sending request)
                     retries attempt ++ es
      = failedAttempts (retryDelay (global config)) (sending request)
                       retries k ++ [EvAxios request].
Proof.
  assert (Hstop : forall remaining',
             exists es,
               attemptLoop config (send env request) retries k remaining'
                 (h ++ failedAttempts (retryDelay (global config))
                                      (sending request) retries k)
               = (responseData o, es) /\
               es = [EvAxios request]).
  { intros remaining'. exists [EvAxios request]. split; [|reflexivity].
    destruct remaining'; simpl attemptLoop;
      rewrite run_try_catch, run_bind; unfold send, perform;
      rewrite last_call; destruct o as [response|error]; simpl in *;
      try reflexivity; rewrite last_final; reflexivity. }
  induction remaining as [|remaining IH]; intros attempt Hsum Hle.
  - assert (attempt = k) by lia. subst attempt.
    destruct (Hstop 0%nat) as [es [Hrun ->]]. eauto.
  - destruct (Nat.eq_dec attempt k) as [->|Hne].
    + destruct (Hstop (S remaining)) as [es [Hrun ->]]. eauto.
    + assert (Hlt : (attempt < k)%nat) by lia.
      destruct (earlier Hlt) as [Hcall Hretry].
      destruct (IH (S attempt)) as [es [Hrun Hes]]; [lia | lia |].
      exists ([EvAxios request]
              ++ [retryWarning attempt retries;
                  EvDelay (retryDelay (global config)
                           * Z.of_nat (attempt + 1))] ++ es).
      split.
      * simpl attemptLoop. rewrite run_try_catch, run_bind.
        unfold send at 1, perform. rewrite Hcall, Hretry.
        assert (Hltb : (attempt <? retries)%nat = true)
          by (apply Nat.ltb_lt; lia).
        rewrite Hltb, run_bind.
        unfold logger, delay, emit. rewrite run_bind. simpl fst.
        cbv beta iota.
        replace (((h ++ failedAttempts (retryDelay (global config))
                                       (sending request) retries attempt)
                  ++ [EvAxios request])
                 ++ [EvLog LogWarn
                       (template ["Request failed, retrying (";
                                  show_nat (attempt + 1); "/";
                                  show_nat retries; ")..."])]
                 ++ [EvDelay (retryDelay (global config)
                              * Z.of_nat (attempt + 1))])
          with (h ++ failedAttempts (retryDelay (global config))
                                    (sending request) retries (S attempt)).
        -- rewrite Hrun. reflexivity.
        -- simpl failedAttempts. unfold retryWarning, sending.
           rewrite <- !app_assoc. reflexivity.
      * rewrite <- Hes. simpl failedAttempts. unfold sending.
        rewrite <- !app_assoc. reflexivity.
Qed.

Lemma executeWithRetry_stops :
  executeWithRetry config (send env request) retries h
  = (responseData o,
     failedAttempts (retryDelay (global config)) (sending request) retries k
     ++ [EvAxios request]).
Proof.
  destruct (@attemptLoop_stops retries 0%nat (Nat.add_0_l retries)
              (Nat.le_0_l k)) as [es [Hrun Hes]].
  simpl in Hrun, Hes. rewrite app_nil_r in Hrun.
  unfold executeWithRetry. rewrite Hrun, Hes. reflexivity.
Qed.

End RetryStops.

(** Whatever the upstream does, the trace of the retry loop entered at
    [attempt] is that of some number of failed attempts and a last call. *)
Lemma attemptLoop_shape config env request retries remaining :
  forall attempt h,
    (attempt + remaining = retries)%nat ->
    exists o k es,
      attemptLoop config (send env request) retries attempt remaining h
      = (o, es) /\
      (attempt <= k <= retries)%nat /\
      failedAttempts (retryDelay (global config)) (sending request)
                     retries attempt ++ es
      = failedAttempts (retryDelay (global config)) (sending request)
                       retries k ++ [EvAxios request].
Proof.
  induction remaining as [|remaining IH]; intros attempt h Hsum;
    simpl attemptLoop; rewrite run_try_catch, run_bind;
    unfold send at 1, perform;
    destruct (axios env h request) as [response|error].
  - exists (Returned (data response)), attempt, [EvAxios request].
    repeat split; auto; lia.
  - destruct (isClientError error).
    + exists (Threw error), attempt, [EvAxios request].
      repeat split; auto; lia.
    + assert (Hltb : (attempt <? retries)%nat = false)
        by (apply Nat.ltb_ge; lia).
      rewrite Hltb.
      exists (Threw error), attempt, [EvAxios request].
      repeat split; auto; lia.
  - exists (Returned (data response)), attempt, [EvAxios request].
    repeat split; auto; lia.
  - destruct (isClientError error).
    + exists (Threw error), attempt, [EvAxios request].
      repeat split; auto; lia.
    + assert (Hltb : (attempt <? retries)%nat = true)
        by (apply Nat.ltb_lt; lia).
      rewrite Hltb, run_bind.
      unfold logger, delay, emit. rewrite run_bind. cbv beta iota.
      match goal with
      | |- context [attemptLoop _ _ _ _ _ ?h'] =>
          destruct (IH (S attempt) h') as [o [k [es [-> [Hk Hes]]]]]; [lia|]
      end.
      exists o, k. eexists. split; [reflexivity|].
      split; [lia|].
      rewrite <- Hes. simpl failedAttempts. unfold retryWarning, sending.
      rewrite <- !app_assoc. reflexivity.
Qed.

Lemma linearBackoff_length d n : length (linearBackoff d n) = n.
Proof. unfold linearBackoff. rewrite length_map, length_seq. reflexivity. Qed.

(** X1. [executeWithRetry] stops at the first attempt whose outcome is a
    response or a client error.  If the first [k] attempts ([k] at most
    [retries]) fail otherwise and the next one has such an outcome, the
    result is the data of that response, or that error rethrown, after
    exactly [k + 1] calls and the waits [retryDelay * 1, ..., retryDelay *
    k]; nothing is called or awaited after it. *)
Theorem executeWithRetry_stops_at_first_final_outcome :
  forall (config : ApiConfig) (env : Env) (request : Request)
         (retries : nat) (h : Trace) (errors : nat -> JsError) (k : nat)
         (o : Outcome AxiosResponse),
    (k <= retries)%nat ->
    (forall j, (j < k)%nat ->
       axios env (h ++ failedAttempts (retryDelay (global config))
                                      (sending request) retries j) request
       = Threw (errors j) /\
       isClientError (errors j) = false) ->
    axios env (h ++ failedAttempts (retryDelay (global config))
                                   (sending request) retries k) request = o ->
    final o = true ->
    let run := executeWithRetry config (send env request) retries h in
    fst run = responseData o /\
    snd run = failedAttempts (retryDelay (global config)) (sending request)
                             retries k ++ [EvAxios request] /\
    upstream_calls (snd run) = (k + 1)%nat /\
    delays (snd run) = linearBackoff (retryDelay (global config)) k.
Proof.
  intros config env request retries h errors k o Hk Hearlier Hlast Hfinal run.
  subst run.
  rewrite (executeWithRetry_stops config env request h errors Hk
             Hearlier Hlast Hfinal).
  cbn [fst snd].
  rewrite upstream_calls_app, delays_app,
    upstream_calls_failedAttempts, delays_failedAttempts.
  simpl. rewrite app_nil_r. repeat split.
Qed.

(** Two 503 answers, then a 200: the data comes back after three calls
    and waits of one and two seconds. *)
Lemma executeWithRetry_stops_at_first_final_outcome_witness :
  let response := {| status := 200; data := JStr "ok" |} in
  let env := flakyEnv 2 (Returned response) in
  let request := Get "u" {| cfg_timeout := 30000; cfg_headers := [] |} in
  let run := executeWithRetry BsebApiConfig (send env request) 2 [] in
  fst run = Returned (JStr "ok") /\
  upstream_calls (snd run) = 3%nat /\
  delays (snd run) = [1000; 2000].
Proof.
  intros response env request run.
  destruct (executeWithRetry_stops_at_first_final_outcome
              BsebApiConfig env request (retries := 2) []
              (fun _ => httpError 503) (k := 2) (o := Returned response))
    as [Hfst [_ [Hcalls Hdelays]]].
  - lia.
  - intros j Hj.
    destruct j as [|[|j]]; [split; reflexivity | split; reflexivity | lia].
  - reflexivity.
  - reflexivity.
  - split; [exact Hfst | split; [exact Hcalls | exact Hdelays]].
Defined.

(** X2. Whatever the upstream answers, [executeWithRetry] on a request
    makes at most [retries + 1] calls, and its trace is always that of
    some [k] failed attempts ([k] at most [retries]) followed by one last
    call: [k + 1] calls and the waits [retryDelay * 1, ..., retryDelay * k],
    no cache access and no error log. *)
Theorem executeWithRetry_bounded :
  forall (config : ApiConfig) (env : Env) (request : Request)
         (retries : nat) (h : Trace),
    let run := executeWithRetry config (send env request) retries h in
    exists k,
      (k <= retries)%nat /\
      snd run = failedAttempts (retryDelay (global config)) (sending request)
                               retries k ++ [EvAxios request] /\
      upstream_calls (snd run) = (k + 1)%nat /\
      (upstream_calls (snd run) <= retries + 1)%nat /\
      delays (snd run) = linearBackoff (retryDelay (global config)) k /\
      cache_calls (snd run) = 0%nat.
Proof.
  intros config env request retries h run. subst run.
  unfold executeWithRetry.
  destruct (@attemptLoop_shape config env request retries retries 0%nat h
              (Nat.add_0_l retries)) as [o [k [es [Hrun [Hk Hes]]]]].
  destruct (executeWithRetry_events config env request retries h)
    as [o' [es' [Hrun' [_ [Hcache _]]]]].
  unfold executeWithRetry in Hrun'. rewrite Hrun in Hrun'.
  injection Hrun' as _ <-.
  simpl in Hes. rewrite Hes in Hcache. rewrite Hrun. cbn [snd]. rewrite Hes.
  exists k. split; [lia|]. split; [reflexivity|].
  split; [|split; [|split; [|exact Hcache]]];
    rewrite ?upstream_calls_app, ?delays_app,
      ?upstream_calls_failedAttempts, ?delays_failedAttempts;
    unfold upstream_calls; simpl; rewrite ?app_nil_r;
    first [reflexivity | lia].
Qed.

(** ** What the error normaliser says and does *)

Lemma optional_message_prop responseData :
  optional_message responseData = prop responseData "message".
Proof. destruct responseData; reflexivity. Qed.

Ltac relayed_or_fixed d :=
  rewrite optional_message_prop; unfold js_or;
  destruct (truthy (prop d "message")) eqn:?;
  do 2 eexists;
  (split; [reflexivity|]);
  do 5 (split; [reflexivity|]);
  eexists; (split; [reflexivity|]);
  (split; [first [assumption | reflexivity]|]);
  [ right; do 3 eexists; split; [reflexivity|]; split; [reflexivity|];
    eexists; split; [reflexivity | simpl; tauto]
  | left; simpl; tauto ].

Ltac fixed_text :=
  do 2 eexists;
  (split; [reflexivity|]);
  do 5 (split; [reflexivity|]);
  eexists; (split; [reflexivity|]);
  (split; [reflexivity|]);
  left; simpl; tauto.

(** One run of [handleApiError], in full. *)
Lemma handleApiError_run env error context identifier h :
  exists r line,
    handleApiError env error context identifier h
    = (Returned r, [EvLog LogError line]) /\
    success r = false /\ payload r = None /\ cached r = None /\
    errorCode r = firstMatch mappingTable error /\
    timestamp r = Some (toISOString env h) /\
    exists text,
      message r = Some text /\ truthy text = true /\
      (In text (fixedMessages context) \/
       exists code response errorText,
         error = AxiosError code (Some response) errorText /\
         text = prop (data response) "message" /\
         exists c, errorCode r = Some c /\ In c relayingCodes).
Proof.
  destruct error as [code [[s d]|] errorText | name errorText];
    unfold handleApiError, now, bind, logger, emit, ret, code_is;
    cbn -[Z.eqb Z.leb String.eqb template show_Z optional_message js_or].
  - destruct (s =? 404) eqn:E404; [relayed_or_fixed d|].
    destruct (s =? 400) eqn:E400; [relayed_or_fixed d|].
    destruct ((s =? 401) || (s =? 403)) eqn:E401; [fixed_text|].
    destruct (500 <=? s) eqn:E500; [fixed_text|].
    relayed_or_fixed d.
  - destruct code as [c|]; cbn -[String.eqb template].
    + destruct (c =? "ECONNABORTED")%string eqn:E1;
        cbn -[String.eqb template]; [fixed_text|].
      destruct (c =? "ENOTFOUND")%string eqn:E2;
        cbn -[String.eqb template]; [fixed_text|].
      destruct (c =? "ECONNREFUSED")%string eqn:E3;
        cbn -[String.eqb template]; fixed_text.
    + fixed_text.
  - fixed_text.
Qed.

(** ** What a fetch does to the cache and to the upstream *)

Lemma written_app es es' : written (es ++ es') = written es ++ written es'.
Proof.
  induction es as [|ev es IH]; simpl; auto.
  destruct ev; simpl; rewrite IH; reflexivity.
Qed.

Lemma deleted_keys_app es es' :
  deleted_keys (es ++ es') = deleted_keys es ++ deleted_keys es'.
Proof.
  induction es as [|ev es IH]; simpl; auto.
  destruct ev; simpl; rewrite IH; reflexivity.
Qed.

Lemma retry_events_no_command es :
  forallb is_retry_event es = true ->
  written es = [] /\ deleted_keys es = [].
Proof.
  induction es as [|ev es IH]; simpl; auto.
  intros H. apply andb_prop in H. destruct H as [Hev Hes].
  destruct ev as [| | | | |[] ?]; simpl in *; try discriminate; auto.
Qed.

Lemma warnings_no_command es :
  Forall is_warning es -> written es = [] /\ deleted_keys es = [].
Proof. induction 1 as [|ev es [text ->] _ IH]; simpl; auto. Qed.

Lemma executeWithRetry_quiet config env request retries h :
  exists o es,
    executeWithRetry config (send env request) retries h = (o, es) /\
    (1 <= upstream_calls es <= retries + 1)%nat /\
    written es = [] /\ deleted_keys es = [].
Proof.
  unfold executeWithRetry.
  destruct (@attemptLoop_shape config env request retries retries 0%nat h
              (Nat.add_0_l retries)) as [o [k [es [Hrun [Hk Hes]]]]].
  destruct (attemptLoop_events config env request retries retries 0%nat h)
    as [o' [es' [Hrun' Hquiet]]].
  rewrite Hrun in Hrun'. injection Hrun' as _ ->.
  exists o, (EvAxios request :: es'). split; [exact Hrun|].
  simpl in Hes.
  destruct (retry_events_no_command es' Hquiet) as [Hw Hd].
  split; [|split; simpl; assumption].
  rewrite Hes, upstream_calls_app, upstream_calls_failedAttempts.
  unfold upstream_calls. simpl. lia.
Qed.

(** One run of [setInCache], in full: a value that cannot be serialised
    is not written. *)
Lemma setInCache_run env cacheKey value ttl h :
  (forall text,
      JSON_stringify env value = Returned text ->
      exists es,
        setInCache env cacheKey value ttl h
        = (Returned tt, EvRedisSet cacheKey text ttl :: es) /\
        Forall is_warning es) /\
  (forall error,
      JSON_stringify env value = Threw error ->
      exists line,
        setInCache env cacheKey value ttl h
        = (Returned tt, [EvLog LogWarn line])).
Proof.
  split.
  - intros text Htext. unfold setInCache.
    rewrite run_try_catch, run_bind. unfold lift, perform, logger, emit.
    rewrite Htext.
    destruct (redis_set env (h ++ []) cacheKey text ttl) as [[]|error].
    + exists []. split; [reflexivity | constructor].
    + eexists [_]. split; [reflexivity|].
      constructor; [eexists; reflexivity | constructor].
  - intros error Herror. unfold setInCache.
    rewrite run_try_catch, run_bind. unfold lift, logger, emit.
    rewrite Herror. eexists. reflexivity.
Qed.

(** The tail of every fetch again, with its commands. *)
Lemma store_and_answer_io env cacheKey ttl (o : Outcome JsValue) h o' es :
  (value <- lift o ;;
   setInCache env cacheKey value ttl ;;;
   createSuccessResponse env value false) h = (o', es) ->
  upstream_calls es = 0%nat /\
  deleted_keys es = [] /\
  (written es = [] \/
   exists text value r,
     written es = [(cacheKey, text, ttl)] /\
     JSON_stringify env value = Returned text /\
     o' = Returned r /\
     payload r = Some value /\
     success r = true /\ cached r = Some false).
Proof.
  rewrite run_bind. unfold lift.
  destruct o as [value|error].
  - rewrite run_bind.
    destruct (setInCache_run env cacheKey value ttl (h ++ []))
      as [Hok Hfail].
    destruct (JSON_stringify env value) as [text|error] eqn:Htext.
    + destruct (Hok text eq_refl) as [es1 [-> Hwarn]].
      destruct (warnings_counts Hwarn) as [Hup _].
      destruct (warnings_no_command Hwarn) as [Hw Hd].
      rewrite createSuccessResponse_run.
      intros Hrun. injection Hrun as <- <-.
      cbn [app]. rewrite !app_nil_r.
      unfold upstream_calls in *. simpl.
      split; [exact Hup|]. split; [exact Hd|].
      right. do 3 eexists. rewrite Hw.
      split; [reflexivity|]. split; [exact Htext|].
      split; [reflexivity|]. repeat split.
    + destruct (Hfail error eq_refl) as [line ->].
      rewrite createSuccessResponse_run.
      intros Hrun. injection Hrun as <- <-.
      repeat split. left. reflexivity.
  - intros Hrun. injection Hrun as <- <-. repeat split. left. reflexivity.
Qed.

Lemma after_upstream_io config env request (k : JsValue -> M BsebBaseResponse)
      line h o es :
  (logger LogInfo line ;;;
   value <- executeWithRetry config (send env request)
                             (retryAttempts (global config)) ;;
   k value) h = (o, es) ->
  exists es1,
    (1 <= upstream_calls es1 <= retryAttempts (global config) + 1)%nat /\
    written es1 = [] /\ deleted_keys es1 = [] /\
    ((es = [EvLog LogInfo line] ++ es1 /\ exists error, o = Threw error) \/
     exists value es2,
       k value ((h ++ [EvLog LogInfo line]) ++ es1) = (o, es2) /\
       es = [EvLog LogInfo line] ++ es1 ++ es2).
Proof.
  rewrite run_bind. unfold logger, emit. cbv beta iota.
  rewrite run_bind.
  destruct (executeWithRetry_quiet config env request
              (retryAttempts (global config)) (h ++ [EvLog LogInfo line]))
    as [o1 [es1 [Hrun [Hup [Hw Hd]]]]].
  rewrite Hrun.
  destruct o1 as [value|error].
  - destruct (k value ((h ++ [EvLog LogInfo line]) ++ es1)) as [o2 es2] eqn:Hk.
    intros Heq. injection Heq as <- <-.
    exists es1. repeat split; auto; try lia.
    right. exists value, es2. split; [exact Hk | reflexivity].
  - intros Heq. injection Heq as <- <-.
    exists es1. repeat split; auto; try lia.
    left. split; [reflexivity | eauto].
Qed.

Lemma upstream_envelope_check_io (apiResponse : JsValue)
      (failure : BsebBaseResponse) (tail : M BsebBaseResponse) h o es :
  (flag <- lift (member apiResponse "success") ;;
   if negb (truthy flag) || negb (truthy (prop apiResponse "data")) then
     ret failure
   else tail) h = (o, es) ->
  es = [] \/ tail (h ++ []) = (o, es).
Proof.
  rewrite run_bind. unfold lift.
  destruct (member apiResponse "success") as [flag|error].
  - destruct (negb (truthy flag) || negb (truthy (prop apiResponse "data"))).
    + unfold ret. intros Heq. injection Heq as <- <-. left. reflexivity.
    + destruct (tail (h ++ [])) as [o2 es2].
      intros Heq. injection Heq as <- <-. right. reflexivity.
  - intros Heq. injection Heq as <- <-. left. reflexivity.
Qed.

Ltac close_fresh_io Hup Hw Hd :=
  unfold upstream_calls in *;
  rewrite ?count_app, ?written_app, ?deleted_keys_app, ?Hw, ?Hd;
  simpl; rewrite ?app_nil_r.

Lemma freshFormData_io config env registrationNumber :
  fresh_io env (FormDataService.cacheKeyOf config registrationNumber)
           (fd_cacheTtl (formData config)) (retryAttempts (global config))
           (freshFormData config env registrationNumber).
Proof.
  intros h o es Hrun.
  unfold freshFormData, httpGet, axios_get in Hrun. cbv zeta in Hrun.
  apply after_upstream_io in Hrun.
  destruct Hrun as [es1 [Hup [Hw [Hd [[-> _] | [api [es2 [Hk ->]]]]]]]].
  - close_fresh_io Hup Hw Hd. repeat split; auto; lia.
  - apply upstream_envelope_check_io in Hk. destruct Hk as [-> | Htail].
    + close_fresh_io Hup Hw Hd. repeat split; auto; lia.
    + apply store_and_answer_io in Htail.
      destruct Htail as [Hup2 [Hd2 Hw2]].
      close_fresh_io Hup Hw Hd. rewrite Hd2.
      unfold upstream_calls in Hup2. rewrite Hup2.
      repeat split; auto; lia.
Qed.

Lemma freshAdmitCard_GET_io config env identifier type :
  fresh_io env (AdmitCardService_GET.cacheKeyOf config type identifier)
           (ac_cacheTtl (admitCard config)) (retryAttempts (global config))
           (freshAdmitCard_GET config env identifier type).
Proof.
  intros h o es Hrun.
  unfold freshAdmitCard_GET, httpGet, axios_get in Hrun. cbv zeta in Hrun.
  apply after_upstream_io in Hrun.
  destruct Hrun as [es1 [Hup [Hw [Hd [[-> _] | [api [es2 [Hk ->]]]]]]]].
  - close_fresh_io Hup Hw Hd. repeat split; auto; lia.
  - apply upstream_envelope_check_io in Hk. destruct Hk as [-> | Htail].
    + close_fresh_io Hup Hw Hd. repeat split; auto; lia.
    + apply store_and_answer_io in Htail.
      destruct Htail as [Hup2 [Hd2 Hw2]].
      close_fresh_io Hup Hw Hd. rewrite Hd2.
      unfold upstream_calls in Hup2. rewrite Hup2.
      repeat split; auto; lia.
Qed.

Lemma freshAdmitCard_POST_io config env dto type :
  fresh_io env
           (AdmitCardService_POST.cacheKeyOf config type (getIdentifier dto))
           (ac_cacheTtl (admitCard config)) (retryAttempts (global config))
           (freshAdmitCard_POST config env dto type).
Proof.
  intros h o es Hrun.
  unfold freshAdmitCard_POST, httpPost, axios_post in Hrun. cbv zeta in Hrun.
  apply after_upstream_io in Hrun.
  destruct Hrun as [es1 [Hup [Hw [Hd [[-> _] | [api [es2 [Htail ->]]]]]]]].
  - close_fresh_io Hup Hw Hd. repeat split; auto; lia.
  - apply store_and_answer_io in Htail.
    destruct Htail as [Hup2 [Hd2 Hw2]].
    close_fresh_io Hup Hw Hd. rewrite Hd2.
    unfold upstream_calls in Hup2. rewrite Hup2.
    repeat split; auto; lia.
Qed.

Lemma cacheAside_io env cacheKey ttl retries hitText fresh context
      identifier h :
  fresh_io env cacheKey ttl retries fresh ->
  io_contract env cacheKey ttl retries
    (cacheAside env cacheKey hitText fresh context identifier h) /\
  (forall v,
      fst (getFromCache env cacheKey h) = Returned v -> truthy v = false ->
      (1 <= upstream_calls
              (snd (cacheAside env cacheKey hitText fresh context
                               identifier h)))%nat).
Proof.
  intros Hfresh. unfold io_contract, cacheAside.
  rewrite run_try_catch, run_bind.
  destruct (getFromCache_returns env cacheKey h) as [v [es1 [Hget [Hwarn _]]]].
  rewrite Hget. cbn [fst].
  destruct (warnings_counts Hwarn) as [Hup1 _].
  destruct (warnings_no_command Hwarn) as [Hw1 Hd1].
  destruct (truthy v) eqn:Hv.
  - rewrite run_bind. unfold logger, emit. cbv beta iota.
    rewrite createSuccessResponse_run. cbn [snd]. split.
    + do 2 eexists. split; [reflexivity|].
      unfold upstream_calls in *.
      change (EvRedisGet cacheKey :: es1) with ([EvRedisGet cacheKey] ++ es1).
      rewrite !count_app, !written_app, !deleted_keys_app, Hup1, Hw1, Hd1.
      simpl. repeat split; auto; lia.
    + intros v' Hv' Hfalse. injection Hv' as <-. congruence.
  - destruct (fresh (h ++ EvRedisGet cacheKey :: es1)) as [[r|error] es2]
      eqn:Hrun;
      destruct (Hfresh _ _ _ Hrun) as [Hup2 [Hd2 Hw2]].
    + cbn [snd]. split.
      * do 2 eexists. split; [reflexivity|].
        unfold upstream_calls in *.
        change (EvRedisGet cacheKey :: es1)
          with ([EvRedisGet cacheKey] ++ es1).
        rewrite !count_app, !written_app, !deleted_keys_app,
          Hup1, Hw1, Hd1, Hd2.
        simpl. split; [lia|]. split; [reflexivity|].
        destruct Hw2 as [Hw2 | [text [value [r' [Hw2 [Hs [Hr Hrest]]]]]]].
        -- left. exact Hw2.
        -- right. injection Hr as <-. exists text, value.
           split; [exact Hw2|]. split; [exact Hs | exact Hrest].
      * intros _ _ _. unfold upstream_calls in *.
        rewrite count_app. lia.
    + destruct (handleApiError_run env error context identifier
                  (h ++ (EvRedisGet cacheKey :: es1) ++ es2))
        as [r [line [Hhandle _]]].
      rewrite Hhandle. cbn [snd]. split.
      * do 2 eexists. split; [reflexivity|].
        unfold upstream_calls in *.
        change (EvRedisGet cacheKey :: es1)
          with ([EvRedisGet cacheKey] ++ es1).
        rewrite !count_app, !written_app, !deleted_keys_app,
          Hup1, Hw1, Hd1, Hd2.
        simpl. split; [lia|]. split; [reflexivity|].
        destruct Hw2 as [Hw2 | [text [value [r' [_ [_ [Hr _]]]]]]];
          [|discriminate Hr].
        left. rewrite Hw2. reflexivity.
      * intros _ _ _. unfold upstream_calls in *.
        rewrite !count_app. lia.
Qed.

(** X4. Each of the three fetches makes at most [retryAttempts + 1]
    upstream calls and never deletes a cache entry.  It writes at most one
    entry, and then under its own key, with the time to live of its domain,
    the serialisation of the very data it returns with [success = true]
    and [cached = false]: a failure envelope and a cache hit write
    nothing. *)
Theorem fetch_io_contract :
  forall (config : ApiConfig) (env : Env) (h : Trace),
    (forall registrationNumber,
        io_contract env
          (FormDataService.cacheKeyOf config registrationNumber)
          (fd_cacheTtl (formData config)) (retryAttempts (global config))
          (FormDataService.getFormData config env registrationNumber h)) /\
    (forall dto type,
        io_contract env
          (AdmitCardService_POST.cacheKeyOf config type (getIdentifier dto))
          (ac_cacheTtl (admitCard config)) (retryAttempts (global config))
          (AdmitCardService_POST.getAdmitCard config env dto type h)) /\
    (forall dto type,
        io_contract env
          (AdmitCardService_GET.cacheKeyOf config type
             (interp (registrationNumber dto)))
          (ac_cacheTtl (admitCard config)) (retryAttempts (global config))
          (AdmitCardService_GET.getAdmitCard config env dto type h)).
Proof.
  intros config env h. split; [|split].
  - intros registrationNumber. rewrite getFormData_cacheAside.
    apply cacheAside_io, freshFormData_io.
  - intros dto type. rewrite getAdmitCard_POST_cacheAside.
    apply cacheAside_io, freshAdmitCard_POST_io.
  - intros dto type.
    destruct (truthy_str (registrationNumber dto)) eqn:Hreg.
    + rewrite (getAdmitCard_GET_cacheAside config env dto type Hreg).
      apply cacheAside_io, freshAdmitCard_GET_io.
    + unfold AdmitCardService_GET.getAdmitCard. rewrite Hreg. simpl.
      exists AdmitCardService_GET.registrationRequired, [].
      split; [reflexivity|]. unfold upstream_calls. simpl.
      split; [lia|]. split; [reflexivity | left; reflexivity].
Qed.

(** X5. A cache miss always goes to the upstream: when the cache lookup of
    a fetch yields nothing truthy (no entry, an empty or unparsable entry,
    an entry that parses to a falsy value, or a failing store), the fetch
    makes at least one upstream call. *)
Theorem fetch_miss_calls_upstream :
  forall (config : ApiConfig) (env : Env) (h : Trace) (v : JsValue),
    truthy v = false ->
    (forall registrationNumber,
        fst (getFromCache env
               (FormDataService.cacheKeyOf config registrationNumber) h)
        = Returned v ->
        (1 <= upstream_calls
                (snd (FormDataService.getFormData config env
                        registrationNumber h)))%nat) /\
    (forall dto type,
        fst (getFromCache env
               (AdmitCardService_POST.cacheKeyOf config type
                  (getIdentifier dto)) h)
        = Returned v ->
        (1 <= upstream_calls
                (snd (AdmitCardService_POST.getAdmitCard config env dto
                        type h)))%nat) /\
    (forall dto type,
        truthy_str (registrationNumber dto) = true ->
        fst (getFromCache env
               (AdmitCardService_GET.cacheKeyOf config type
                  (interp (registrationNumber dto))) h)
        = Returned v ->
        (1 <= upstream_calls
                (snd (AdmitCardService_GET.getAdmitCard config env dto
                        type h)))%nat).
Proof.
  intros config env h v Hv. split; [|split].
  - intros registrationNumber Hget. rewrite getFormData_cacheAside.
    eapply (proj2 (cacheAside_io _ _ _ _
                     (freshFormData_io config env registrationNumber)));
      eassumption.
  - intros dto type Hget. rewrite getAdmitCard_POST_cacheAside.
    eapply (proj2 (cacheAside_io _ _ _ _
                     (freshAdmitCard_POST_io config env dto type)));
      eassumption.
  - intros dto type Hreg Hget.
    rewrite (getAdmitCard_GET_cacheAside config env dto type Hreg).
    eapply (proj2 (cacheAside_io _ _ _ _
                     (freshAdmitCard_GET_io config env _ type)));
      eassumption.
Qed.

Lemma fetch_miss_calls_upstream_witness :
  let env := sampleEnv (httpFailure 404) (Returned (Some "")) in
  (1 <= upstream_calls
          (snd (FormDataService.getFormData BsebApiConfig env
                  "91341-00009-24" [])))%nat.
Proof.
  intros env.
  exact (proj1 (@fetch_miss_calls_upstream BsebApiConfig env [] JNull eq_refl)
               "91341-00009-24" eq_refl).
Defined.

(** X3. [handleApiError] does nothing but log one error line, and stamps
    the envelope with the time at which it was entered.  The message it
    returns is one of its own eight texts, or the [message] field of the
    upstream's response body; the latter only under the codes [NOT_FOUND],
    [BAD_REQUEST] and [API_ERROR], and never the text of the error itself.
    Under every other code the message is one of the fixed texts. *)
Theorem handleApiError_message_provenance :
  forall (env : Env) (error : JsError) (context identifier : string)
         (h : Trace),
  exists r line text,
    handleApiError env error context identifier h
    = (Returned r, [EvLog LogError line]) /\
    timestamp r = Some (toISOString env h) /\
    message r = Some text /\
    (In text (fixedMessages context) \/
     exists code response errorText,
       error = AxiosError code (Some response) errorText /\
       text = prop (data response) "message") /\
    (forall c, errorCode r = Some c -> ~ In c relayingCodes ->
               In text (fixedMessages context)).
Proof.
  intros env error context identifier h.
  destruct (handleApiError_run env error context identifier h)
    as [r [line [Hrun [_ [_ [_ [_ [Hstamp [text [Hmsg [_ Hprov]]]]]]]]]]].
  exists r, line, text.
  split; [exact Hrun|]. split; [exact Hstamp|]. split; [exact Hmsg|].
  split.
  - destruct Hprov as [Hfixed | [code [response [errorText [He [Ht _]]]]]];
      [left; exact Hfixed | right; eauto].
  - intros c Hc Hnot.
    destruct Hprov as [Hfixed | [_ [_ [_ [_ [_ [c' [Hc' Hin]]]]]]]];
      [exact Hfixed|].
    rewrite Hc in Hc'. injection Hc' as <-. contradiction.
Qed.

(** ** Invalidation *)

Lemma forEach_deleteFromCache_keys env keys :
  forall h,
  exists es,
    forEach (deleteFromCache env) keys h = (Returned tt, es) /\
    deleted_keys es = keys /\ written es = [] /\ upstream_calls es = 0%nat.
Proof.
  induction keys as [|key keys IH]; intros h; simpl.
  - exists []. repeat split.
  - rewrite run_bind.
    destruct (deleteFromCache_returns env key h) as [es [-> Hwarn]].
    destruct (IH (h ++ EvRedisDelete key :: es)) as [es' [-> [Hd [Hw Hup]]]].
    destruct (warnings_no_command Hwarn) as [Hw1 Hd1].
    destruct (warnings_counts Hwarn) as [Hup1 _].
    eexists. split; [reflexivity|].
    change (EvRedisDelete key :: es) with ([EvRedisDelete key] ++ es).
    unfold upstream_calls in *.
    rewrite !deleted_keys_app, !written_app, !count_app, Hd1, Hw1, Hd, Hw,
      Hup, Hup1.
    repeat split.
Qed.

Lemma clearCache_admit_run config env identifier h :
  exists es,
    (deleteCacheByPrefix env (ac_cachePrefix (admitCard config)) identifier ;;;
     logger LogInfo
       (template ["Cache cleared for admit card: "; identifier])) h
    = (Returned tt, es) /\
    deleted_keys es
    = [template [ac_cachePrefix (admitCard config); ":"; identifier];
       AdmitCardService_POST.cacheKeyOf config THEORY identifier;
       AdmitCardService_POST.cacheKeyOf config PRACTICAL identifier] /\
    written es = [] /\ upstream_calls es = 0%nat.
Proof.
  rewrite run_bind. unfold deleteCacheByPrefix.
  match goal with
  | |- context [forEach (deleteFromCache env) ?keys h] =>
      destruct (forEach_deleteFromCache_keys env keys h)
        as [es [-> [Hd [Hw Hup]]]]
  end.
  unfold logger, emit. eexists. split; [reflexivity|].
  unfold upstream_calls in *.
  rewrite deleted_keys_app, written_app, count_app, Hd, Hw, Hup.
  repeat split.
Qed.

Lemma clearCache_form_run config env registrationNumber h :
  exists es,
    FormDataService.clearCache config env registrationNumber h
    = (Returned tt, es) /\
    deleted_keys es = [FormDataService.cacheKeyOf config registrationNumber] /\
    written es = [] /\ upstream_calls es = 0%nat.
Proof.
  unfold FormDataService.clearCache. rewrite run_bind.
  destruct (deleteFromCache_returns env
              (FormDataService.cacheKeyOf config registrationNumber) h)
    as [es [-> Hwarn]].
  destruct (warnings_no_command Hwarn) as [Hw1 Hd1].
  destruct (warnings_counts Hwarn) as [Hup1 _].
  unfold logger, emit. eexists. split; [reflexivity|].
  change (EvRedisDelete (FormDataService.cacheKeyOf config registrationNumber)
          :: es)
    with ([EvRedisDelete
             (FormDataService.cacheKeyOf config registrationNumber)] ++ es).
  unfold upstream_calls in *.
  rewrite !deleted_keys_app, !written_app, !count_app, Hd1, Hw1, Hup1.
  repeat split.
Qed.

(** X6. Invalidation reaches every key a fetch caches under.  The
    admit-card [clearCache] issues three deletes, in order for
    [prefix:identifier] and for the keys under which the theory and the
    practical fetch of that identifier store their data; the form-data
    [clearCache] issues the one delete for the key of [getFormData].  Each
    delete is issued even if an earlier one fails; nothing is written, the
    upstream is not called, and no error reaches the caller. *)
Theorem clearCache_covers_fetch_keys :
  forall (config : ApiConfig) (env : Env) (identifier : string) (h : Trace),
    (exists es,
        AdmitCardService_POST.clearCache config env identifier h
        = (Returned tt, es) /\
        deleted_keys es
        = [template [ac_cachePrefix (admitCard config); ":"; identifier];
           AdmitCardService_POST.cacheKeyOf config THEORY identifier;
           AdmitCardService_POST.cacheKeyOf config PRACTICAL identifier] /\
        written es = [] /\ upstream_calls es = 0%nat) /\
    (exists es,
        AdmitCardService_GET.clearCache config env identifier h
        = (Returned tt, es) /\
        deleted_keys es
        = [template [ac_cachePrefix (admitCard config); ":"; identifier];
           AdmitCardService_GET.cacheKeyOf config THEORY identifier;
           AdmitCardService_GET.cacheKeyOf config PRACTICAL identifier] /\
        written es = [] /\ upstream_calls es = 0%nat) /\
    (exists es,
        FormDataService.clearCache config env identifier h
        = (Returned tt, es) /\
        deleted_keys es = [FormDataService.cacheKeyOf config identifier] /\
        written es = [] /\ upstream_calls es = 0%nat).
Proof.
  intros config env identifier h.
  split; [exact (clearCache_admit_run config env identifier h)|].
  split; [exact (clearCache_admit_run config env identifier h)|].
  exact (clearCache_form_run config env identifier h).
Qed.

(** ** Over a store that keeps what it is given *)

Lemma stored_app h es key :
  stored (h ++ es) key
  = fold_left
      (fun entry ev =>
         match ev with
         | EvRedisSet k text _ => if (k =? key)%string then Some text else entry
         | EvRedisDelete k => if (k =? key)%string then None else entry
         | _ => entry
         end)
      es (stored h key).
Proof. unfold stored. apply fold_left_app. Qed.

Lemma stored_no_command h es key :
  written es = [] -> deleted_keys es = [] ->
  stored (h ++ es) key = stored h key.
Proof.
  rewrite stored_app. generalize (stored h key).
  induction es as [|ev es IH]; intros entry Hw Hd; simpl; auto.
  destruct ev; simpl in *; try discriminate; auto.
Qed.

Lemma stored_after_set h key text ttl :
  stored (h ++ [EvRedisSet key text ttl]) key = Some text.
Proof. rewrite stored_app. simpl. rewrite String.eqb_refl. reflexivity. Qed.

Lemma stored_after_deletes h es key :
  written es = [] -> In key (deleted_keys es) ->
  stored (h ++ es) key = None.
Proof.
  rewrite stored_app. generalize (stored h key).
  induction es as [|ev es IH]; intros entry Hw Hin; simpl in *; [tauto|].
  destruct ev; simpl in *; try discriminate; auto.
  destruct Hin as [-> | Hin].
  - rewrite String.eqb_refl. clear IH.
    induction es as [|ev es IH]; simpl in *; auto.
    destruct ev; simpl in *; try discriminate; auto.
    destruct (key0 =? key)%string; auto.
  - apply IH; assumption.
Qed.

Lemma getFromCache_store_miss env cacheKey h :
  store_like env -> stored h cacheKey = None ->
  getFromCache env cacheKey h = (Returned JNull, [EvRedisGet cacheKey]).
Proof.
  intros Hstore Hnone. unfold getFromCache.
  rewrite run_try_catch, run_bind. unfold perform.
  rewrite Hstore, Hnone. reflexivity.
Qed.

Lemma getFromCache_store_hit env cacheKey h text value :
  store_like env -> stored h cacheKey = Some text ->
  text <> "" -> JSON_parse env text = Returned value ->
  getFromCache env cacheKey h = (Returned value, [EvRedisGet cacheKey]).
Proof.
  intros Hstore Hsome Htext Hparse. unfold getFromCache.
  rewrite run_try_catch, run_bind. unfold perform.
  rewrite Hstore, Hsome. simpl.
  destruct (String.eqb_spec text ""); [contradiction|]. simpl.
  unfold lift. rewrite Hparse. reflexivity.
Qed.

(** A hit, in full. *)
Lemma cacheAside_hit env cacheKey hitText fresh context identifier h value es :
  getFromCache env cacheKey h = (Returned value, es) ->
  truthy value = true ->
  exists r,
    cacheAside env cacheKey hitText fresh context identifier h
    = (Returned r, es ++ [EvLog LogInfo hitText]) /\
    success r = true /\ payload r = Some value /\ cached r = Some true.
Proof.
  intros Hget Hvalue. unfold cacheAside.
  rewrite run_try_catch, run_bind, Hget, Hvalue, run_bind.
  unfold logger, emit. cbv beta iota. rewrite createSuccessResponse_run.
  eexists. rewrite !app_nil_r. split; [reflexivity|]. repeat split.
Qed.

Lemma stored_single_write h es key text ttl :
  written es = [(key, text, ttl)] -> deleted_keys es = [] ->
  stored (h ++ es) key = Some text.
Proof.
  revert h. induction es as [|ev es IH]; intros h Hw Hd; simpl in *;
    [discriminate|].
  change (ev :: es) with ([ev] ++ es). rewrite app_assoc.
  destruct ev; simpl in *; try discriminate;
    try (apply IH; assumption).
  injection Hw as -> -> -> Hw.
  rewrite (stored_no_command _ es key Hw Hd).
  apply stored_after_set.
Qed.

(** [getFromCache] depends on the history through the store's answer
    only. *)
Lemma getFromCache_same_answer env cacheKey h h' :
  redis_get env h cacheKey = redis_get env h' cacheKey ->
  getFromCache env cacheKey h = getFromCache env cacheKey h'.
Proof.
  intros Hsame. unfold getFromCache.
  rewrite !run_try_catch, !run_bind. unfold perform. rewrite Hsame.
  destruct (redis_get env h' cacheKey) as [cached|error]; [|reflexivity].
  destruct (truthy_str cached); [|reflexivity].
  unfold lift. destruct (JSON_parse env (interp cached)); reflexivity.
Qed.

(** After a successful fetch, any fetch under the same key is a hit,
    whatever it would have asked the upstream for. *)
Lemma cacheAside_then_hit env cacheKey ttl retries hitText fresh context
      identifier hitText' fresh' context' identifier' h r1 es1 value text :
  store_like env ->
  fresh_io env cacheKey ttl retries fresh ->
  fresh_writes env cacheKey ttl fresh ->
  cacheAside env cacheKey hitText fresh context identifier h
  = (Returned r1, es1) ->
  success r1 = true -> payload r1 = Some value ->
  JSON_stringify env value = Returned text ->
  text <> "" ->
  JSON_parse env text = Returned value ->
  exists r2 es2,
    cacheAside env cacheKey hitText' fresh' context' identifier' (h ++ es1)
    = (Returned r2, es2) /\
    success r2 = true /\ cached r2 = Some true /\
    payload r2 = Some value /\
    upstream_calls es2 = 0%nat.
Proof.
  intros Hstore Hio Hwrites Hrun Hs Hp Htext Hne Hparse.
  destruct (getFromCache_returns env cacheKey h) as [v [es0 [Hget [Hwarn _]]]].
  destruct (warnings_no_command Hwarn) as [Hw0 Hd0].
  destruct (warnings_counts Hwarn) as [Hup0 _].
  destruct (truthy v) eqn:Hv.
  - destruct (cacheAside_hit env cacheKey hitText fresh context identifier
                h Hget Hv) as [r [Hhit [_ [Hpayload _]]]].
    rewrite Hrun in Hhit. injection Hhit as <- ->.
    assert (v = value) by congruence. subst v.
    assert (Hget' : getFromCache env cacheKey
                      (h ++ (EvRedisGet cacheKey :: es0)
                         ++ [EvLog LogInfo hitText])
                    = (Returned value, EvRedisGet cacheKey :: es0)).
    { rewrite <- Hget. apply getFromCache_same_answer.
      rewrite !Hstore. f_equal. apply stored_no_command.
      - change (EvRedisGet cacheKey :: es0) with ([EvRedisGet cacheKey] ++ es0).
        rewrite !written_app, Hw0. reflexivity.
      - change (EvRedisGet cacheKey :: es0) with ([EvRedisGet cacheKey] ++ es0).
        rewrite !deleted_keys_app, Hd0. reflexivity. }
    destruct (cacheAside_hit env cacheKey hitText' fresh' context'
                identifier' _ Hget' Hv) as [r2 [Hrun2 [Hs2 [Hp2 Hc2]]]].
    do 2 eexists. split; [exact Hrun2|].
    repeat split; auto.
    unfold upstream_calls in *.
    change (EvRedisGet cacheKey :: es0) with ([EvRedisGet cacheKey] ++ es0).
    rewrite !count_app, Hup0. reflexivity.
  - unfold cacheAside in Hrun.
    rewrite run_try_catch, run_bind, Hget, Hv in Hrun.
    destruct (fresh (h ++ EvRedisGet cacheKey :: es0)) as [[r|error] es2]
      eqn:Hfresh.
    + injection Hrun as -> <-.
      destruct (Hio _ _ _ Hfresh) as [_ [Hd2 _]].
      destruct (Hwrites _ _ _ Hfresh Hs) as [value' [Hp' [Htruthy Hw2]]].
      assert (value' = value) by congruence. subst value'.
      specialize (Hw2 text Htext).
      assert (Hstored : stored (h ++ (EvRedisGet cacheKey :: es0) ++ es2)
                               cacheKey = Some text).
      { rewrite app_assoc. apply (stored_single_write _ _ Hw2 Hd2). }
      pose proof (@getFromCache_store_hit env cacheKey _ text value
                    Hstore Hstored Hne Hparse) as Hget2.
      destruct (cacheAside_hit env cacheKey hitText' fresh' context'
                  identifier' _ Hget2 Htruthy)
        as [r2 [Hrun2 [Hs2 [Hp2 Hc2]]]].
      do 2 eexists. split; [exact Hrun2|].
      repeat split; auto.
    + destruct (handleApiError_run env error context identifier
                  (h ++ (EvRedisGet cacheKey :: es0) ++ es2))
        as [r [line [Hhandle [Hfalse _]]]].
      rewrite Hhandle in Hrun. injection Hrun as -> _. congruence.
Qed.

Lemma cacheAside_caches_result env cacheKey ttl retries hitText fresh context
      identifier h :
  store_like env ->
  fresh_io env cacheKey ttl retries fresh ->
  fresh_writes env cacheKey ttl fresh ->
  caches_result env
    (cacheAside env cacheKey hitText fresh context identifier) h.
Proof.
  intros Hstore Hio Hwrites r1 es1 value text Hrun Hs Hp Htext Hne Hparse.
  eapply cacheAside_then_hit; eassumption.
Qed.

Lemma store_and_answer_writes env cacheKey ttl (o : Outcome JsValue) h r es :
  (value <- lift o ;;
   setInCache env cacheKey value ttl ;;;
   createSuccessResponse env value false) h = (Returned r, es) ->
  exists value,
    o = Returned value /\ payload r = Some value /\
    forall text,
      JSON_stringify env value = Returned text ->
      written es = [(cacheKey, text, ttl)].
Proof.
  rewrite run_bind. unfold lift.
  destruct o as [value|error]; [|discriminate].
  rewrite run_bind.
  destruct (setInCache_run env cacheKey value ttl (h ++ [])) as [Hok _].
  destruct (setInCache_returns env cacheKey value ttl (h ++ []))
    as [es1 [Hset _]].
  rewrite Hset, createSuccessResponse_run.
  intros Hrun. injection Hrun as <- <-.
  exists value. split; [reflexivity|]. split; [reflexivity|].
  intros text Htext.
  destruct (Hok text Htext) as [es1' [Hset' Hwarn]].
  rewrite Hset in Hset'. injection Hset' as ->.
  destruct (warnings_no_command Hwarn) as [Hw _].
  cbn [app]. rewrite !app_nil_r. simpl. rewrite Hw. reflexivity.
Qed.

Lemma transformResponse_form_object raw normalized :
  FormDataService.transformResponse raw = Returned normalized ->
  truthy normalized = true.
Proof.
  unfold FormDataService.transformResponse.
  destruct (member raw "school_code"); simpl; [|discriminate].
  intros H. injection H as <-. reflexivity.
Qed.

Lemma transformResponse_POST_object rawData normalized :
  AdmitCardService_POST.transformResponse rawData = Returned normalized ->
  truthy normalized = true.
Proof.
  intros Hrun. unfold AdmitCardService_POST.transformResponse in Hrun.
  do 17 step_bindO Hrun. injection Hrun as <-. reflexivity.
Qed.

Lemma transformResponse_GET_object rawData type normalized :
  AdmitCardService_GET.transformResponse rawData type = Returned normalized ->
  truthy normalized = true.
Proof.
  intros Hrun. unfold AdmitCardService_GET.transformResponse in Hrun.
  step_bindO Hrun. injection Hrun as <-. reflexivity.
Qed.

Ltac close_fresh_writes Hw1 Hwrite :=
  intros text Htext; rewrite !written_app, Hw1; simpl;
  exact (Hwrite text Htext).

Lemma freshFormData_writes config env registrationNumber :
  fresh_writes env (FormDataService.cacheKeyOf config registrationNumber)
               (fd_cacheTtl (formData config))
               (freshFormData config env registrationNumber).
Proof.
  intros h r es Hrun Hs.
  unfold freshFormData, httpGet, axios_get in Hrun. cbv zeta in Hrun.
  apply after_upstream_io in Hrun.
  destruct Hrun as [es1 [_ [Hw1 [_ [[_ [error Hthrew]] | [api [es2 [Hk ->]]]]]]]];
    [discriminate Hthrew|].
  apply upstream_envelope_check in Hk.
  destruct Hk as [_ [[_ [-> _]] | [_ Htail]]]; [discriminate Hs|].
  apply store_and_answer_writes in Htail.
  destruct Htail as [value [Htransform [Hp Hwrite]]].
  exists value. split; [exact Hp|].
  split; [exact (transformResponse_form_object _ Htransform)|].
  close_fresh_writes Hw1 Hwrite.
Qed.

Lemma freshAdmitCard_GET_writes config env identifier type :
  fresh_writes env (AdmitCardService_GET.cacheKeyOf config type identifier)
               (ac_cacheTtl (admitCard config))
               (freshAdmitCard_GET config env identifier type).
Proof.
  intros h r es Hrun Hs.
  unfold freshAdmitCard_GET, httpGet, axios_get in Hrun. cbv zeta in Hrun.
  apply after_upstream_io in Hrun.
  destruct Hrun as [es1 [_ [Hw1 [_ [[_ [error Hthrew]] | [api [es2 [Hk ->]]]]]]]];
    [discriminate Hthrew|].
  apply upstream_envelope_check in Hk.
  destruct Hk as [_ [[_ [-> _]] | [_ Htail]]]; [discriminate Hs|].
  apply store_and_answer_writes in Htail.
  destruct Htail as [value [Htransform [Hp Hwrite]]].
  exists value. split; [exact Hp|].
  split; [exact (transformResponse_GET_object _ _ Htransform)|].
  close_fresh_writes Hw1 Hwrite.
Qed.

Lemma freshAdmitCard_POST_writes config env dto type :
  fresh_writes env
               (AdmitCardService_POST.cacheKeyOf config type
                  (getIdentifier dto))
               (ac_cacheTtl (admitCard config))
               (freshAdmitCard_POST config env dto type).
Proof.
  intros h r es Hrun Hs.
  unfold freshAdmitCard_POST, httpPost, axios_post in Hrun. cbv zeta in Hrun.
  apply after_upstream_io in Hrun.
  destruct Hrun as [es1 [_ [Hw1 [_ [[_ [error Hthrew]] | [api [es2 [Htail ->]]]]]]]];
    [discriminate Hthrew|].
  apply store_and_answer_writes in Htail.
  destruct Htail as [value [Htransform [Hp Hwrite]]].
  exists value. split; [exact Hp|].
  split; [exact (transformResponse_POST_object _ Htransform)|].
  close_fresh_writes Hw1 Hwrite.
Qed.

(** X7. Over a store that keeps what it is given, a fetch that has
    returned data with [success = true], be it fresh or cached, leaves the
    cache such that the same fetch run next returns the same data with
    [cached = true] and calls no upstream, provided the data can be
    serialised to a text that is not empty and parses back to it.  This
    holds for [getFormData] and for both versions of [getAdmitCard]. *)
Theorem fetch_then_fetch_is_cached :
  forall (config : ApiConfig) (env : Env) (h : Trace),
    store_like env ->
    (forall registrationNumber,
        caches_result env
          (FormDataService.getFormData config env registrationNumber) h) /\
    (forall dto type,
        caches_result env
          (AdmitCardService_POST.getAdmitCard config env dto type) h) /\
    (forall dto type,
        caches_result env
          (AdmitCardService_GET.getAdmitCard config env dto type) h).
Proof.
  intros config env h Hstore. split; [|split].
  - intros registrationNumber. rewrite getFormData_cacheAside.
    eapply cacheAside_caches_result;
      [exact Hstore | apply freshFormData_io | apply freshFormData_writes].
  - intros dto type. rewrite getAdmitCard_POST_cacheAside.
    eapply cacheAside_caches_result;
      [exact Hstore | apply freshAdmitCard_POST_io
       | apply freshAdmitCard_POST_writes].
  - intros dto type.
    destruct (truthy_str (registrationNumber dto)) eqn:Hreg.
    + rewrite (getAdmitCard_GET_cacheAside config env dto type Hreg).
      eapply cacheAside_caches_result;
        [exact Hstore | apply freshAdmitCard_GET_io
         | apply freshAdmitCard_GET_writes].
    + intros r1 es1 value text Hrun Hs.
      unfold AdmitCardService_GET.getAdmitCard in Hrun.
      rewrite Hreg in Hrun. injection Hrun as <- _. discriminate Hs.
Qed.

Lemma memoryEnv_store_like http entry : store_like (memoryEnv http entry).
Proof. intros h key. reflexivity. Qed.

Lemma fetch_then_fetch_is_cached_witness :
  let env := memoryEnv sampleFormAnswer sampleFormRecord in
  exists r1 es1,
    FormDataService.getFormData BsebApiConfig env "91341-00009-24" []
    = (Returned r1, es1) /\
    cached r1 = Some false /\
    exists r2 es2,
      FormDataService.getFormData BsebApiConfig env "91341-00009-24" es1
      = (Returned r2, es2) /\
      cached r2 = Some true /\
      payload r2 = Some sampleFormRecord /\
      upstream_calls es2 = 0%nat.
Proof.
  intros env.
  do 2 eexists. split; [vm_compute; reflexivity|].
  split; [reflexivity|].
  destruct (proj1 (fetch_then_fetch_is_cached BsebApiConfig []
                     (memoryEnv_store_like sampleFormAnswer sampleFormRecord))
                  "91341-00009-24" _ _ sampleFormRecord "entry"
                  eq_refl eq_refl eq_refl eq_refl
                  ltac:(discriminate) eq_refl)
    as [r2 [es2 [Hrun2 [_ [Hc2 [Hp2 Hup2]]]]]].
  exists r2, es2.
  split; [exact Hrun2|]. split; [exact Hc2|]. split; [exact Hp2 | exact Hup2].
Defined.

Lemma cacheAside_after_miss env cacheKey ttl retries hitText fresh context
      identifier h :
  store_like env -> stored h cacheKey = None ->
  fresh_ok fresh -> fresh_io env cacheKey ttl retries fresh ->
  fetched_afresh (cacheAside env cacheKey hitText fresh context identifier) h.
Proof.
  intros Hstore Hnone Hok Hio.
  pose proof (@getFromCache_store_miss env cacheKey h Hstore Hnone) as Hget.
  destruct (@cacheAside_envelope env cacheKey hitText fresh context
              identifier h Hok)
    as [r [es [Hrun [_ [Hiff _]]]]].
  exists r, es. split; [exact Hrun|]. split.
  - intros Hc. apply Hiff in Hc.
    destruct Hc as [v [Hv [Htruthy _]]].
    rewrite Hget in Hv. injection Hv as <-. discriminate Htruthy.
  - pose proof (proj2 (@cacheAside_io env cacheKey ttl retries hitText fresh
                         context identifier h Hio)
                      JNull) as Hcalls.
    rewrite Hget, Hrun in Hcalls. apply Hcalls; reflexivity.
Qed.

(** X8. Over a store that keeps what it is given, [clearCache] followed by
    a fetch of the same identifier is never answered from the cache: the
    fetch does not return [cached = true] and calls the upstream.  This
    holds for form data, and for the theory and the practical admit card
    in both versions of the service. *)
Theorem clearCache_then_fetch_is_fresh :
  forall (config : ApiConfig) (env : Env) (identifier : string) (h : Trace),
    store_like env ->
    fetched_afresh
      (FormDataService.getFormData config env identifier)
      (h ++ snd (FormDataService.clearCache config env identifier h)) /\
    (forall dto type,
        getIdentifier dto = identifier ->
        fetched_afresh
          (AdmitCardService_POST.getAdmitCard config env dto type)
          (h ++ snd (AdmitCardService_POST.clearCache config env
                       identifier h))) /\
    (forall dto type,
        truthy_str (registrationNumber dto) = true ->
        interp (registrationNumber dto) = identifier ->
        fetched_afresh
          (AdmitCardService_GET.getAdmitCard config env dto type)
          (h ++ snd (AdmitCardService_GET.clearCache config env
                       identifier h))).
Proof.
  intros config env identifier h Hstore.
  assert (Hadmit : forall type,
             stored (h ++ snd (AdmitCardService_POST.clearCache config env
                                 identifier h))
                    (AdmitCardService_POST.cacheKeyOf config type identifier)
             = None).
  { intros type.
    destruct (clearCache_admit_run config env identifier h)
      as [es [Hrun [Hd [Hw _]]]].
    unfold AdmitCardService_POST.clearCache. rewrite Hrun. cbn [snd].
    apply stored_after_deletes; [exact Hw|].
    rewrite Hd. destruct type; simpl; auto. }
  split; [|split].
  - destruct (clearCache_form_run config env identifier h)
      as [es [Hrun [Hd [Hw _]]]].
    rewrite Hrun. cbn [snd]. rewrite getFormData_cacheAside.
    eapply cacheAside_after_miss;
      [exact Hstore | | apply freshFormData_ok | apply freshFormData_io].
    apply stored_after_deletes; [exact Hw|]. rewrite Hd. simpl. auto.
  - intros dto type <-. rewrite getAdmitCard_POST_cacheAside.
    eapply cacheAside_after_miss;
      [exact Hstore | apply Hadmit | apply freshAdmitCard_POST_ok
       | apply freshAdmitCard_POST_io].
  - intros dto type Hreg <-.
    rewrite (getAdmitCard_GET_cacheAside config env dto type Hreg).
    eapply cacheAside_after_miss;
      [exact Hstore | apply Hadmit | apply freshAdmitCard_GET_ok
       | apply freshAdmitCard_GET_io].
Qed.

(** An entry is in the store; after [clearCache] the fetch goes to the
    upstream again. *)
Lemma clearCache_then_fetch_is_fresh_witness :
  let env := memoryEnv sampleFormAnswer sampleFormRecord in
  let h := [EvRedisSet "bseb:form:91341-00009-24" "entry" 86400] in
  fetched_afresh
    (FormDataService.getFormData BsebApiConfig env "91341-00009-24")
    (h ++ snd (FormDataService.clearCache BsebApiConfig env
                 "91341-00009-24" h)).
Proof.
  intros env h.
  exact (proj1 (clearCache_then_fetch_is_fresh BsebApiConfig
                  "91341-00009-24" h
                  (memoryEnv_store_like sampleFormAnswer sampleFormRecord))).
Defined.

(** ** When the upstream is down *)

Lemma attemptLoop_down config env request retries error remaining :
  upstream_down env error -> isClientError error = false ->
  forall attempt h,
    (attempt + remaining = retries)%nat ->
    exists es,
      attemptLoop config (send env request) retries attempt remaining h
      = (Threw error, es) /\
      failedAttempts (retryDelay (global config)) (sending request)
                     retries attempt ++ es
      = failedAttempts (retryDelay (global config)) (sending request)
                       retries retries ++ [EvAxios request].
Proof.
  intros Hdown Hretry.
  induction remaining as [|remaining IH]; intros attempt h Hsum;
    simpl attemptLoop; rewrite run_try_catch, run_bind;
    unfold send at 1, perform; rewrite Hdown, Hretry.
  - assert (attempt = retries) by lia. subst attempt.
    rewrite Nat.ltb_irrefl. exists [EvAxios request].
    split; reflexivity.
  - assert (Hltb : (attempt <? retries)%nat = true)
      by (apply Nat.ltb_lt; lia).
    rewrite Hltb, run_bind.
    unfold logger, delay, emit. rewrite run_bind. cbv beta iota.
    match goal with
    | |- context [attemptLoop _ _ _ _ _ ?h'] =>
        destruct (IH (S attempt) h') as [es [-> Hes]]; [lia|]
    end.
    eexists. split; [reflexivity|].
    rewrite <- Hes. simpl failedAttempts. unfold retryWarning, sending.
    rewrite <- !app_assoc. reflexivity.
Qed.

Lemma executeWithRetry_down config env request error h :
  upstream_down env error ->
  exists es,
    executeWithRetry config (send env request)
                     (retryAttempts (global config)) h
    = (Threw error, es) /\
    written es = [] /\
    upstream_calls es
    = (if isClientError error then 1
       else retryAttempts (global config) + 1)%nat /\
    delays es
    = (if isClientError error then []
       else linearBackoff (retryDelay (global config))
                          (retryAttempts (global config))).
Proof.
  intros Hdown. unfold executeWithRetry.
  destruct (isClientError error) eqn:Hclient.
  - rewrite (@attemptLoop_client_error config (send env request) _ _ _ h
               error [EvAxios request]); auto.
    + eexists. repeat split.
    + unfold send, perform. rewrite Hdown. reflexivity.
  - destruct (@attemptLoop_down config env request
                (retryAttempts (global config)) error
                (retryAttempts (global config)) Hdown Hclient 0%nat h
                (Nat.add_0_l _)) as [es [-> Hes]].
    simpl in Hes. exists es. split; [reflexivity|]. rewrite Hes.
    rewrite written_app, upstream_calls_app, delays_app,
      upstream_calls_failedAttempts, delays_failedAttempts.
    assert (Hw : written (failedAttempts (retryDelay (global config))
                            (sending request)
                            (retryAttempts (global config))
                            (retryAttempts (global config))) = []).
    { generalize (retryAttempts (global config)) at 2.
      induction n as [|n IH]; simpl; auto.
      rewrite written_app, IH. reflexivity. }
    rewrite Hw. simpl. rewrite app_nil_r. repeat split.
Qed.

Lemma warnings_delays es : Forall is_warning es -> delays es = [].
Proof. induction 1 as [|ev es [text ->] _ IH]; simpl; auto. Qed.

Lemma after_upstream_down config env request
      (k : JsValue -> M BsebBaseResponse) line error h :
  upstream_down env error ->
  exists es,
    (logger LogInfo line ;;;
     value <- executeWithRetry config (send env request)
                               (retryAttempts (global config)) ;;
     k value) h = (Threw error, es) /\
    written es = [] /\
    upstream_calls es
    = (if isClientError error then 1
       else retryAttempts (global config) + 1)%nat /\
    delays es
    = (if isClientError error then []
       else linearBackoff (retryDelay (global config))
                          (retryAttempts (global config))).
Proof.
  intros Hdown. rewrite run_bind. unfold logger, emit. cbv beta iota.
  rewrite run_bind.
  destruct (executeWithRetry_down config request (h ++ [EvLog LogInfo line])
              Hdown) as [es [-> [Hw [Hup Hdel]]]].
  eexists. split; [reflexivity|].
  unfold upstream_calls in *. rewrite written_app, count_app, delays_app.
  simpl. rewrite Hw, Hup, Hdel. repeat split.
Qed.

Lemma cacheAside_fresh_throws config env cacheKey hitText fresh context
      identifier h v error :
  fst (getFromCache env cacheKey h) = Returned v -> truthy v = false ->
  (forall h',
      exists es,
        fresh h' = (Threw error, es) /\
        written es = [] /\
        upstream_calls es
        = (if isClientError error then 1
           else retryAttempts (global config) + 1)%nat /\
        delays es
        = (if isClientError error then []
           else linearBackoff (retryDelay (global config))
                              (retryAttempts (global config)))) ->
  error_outcome config error
    (cacheAside env cacheKey hitText fresh context identifier h).
Proof.
  intros Hget Hv Hfresh. unfold error_outcome, cacheAside.
  rewrite run_try_catch, run_bind.
  destruct (getFromCache_returns env cacheKey h) as [v' [es0 [Hrun [Hwarn _]]]].
  rewrite Hrun in Hget. cbn [fst] in Hget. injection Hget as ->.
  rewrite Hrun, Hv.
  destruct (Hfresh (h ++ EvRedisGet cacheKey :: es0))
    as [es [-> [Hw [Hup Hdel]]]].
  destruct (handleApiError_run env error context identifier
              (h ++ (EvRedisGet cacheKey :: es0) ++ es))
    as [r [line [-> [Hs [Hp [_ [Hcode _]]]]]]].
  destruct (warnings_no_command Hwarn) as [Hw0 _].
  destruct (warnings_counts Hwarn) as [Hup0 _].
  pose proof (warnings_delays Hwarn) as Hdel0.
  exists r. cbn [fst snd].
  split; [reflexivity|]. split; [exact Hs|]. split; [exact Hp|].
  split; [exact Hcode|].
  change (EvRedisGet cacheKey :: es0) with ([EvRedisGet cacheKey] ++ es0).
  unfold upstream_calls in *.
  rewrite !written_app, !count_app, !delays_app, Hw, Hw0, Hup, Hup0, Hdel,
    Hdel0.
  simpl. rewrite !app_nil_r. repeat split; lia.
Qed.

(** X9. When the upstream answers every call with the same error and the
    cache misses, each fetch returns the failure envelope with the code
    that the mapping table gives for that error and no data.  It has then
    made one upstream call if the error is a client error, and otherwise
    [retryAttempts + 1] calls with the waits [retryDelay * 1, ...,
    retryDelay * retryAttempts]; nothing is written to the cache. *)
Theorem fetch_when_upstream_down :
  forall (config : ApiConfig) (env : Env) (error : JsError) (h : Trace)
         (v : JsValue),
    upstream_down env error ->
    truthy v = false ->
    (forall registrationNumber,
        fst (getFromCache env
               (FormDataService.cacheKeyOf config registrationNumber) h)
        = Returned v ->
        error_outcome config error
          (FormDataService.getFormData config env registrationNumber h)) /\
    (forall dto type,
        fst (getFromCache env
               (AdmitCardService_POST.cacheKeyOf config type
                  (getIdentifier dto)) h)
        = Returned v ->
        error_outcome config error
          (AdmitCardService_POST.getAdmitCard config env dto type h)) /\
    (forall dto type,
        truthy_str (registrationNumber dto) = true ->
        fst (getFromCache env
               (AdmitCardService_GET.cacheKeyOf config type
                  (interp (registrationNumber dto))) h)
        = Returned v ->
        error_outcome config error
          (AdmitCardService_GET.getAdmitCard config env dto type h)).
Proof.
  intros config env error h v Hdown Hv. split; [|split].
  - intros registrationNumber Hget. rewrite getFormData_cacheAside.
    eapply cacheAside_fresh_throws; [exact Hget | exact Hv |].
    intros h'. unfold freshFormData, httpGet, axios_get. cbv zeta.
    apply after_upstream_down. exact Hdown.
  - intros dto type Hget. rewrite getAdmitCard_POST_cacheAside.
    eapply cacheAside_fresh_throws; [exact Hget | exact Hv |].
    intros h'. unfold freshAdmitCard_POST, httpPost, axios_post. cbv zeta.
    apply after_upstream_down. exact Hdown.
  - intros dto type Hreg Hget.
    rewrite (getAdmitCard_GET_cacheAside config env dto type Hreg).
    eapply cacheAside_fresh_throws; [exact Hget | exact Hv |].
    intros h'. unfold freshAdmitCard_GET, httpGet, axios_get. cbv zeta.
    apply after_upstream_down. exact Hdown.
Qed.

(** The upstream answers 503 to everything: three calls, two waits, and
    the code [SERVER_ERROR]. *)
Lemma fetch_when_upstream_down_witness :
  let env := sampleEnv (httpFailure 503) (Returned None) in
  let run := FormDataService.getFormData BsebApiConfig env
               "91341-00009-24" [] in
  (exists r, fst run = Returned r /\ errorCode r = Some "SERVER_ERROR") /\
  upstream_calls (snd run) = 3%nat /\
  delays (snd run) = [1000; 2000].
Proof.
  intros env run.
  destruct (proj1 (@fetch_when_upstream_down BsebApiConfig env
                     (httpError 503) [] JNull
                     (fun _ _ => eq_refl) eq_refl)
                  "91341-00009-24" eq_refl)
    as [r [Hfst [_ [_ [Hcode [_ [Hcalls Hdelays]]]]]]].
  split; [exists r; split; [exact Hfst | exact Hcode]|].
  split; [exact Hcalls | exact Hdelays].
Defined.

(** ** The admit-card transformers *)

Lemma getFieldValue_returns obj keys :
  nullish obj = false -> exists v, getFieldValue obj keys = Returned v.
Proof.
  intros Hobj.
  assert (Hmember : forall key, member obj key = Returned (prop obj key))
    by (intros key; destruct obj; simpl in *; congruence).
  induction keys as [|key keys IH]; simpl; [eauto|].
  rewrite Hmember. destruct (negb (nullish (prop obj key))); eauto.
Qed.

Lemma transformSubject_POST_returns s :
  nullish s = false ->
  exists v, AdmitCardService_POST.transformSubject s = Returned v.
Proof.
  intros Hs. unfold AdmitCardService_POST.transformSubject.
  repeat match goal with
         | |- context [getFieldValue s ?keys] =>
             let v := fresh "v" in
             destruct (getFieldValue_returns s keys Hs) as [v ->];
             cbn [bindO]
         end.
  eauto.
Qed.

Lemma transformSubject_POST_throws s :
  nullish s = true ->
  exists error, AdmitCardService_POST.transformSubject s = Threw error.
Proof.
  destruct s; simpl; try discriminate; intros _; eexists; reflexivity.
Qed.

Lemma mapO_returns {A B} (f : A -> Outcome B) items :
  Forall (fun x => exists y, f x = Returned y) items ->
  exists ys, mapO f items = Returned ys /\ length ys = length items.
Proof.
  induction 1 as [|x items [y Hy] _ [ys [IH Hlen]]]; simpl.
  - exists []. split; reflexivity.
  - rewrite Hy, IH. simpl. exists (y :: ys). simpl.
    split; [reflexivity | congruence].
Qed.

Lemma mapO_throws {A B} (f : A -> Outcome B) items :
  Exists (fun x => exists error, f x = Threw error) items ->
  exists error, mapO f items = Threw error.
Proof.
  induction 1 as [x items [error Hx] | x items _ [error IH]]; simpl.
  - rewrite Hx. simpl. eauto.
  - destruct (f x); simpl; [rewrite IH; simpl|]; eauto.
Qed.

(** The student part of the POST transformer always returns. *)
Lemma transformResponse_POST_shape rawData :
  nullish rawData = false ->
  exists student,
    AdmitCardService_POST.transformResponse rawData
    = (subjects <~ match rawSubjectDetails rawData with
                   | JArr items =>
                       mapO AdmitCardService_POST.transformSubject items
                   | _ => Returned []
                   end ;;
       Returned (JObj [("studentDetails", JObj student);
                       ("subjectDetails", JArr subjects)])).
Proof.
  intros Hraw. unfold AdmitCardService_POST.transformResponse.
  assert (Hmember : member rawData "StudentDetails"
                    = Returned (prop rawData "StudentDetails"))
    by (destruct rawData; simpl in *; congruence).
  rewrite Hmember. cbn [bindO].
  set (studentDetails := prop rawData "StudentDetails"
                         ||' prop rawData "studentDetails" ||' JObj []).
  assert (Hstudent : nullish studentDetails = false).
  { apply truthy_not_nullish. subst studentDetails.
    apply js_or_truthy. reflexivity. }
  repeat match goal with
         | |- context [getFieldValue studentDetails ?keys] =>
             let v := fresh "v" in
             destruct (getFieldValue_returns studentDetails keys Hstudent)
               as [v ->];
             cbn [bindO]
         end.
  eexists. reflexivity.
Qed.

(** X10. The POST transformer on a payload that is neither [null] nor
    [undefined]: when the subject details ([SubjectDetails], else
    [subjectDetails]) are an array without [null] or [undefined] elements,
    it returns a record with one subject per element; when the array holds
    a [null] or [undefined] element, it throws; when they are not an array
    at all, it returns a record with no subject. *)
Theorem transformResponse_POST_subjects :
  forall rawData,
    nullish rawData = false ->
    (forall items,
        rawSubjectDetails rawData = JArr items ->
        Forall (fun s => nullish s = false) items ->
        exists student subjects,
          AdmitCardService_POST.transformResponse rawData
          = Returned (JObj [("studentDetails", JObj student);
                            ("subjectDetails", JArr subjects)]) /\
          length subjects = length items) /\
    (forall items,
        rawSubjectDetails rawData = JArr items ->
        Exists (fun s => nullish s = true) items ->
        exists error,
          AdmitCardService_POST.transformResponse rawData = Threw error) /\
    ((forall items, rawSubjectDetails rawData <> JArr items) ->
     exists student,
       AdmitCardService_POST.transformResponse rawData
       = Returned (JObj [("studentDetails", JObj student);
                         ("subjectDetails", JArr [])])).
Proof.
  intros rawData Hraw.
  destruct (transformResponse_POST_shape rawData Hraw) as [student ->].
  split; [|split].
  - intros items -> Hitems.
    destruct (mapO_returns AdmitCardService_POST.transformSubject
                (items := items)) as [subjects [-> Hlen]].
    + eapply Forall_impl; [|exact Hitems].
      intros s Hs. apply transformSubject_POST_returns. exact Hs.
    + cbn [bindO]. eauto.
  - intros items -> Hitems.
    destruct (mapO_throws AdmitCardService_POST.transformSubject
                (items := items)) as [error ->].
    + eapply Exists_impl; [|exact Hitems].
      intros s Hs. apply transformSubject_POST_throws. exact Hs.
    + cbn [bindO]. eauto.
  - intros Hnot. exists student.
    destruct (rawSubjectDetails rawData) eqn:E; try reflexivity.
    exfalso. apply (Hnot items). reflexivity.
Qed.

Lemma transformResponse_POST_subjects_witness :
  let rawData :=
    JObj [("subjectDetails",
           JArr [JObj [("SubjectName", JStr "Hindi")]; JNull])] in
  exists error, AdmitCardService_POST.transformResponse rawData = Threw error.
Proof.
  intros rawData.
  apply (proj1 (proj2 (transformResponse_POST_subjects rawData eq_refl))
               [JObj [("SubjectName", JStr "Hindi")]; JNull] eq_refl).
  apply Exists_cons_tl, Exists_cons_hd. reflexivity.
Defined.

Lemma js_or_blank_not_nullish a : nullish (a ||' JStr "") = false.
Proof.
  unfold js_or. destruct (truthy a) eqn:E; [|reflexivity].
  apply truthy_not_nullish. exact E.
Qed.

Lemma js_or2_blank_not_nullish a b : nullish (a ||' b ||' JStr "") = false.
Proof. apply js_or_blank_not_nullish. Qed.

Lemma subjectEntry_unscheduled subjects key :
  (length (AdmitCardService_GET.subjectEntry subjects key) <= 1)%nat /\
  Forall unscheduled (AdmitCardService_GET.subjectEntry subjects key).
Proof.
  unfold AdmitCardService_GET.subjectEntry.
  destruct (truthy (prop subjects key)); simpl; [|split; [lia | constructor]].
  destruct (truthy (prop (prop subjects key) "name")) eqn:Hname; simpl;
    [|split; [lia | constructor]].
  split; [lia|]. constructor; [|constructor].
  unfold unscheduled.
  cbn [prop lookup String.eqb Ascii.eqb Bool.eqb].
  split; [exact Hname|].
  split; [apply js_or_blank_not_nullish|]. repeat split.
Qed.

(** X11. The GET transformer returns on every payload that is neither
    [null] nor [undefined].  No field of [studentDetails] and not
    [photoUrl] is ever [undefined] or [null] (a missing or falsy value
    becomes the empty string), [examType] is ['Theory'] or ['Practical']
    after the type asked for, and there are at most eight subjects, each
    with a non-empty name and with blank date, time and shift. *)
Theorem transformResponse_GET_shape :
  forall rawData type,
    nullish rawData = false ->
    exists student subjects photo,
      AdmitCardService_GET.transformResponse rawData type
      = Returned (JObj [("studentDetails", JObj student);
                        ("subjectDetails", JArr subjects);
                        ("photoUrl", photo)]) /\
      Forall (fun field => nullish (snd field) = false) student /\
      nullish photo = false /\
      lookup "examType" student
      = JStr (match type with THEORY => "Theory" | PRACTICAL => "Practical" end)
      /\
      (length subjects <= 8)%nat /\
      Forall unscheduled subjects.
Proof.
  intros rawData type Hraw.
  unfold AdmitCardService_GET.transformResponse.
  assert (Hmember : member rawData "subjects"
                    = Returned (prop rawData "subjects"))
    by (destruct rawData; simpl in *; congruence).
  rewrite Hmember. cbn [bindO].
  do 3 eexists. split; [reflexivity|].
  split.
  { repeat constructor; cbn [snd];
      first [apply js_or_blank_not_nullish | reflexivity]. }
  split; [apply js_or_blank_not_nullish|].
  split; [reflexivity|].
  set (subjects := prop rawData "subjects" ||' JObj []).
  unfold AdmitCardService_GET.subjectKeys. cbn [flat_map].
  repeat match goal with
         | |- context [AdmitCardService_GET.subjectEntry subjects ?key] =>
             let Hlen := fresh "Hlen" in
             let Hall := fresh "Hall" in
             destruct (subjectEntry_unscheduled subjects key) as [Hlen Hall];
             generalize dependent
               (AdmitCardService_GET.subjectEntry subjects key);
             intros ? ? ?
         end.
  rewrite !length_app. simpl. split; [lia|].
  repeat (apply Forall_app; split; try assumption). constructor.
Qed.

Lemma transformResponse_GET_shape_witness :
  exists student subjects photo,
    AdmitCardService_GET.transformResponse (JObj []) PRACTICAL
    = Returned (JObj [("studentDetails", JObj student);
                      ("subjectDetails", JArr subjects);
                      ("photoUrl", photo)]) /\
    lookup "examType" student = JStr "Practical" /\
    nullish photo = false.
Proof.
  destruct (transformResponse_GET_shape (JObj []) PRACTICAL eq_refl)
    as [student [subjects [photo [Hrun [_ [Hphoto [Htype _]]]]]]].
  exists student, subjects, photo.
  split; [exact Hrun|]. split; [exact Htype | exact Hphoto].
Defined.

(** ** Requests, identifiers and cache keys *)

Lemma truthy_str_some o :
  truthy_str o = true -> exists s, o = Some s /\ s <> "".
Proof.
  destruct o as [s|]; simpl; [|discriminate].
  destruct (String.eqb_spec s ""); [discriminate|]. eauto.
Qed.

(** X12. A request passes the validators of [GetAdmitCardRequestDto]
    exactly when it names a student: by a non-empty registration number, or
    by a non-empty roll code together with a non-empty roll number.  For
    such a request [getIdentifier] is the registration number, or
    [rollCode-rollNumber] made of the two given strings: the text
    ['undefined'] does not enter the cache key. *)
Theorem valid_request_has_identifier :
  forall dto : GetAdmitCardRequestDto,
    valid dto = negb (lacks_identifier dto) /\
    (valid dto = true ->
     (exists a,
         registrationNumber dto = Some a /\ a <> "" /\
         getIdentifier dto = a) \/
     (exists c n,
         rollCode dto = Some c /\ c <> "" /\
         rollNumber dto = Some n /\ n <> "" /\
         getIdentifier dto = template [c; "-"; n])).
Proof.
  intros [reg code number].
  unfold valid, lacks_identifier, passes, getIdentifier. cbn [registrationNumber rollCode rollNumber].
  split.
  - destruct (truthy_str reg), (truthy_str code), (truthy_str number);
      reflexivity.
  - destruct (truthy_str reg) eqn:Hreg.
    + intros _. left. destruct (truthy_str_some _ Hreg) as [a [-> Ha]].
      exists a. repeat split; auto.
    + destruct (truthy_str code) eqn:Hcode;
        destruct (truthy_str number) eqn:Hnumber;
        simpl; try discriminate.
      intros _. right.
      destruct (truthy_str_some _ Hcode) as [c [-> Hc]].
      destruct (truthy_str_some _ Hnumber) as [n [-> Hn]].
      exists c, n. repeat split; auto.
Qed.

Lemma append_inj_l (p a b : string) :
  String.append p a = String.append p b -> a = b.
Proof.
  induction p as [|c p IH]; simpl; [auto|].
  intros H. injection H as H. auto.
Qed.

(** X13. The theory and the practical admit card never share a cache
    entry: for every configuration and every two identifiers the key of
    the one differs from the key of the other.  Under the shipped
    configuration a form-data key differs from every admit-card key. *)
Theorem cache_keys_are_separate :
  (forall config identifier identifier',
      AdmitCardService_POST.cacheKeyOf config THEORY identifier
      <> AdmitCardService_POST.cacheKeyOf config PRACTICAL identifier' /\
      AdmitCardService_GET.cacheKeyOf config THEORY identifier
      <> AdmitCardService_GET.cacheKeyOf config PRACTICAL identifier') /\
  (forall registrationNumber type identifier,
      FormDataService.cacheKeyOf BsebApiConfig registrationNumber
      <> AdmitCardService_POST.cacheKeyOf BsebApiConfig type identifier /\
      FormDataService.cacheKeyOf BsebApiConfig registrationNumber
      <> AdmitCardService_GET.cacheKeyOf BsebApiConfig type identifier).
Proof.
  split.
  - intros config identifier identifier'.
    assert (Hne : AdmitCardService_POST.cacheKeyOf config THEORY identifier
                  <> AdmitCardService_POST.cacheKeyOf config PRACTICAL
                       identifier').
    { unfold AdmitCardService_POST.cacheKeyOf, template. simpl.
      intros H. apply append_inj_l in H. discriminate H. }
    split; exact Hne.
  - intros registrationNumber type identifier.
    split; destruct type; intros H; vm_compute in H; discriminate H.
Qed.

(** X14. The POST admit-card cache is keyed by the identifier text alone.
    Over a store that keeps what it is given, once a request has been
    answered with data, every request of the same type with the same
    identifier is answered from that entry without an upstream call, also
    when it names the student differently: a request by roll code [c] and
    roll number [n] gets the entry of the registration number [c-n]. *)
Theorem getAdmitCard_POST_shares_entries_by_identifier :
  forall (config : ApiConfig) (env : Env) (dto dto' : GetAdmitCardRequestDto)
         (type : AdmitCardType) (h : Trace)
         (r1 : BsebBaseResponse) (es1 : Trace) (value : JsValue)
         (text : string),
    store_like env ->
    getIdentifier dto = getIdentifier dto' ->
    AdmitCardService_POST.getAdmitCard config env dto type h
    = (Returned r1, es1) ->
    success r1 = true -> payload r1 = Some value ->
    JSON_stringify env value = Returned text ->
    text <> "" ->
    JSON_parse env text = Returned value ->
    exists r2 es2,
      AdmitCardService_POST.getAdmitCard config env dto' type (h ++ es1)
      = (Returned r2, es2) /\
      success r2 = true /\ cached r2 = Some true /\
      payload r2 = Some value /\
      upstream_calls es2 = 0%nat.
Proof.
  intros config env dto dto' type h r1 es1 value text
         Hstore Hsame Hrun Hs Hp Htext Hne Hparse.
  rewrite getAdmitCard_POST_cacheAside in Hrun.
  rewrite getAdmitCard_POST_cacheAside, <- Hsame.
  eapply cacheAside_then_hit;
    [ exact Hstore | apply freshAdmitCard_POST_io
    | apply freshAdmitCard_POST_writes | exact Hrun | | | | | ];
    eassumption.
Qed.

(** The entry cached for the registration number ["71100-123"] answers the
    request for roll code ["71100"] and roll number ["123"]. *)
Lemma getAdmitCard_POST_shares_entries_by_identifier_witness :
  let env := memoryEnv (Returned {| status := 200; data := JObj [] |})
                       sampleAdmitCardRecord in
  let byRegistration := {| registrationNumber := Some "71100-123";
                           rollCode := None;
                           rollNumber := None |} in
  let byRoll := {| registrationNumber := None;
                   rollCode := Some "71100";
                   rollNumber := Some "123" |} in
  exists r1 es1,
    AdmitCardService_POST.getAdmitCard BsebApiConfig env byRegistration
                                      THEORY []
    = (Returned r1, es1) /\
    cached r1 = Some false /\
    exists r2 es2,
      AdmitCardService_POST.getAdmitCard BsebApiConfig env byRoll THEORY es1
      = (Returned r2, es2) /\
      cached r2 = Some true /\
      upstream_calls es2 = 0%nat.
Proof.
  intros env byRegistration byRoll.
  do 2 eexists. split; [vm_compute; reflexivity|].
  split; [reflexivity|].
  destruct (@getAdmitCard_POST_shares_entries_by_identifier
              BsebApiConfig env byRegistration byRoll THEORY []
              _ _ sampleAdmitCardRecord "entry"
              (memoryEnv_store_like _ _) eq_refl eq_refl eq_refl eq_refl
              eq_refl ltac:(discriminate) eq_refl)
    as [r2 [es2 [Hrun2 [_ [Hc2 [_ Hup2]]]]]].
  exists r2, es2.
  split; [exact Hrun2|]. split; [exact Hc2 | exact Hup2].
Defined.

(** ** ProfileService *)

Lemma prefix_https_template bucketName region path :
  String.prefix "https://"
    (template ["https://"; bucketName; ".s3."; region; ".amazonaws.com/";
               path]) = true.
Proof.
  unfold template. cbn [String.concat String.append].
  repeat (cbn [String.prefix]; destruct (ascii_dec _ _); [|congruence]).
  cbn [String.prefix].
  match goal with |- String.prefix "" ?s = true => destruct s end;
    reflexivity.
Qed.

(** X15. [getFullUrl] answers [null] exactly for a falsy argument, and
    otherwise a non-empty string; with S3 switched on that string is
    always an absolute [http://] or [https://] URL.  Applied to its own
    result it changes nothing. *)
Theorem getFullUrl_absolute_and_idempotent :
  forall (useS3 : bool) (bucketName region : string)
         (relativePath url : JsValue),
    ProfileService.getFullUrl useS3 bucketName region relativePath
    = Returned url ->
    ProfileService.getFullUrl useS3 bucketName region url = Returned url /\
    (url = JNull <-> truthy relativePath = false) /\
    (url <> JNull ->
     exists s,
       url = JStr s /\ s <> "" /\
       (useS3 = true ->
        String.prefix "http://" s || String.prefix "https://" s = true)).
Proof.
  intros useS3 bucketName region relativePath url.
  unfold ProfileService.getFullUrl at 1.
  destruct (truthy relativePath) eqn:Htruthy; simpl.
  - destruct relativePath as [| | | |path| |]; try discriminate.
    simpl in Htruthy. apply negb_true_iff in Htruthy.
    assert (Hpath : path <> "")
      by (intros ->; discriminate Htruthy).
    destruct (String.prefix "http://" path || String.prefix "https://" path)
      eqn:Habsolute.
    + intros H. injection H as <-.
      split; [|split].
      * unfold ProfileService.getFullUrl. simpl.
        rewrite Htruthy, Habsolute. reflexivity.
      * split; [discriminate | discriminate].
      * intros _. exists path. repeat split; auto.
    + destruct useS3.
      * intros H. injection H as <-.
        split; [|split; [split; discriminate|]].
        { unfold ProfileService.getFullUrl.
          cbn [truthy negb]. rewrite prefix_https_template, orb_true_r.
          reflexivity. }
        intros _. eexists. split; [reflexivity|].
        split; [discriminate|]. intros _.
        rewrite prefix_https_template. apply orb_true_r.
      * intros H. injection H as <-.
        split; [|split].
        -- unfold ProfileService.getFullUrl. simpl.
           rewrite Htruthy, Habsolute. reflexivity.
        -- split; discriminate.
        -- intros _. exists path. repeat split; auto. discriminate.
  - intros H. injection H as <-.
    split; [reflexivity|]. split; [tauto|]. intros Hne. contradiction.
Qed.

Lemma getFullUrl_absolute_and_idempotent_witness :
  ProfileService.getFullUrl true "bseb-connect-uploads" "ap-south-1"
    (JStr "https://bseb-connect-uploads.s3.ap-south-1.amazonaws.com/photo/a.jpg")
  = Returned
      (JStr "https://bseb-connect-uploads.s3.ap-south-1.amazonaws.com/photo/a.jpg").
Proof.
  exact (proj1 (getFullUrl_absolute_and_idempotent
                  true "bseb-connect-uploads" "ap-south-1"
                  (JStr "photo/a.jpg") eq_refl)).
Defined.

Lemma lookup_omit_same key fields : lookup key (omit key fields) = JUndefined.
Proof.
  unfold omit. induction fields as [|[k v] fields IH]; simpl; auto.
  destruct (String.eqb_spec k key) as [->|Hne]; simpl; auto.
  destruct (String.eqb_spec key k) as [->|_]; [contradiction | exact IH].
Qed.

Lemma lookup_omit_other key key' fields :
  key' <> key -> lookup key' (omit key fields) = lookup key' fields.
Proof.
  intros Hne. unfold omit.
  induction fields as [|[k v] fields IH]; simpl; auto.
  destruct (String.eqb_spec k key) as [->|Hk]; simpl.
  - destruct (String.eqb_spec key' key); [contradiction | exact IH].
  - destruct (key' =? k)%string; auto.
Qed.

Lemma lookup_assign_same key value fields :
  lookup key (assign key value fields) = value.
Proof.
  induction fields as [|[k v] fields IH]; simpl.
  - rewrite String.eqb_refl. reflexivity.
  - destruct (key =? k)%string eqn:E; simpl; rewrite E; auto.
Qed.

Lemma lookup_assign_other key key' value fields :
  key' <> key -> lookup key' (assign key value fields) = lookup key' fields.
Proof.
  intros Hne. induction fields as [|[k v] fields IH]; simpl.
  - destruct (String.eqb_spec key' key); [contradiction | reflexivity].
  - destruct (String.eqb_spec key k) as [->|Hk]; simpl.
    + destruct (String.eqb_spec key' k); [contradiction | reflexivity].
    + destruct (key' =? k)%string; auto.
Qed.

(** The record every profile response is built from. *)
Lemma transformStudentUrls_public useS3 bucketName region student data :
  ProfileService.transformStudentUrls useS3 bucketName region
    (omit "password" student) = Returned data ->
  prop data "password" = JUndefined /\
  ProfileService.getFullUrl useS3 bucketName region (lookup "photoUrl" student)
  = Returned (prop data "photoUrl") /\
  ProfileService.getFullUrl useS3 bucketName region
                            (lookup "signatureUrl" student)
  = Returned (prop data "signatureUrl") /\
  forall key,
    key <> "password" -> key <> "photoUrl" -> key <> "signatureUrl" ->
    prop data key = lookup key student.
Proof.
  unfold ProfileService.transformStudentUrls.
  rewrite !lookup_omit_other by discriminate.
  destruct (ProfileService.getFullUrl useS3 bucketName region
              (lookup "photoUrl" student)) as [photoUrl|]; [|discriminate].
  destruct (ProfileService.getFullUrl useS3 bucketName region
              (lookup "signatureUrl" student)) as [signatureUrl|];
    [|discriminate].
  cbn [bindO]. intros H. injection H as <-. cbn [prop].
  split; [|split; [|split]].
  - rewrite !lookup_assign_other by discriminate. apply lookup_omit_same.
  - rewrite lookup_assign_other by discriminate.
    rewrite lookup_assign_same. reflexivity.
  - rewrite lookup_assign_same. reflexivity.
  - intros key H1 H2 H3.
    rewrite !lookup_assign_other by assumption.
    apply lookup_omit_other. assumption.
Qed.

Ltac run_profile H :=
  unfold bindD, liftD, retD, throwD in H;
  repeat match type of H with
         | context [ProfileService.prisma_update ?u ?id ?c] =>
             unfold ProfileService.prisma_update in H
         | context [match ?o with Returned _ => _ | Threw _ => _ end] =>
             let E := fresh "E" in destruct o eqn:E; try discriminate H
         | context [match ?o with Some _ => _ | None => _ end] =>
             let E := fresh "E" in destruct o eqn:E; try discriminate H
         end.

(** X16. No profile response carries the password.  Whenever
    [getProfile], [updateProfile], [uploadImage] or [upgradeClass] returns,
    the [data] of the response has no [password]; its [photoUrl] and
    [signatureUrl] are those of the student record passed through
    [getFullUrl], and every other field is that of the record.  A user
    that does not exist makes [getProfile] throw [NotFoundException]. *)
Theorem profile_responses_hide_password :
  forall (useS3 : bool) (bucketName region : string)
         (findUnique : Z -> Outcome (option (list (string * JsValue))))
         (update : Z -> list (string * JsValue)
                   -> Outcome (list (string * JsValue))),
    (forall userId response calls,
        ProfileService.getProfile useS3 bucketName region findUnique userId
        = (Returned response, calls) ->
        exists student,
          findUnique userId = Returned (Some student) /\
          public_profile useS3 bucketName region student response) /\
    (forall userId,
        findUnique userId = Returned None ->
        ProfileService.getProfile useS3 bucketName region findUnique userId
        = (Threw (NotFoundException "Student not found"),
           [DbFindUnique userId])) /\
    (forall userId updateDto response calls,
        ProfileService.updateProfile useS3 bucketName region update
                                     userId updateDto
        = (Returned response, calls) ->
        exists student,
          update userId updateDto = Returned student /\
          public_profile useS3 bucketName region student response) /\
    (forall userId type filename response calls,
        ProfileService.uploadImage useS3 bucketName region update
                                   userId type filename
        = (Returned response, calls) ->
        exists student changes,
          update userId changes = Returned student /\
          calls = [DbUpdate userId changes] /\
          public_profile useS3 bucketName region student response) /\
    (forall userId upgradeDto response calls,
        ProfileService.upgradeClass useS3 bucketName region update
                                    userId upgradeDto
        = (Returned response, calls) ->
        exists student changes,
          update userId changes = Returned student /\
          calls = [DbUpdate userId changes] /\
          public_profile useS3 bucketName region student response).
Proof.
  intros useS3 bucketName region findUnique update.
  split; [|split; [|split; [|split]]].
  - intros userId response calls Hrun.
    unfold ProfileService.getProfile, ProfileService.prisma_findUnique in Hrun.
    run_profile Hrun.
    injection Hrun as <- _. eexists. split; [reflexivity|].
    apply transformStudentUrls_public. assumption.
  - intros userId Hnone.
    unfold ProfileService.getProfile, ProfileService.prisma_findUnique,
      bindD, throwD.
    rewrite Hnone. reflexivity.
  - intros userId updateDto response calls Hrun.
    unfold ProfileService.updateProfile in Hrun.
    run_profile Hrun.
    injection Hrun as <- _. eexists. split; [reflexivity|].
    apply transformStudentUrls_public. assumption.
  - intros userId type filename response calls Hrun.
    unfold ProfileService.uploadImage in Hrun. cbv zeta in Hrun.
    run_profile Hrun.
    injection Hrun as <- <-. do 2 eexists. split; [eassumption|].
    split; [reflexivity|].
    apply transformStudentUrls_public. assumption.
  - intros userId upgradeDto response calls Hrun.
    unfold ProfileService.upgradeClass in Hrun.
    run_profile Hrun.
    injection Hrun as <- <-. do 2 eexists. split; [eassumption|].
    split; [reflexivity|].
    apply transformStudentUrls_public. assumption.
Qed.

Lemma profile_responses_hide_password_witness :
  let findUnique := fun _ : Z => Returned (Some sampleStudent) in
  let update := fun (_ : Z) (_ : list (string * JsValue)) =>
                  Returned sampleStudent in
  exists response,
    ProfileService.getProfile true "bseb-connect-uploads" "ap-south-1"
                              findUnique 7
    = (Returned response, [DbFindUnique 7]) /\
    prop (prop response "data") "password" = JUndefined /\
    prop (prop response "data") "fullName" = JStr "NANDINI KUMARI".
Proof.
  intros findUnique update.
  eexists. split; [reflexivity|].
  destruct (proj1 (profile_responses_hide_password
                     true "bseb-connect-uploads" "ap-south-1"
                     findUnique update)
                  7 _ _ eq_refl)
    as [student [Hfound [Hpassword [_ [_ Hother]]]]].
  injection Hfound as <-.
  split; [exact Hpassword|].
  rewrite Hother by discriminate. reflexivity.
Defined.

Ltac password_leaf :=
  cbn [fst snd negb app];
  repeat match goal with
         | |- _ /\ _ => split
         | |- forall _, _ => intro
         | H : In _ _ |- _ => cbn [In] in H
         | H : _ \/ _ |- _ => destruct H
         | H : False |- _ => destruct H
         | H : DbUpdate _ _ = DbUpdate _ _ |- _ => injection H as <- <-
         | H : DbFindUnique _ = DbUpdate _ _ |- _ => discriminate H
         | H : Returned (Some _) = Returned (Some _) |- _ =>
             injection H as <-
         | H : Threw _ = Returned _ |- _ => discriminate H
         | H : Returned _ = Threw _ |- _ => discriminate H
         | H : Returned None = Returned (Some _) |- _ => discriminate H
         | H : Returned (Some _) = Returned None |- _ => discriminate H
         end;
  try congruence; eauto 10.

(** X17. [changePassword] writes to the database only after both checks:
    an update is issued only for the user asked for, only when bcrypt
    accepts the current password against the stored one and rejects the
    new password against it, and what it stores is the bcrypt hash (cost
    10) of the new password.  A wrong current password and an unchanged
    password each throw [UnauthorizedException], an unknown user throws
    [NotFoundException], and in these cases the only database call is the
    lookup.  When the method returns, the update has been issued. *)
Theorem changePassword_updates_only_after_checks :
  forall (findUnique : Z -> Outcome (option (list (string * JsValue))))
         (update : Z -> list (string * JsValue)
                   -> Outcome (list (string * JsValue)))
         (compare : JsValue -> JsValue -> Outcome bool)
         (hash : JsValue -> Z -> Outcome JsValue)
         (userId : Z) (dto : ChangePasswordDto),
    let run := ProfileService.changePassword findUnique update compare hash
                                             userId dto in
    (forall id changes,
        In (DbUpdate id changes) (snd run) ->
        id = userId /\
        exists user hashed,
          findUnique userId = Returned (Some user) /\
          compare (currentPassword dto) (lookup "password" user)
          = Returned true /\
          compare (newPassword dto) (lookup "password" user)
          = Returned false /\
          hash (newPassword dto) 10 = Returned hashed /\
          changes = [("password", hashed)]) /\
    (forall response,
        fst run = Returned response ->
        exists hashed,
          snd run = [DbFindUnique userId;
                     DbUpdate userId [("password", hashed)]]) /\
    (findUnique userId = Returned None ->
     run = (Threw (NotFoundException "User not found"),
            [DbFindUnique userId])) /\
    (forall user,
        findUnique userId = Returned (Some user) ->
        compare (currentPassword dto) (lookup "password" user)
        = Returned false ->
        run = (Threw (UnauthorizedException "Current password is incorrect"),
               [DbFindUnique userId])) /\
    (forall user,
        findUnique userId = Returned (Some user) ->
        compare (currentPassword dto) (lookup "password" user)
        = Returned true ->
        compare (newPassword dto) (lookup "password" user)
        = Returned true ->
        run = (Threw (UnauthorizedException
                        "New password must be different from current password"),
               [DbFindUnique userId])).
Proof.
  intros findUnique update compare hash userId dto run. subst run.
  unfold ProfileService.changePassword, ProfileService.prisma_findUnique,
    ProfileService.prisma_update, bindD, liftD, retD, throwD.
  destruct (findUnique userId) as [[user|]|error] eqn:Hfind;
    [ destruct (compare (currentPassword dto) (lookup "password" user))
        as [[|]|error] eqn:Hcurrent;
      [ destruct (compare (newPassword dto) (lookup "password" user))
          as [[|]|error] eqn:Hnew;
        [ | destruct (hash (newPassword dto) 10) as [hashed|error] eqn:Hhash;
            [ destruct (update userId [("password", hashed)])
                as [student|error] | ]
          | ]
      | | ]
    | | ];
    password_leaf.
Qed.

(** ** The successful path *)

Lemma checked_envelope_tail (apiResponse : JsValue)
      (failure : BsebBaseResponse) (tail : M BsebBaseResponse) h :
  truthy (prop apiResponse "success") = true ->
  truthy (prop apiResponse "data") = true ->
  (flag <- lift (member apiResponse "success") ;;
   if negb (truthy flag) || negb (truthy (prop apiResponse "data")) then
     ret failure
   else tail) h = tail (h ++ []).
Proof.
  intros Hsuccess Hdata. rewrite run_bind. unfold lift.
  assert (Hmember : member apiResponse "success"
                    = Returned (prop apiResponse "success")).
  { pose proof (prop_truthy_not_nullish _ _ Hsuccess) as Hbody.
    destruct apiResponse; simpl in *; congruence. }
  rewrite Hmember, Hsuccess, Hdata. cbn [negb orb].
  destruct (tail (h ++ [])) as [o es]. reflexivity.
Qed.

Lemma store_and_answer_success env cacheKey ttl normalized h :
  exists r es,
    (value <- lift (Returned normalized) ;;
     setInCache env cacheKey value ttl ;;;
     createSuccessResponse env value false) h = (Returned r, es) /\
    fresh_success env cacheKey ttl normalized r es.
Proof.
  rewrite run_bind. unfold lift. rewrite run_bind.
  destruct (setInCache_run env cacheKey normalized ttl (h ++ [])) as [Hok _].
  destruct (setInCache_returns env cacheKey normalized ttl (h ++ []))
    as [es1 [Hset _]].
  rewrite Hset, createSuccessResponse_run.
  do 2 eexists. split; [reflexivity|].
  unfold fresh_success. cbn [success payload cached message errorCode].
  repeat split.
  intros text Htext.
  destruct (Hok text Htext) as [es1' [Hset' Hwarn]].
  rewrite Hset in Hset'. injection Hset' as ->.
  destruct (warnings_no_command Hwarn) as [Hw _].
  cbn [app]. rewrite !app_nil_r. simpl. rewrite Hw. reflexivity.
Qed.

Lemma cacheAside_fresh_returns env cacheKey ttl hitText fresh context
      identifier h v es0 normalized :
  getFromCache env cacheKey h = (Returned v, es0) -> truthy v = false ->
  (exists r es,
      fresh (h ++ es0) = (Returned r, es) /\
      fresh_success env cacheKey ttl normalized r es) ->
  exists r es,
    cacheAside env cacheKey hitText fresh context identifier h
    = (Returned r, es) /\
    fresh_success env cacheKey ttl normalized r es.
Proof.
  intros Hget Hv [r [es [Hrun [Hs [Hp [Hc [Hm [He Hw]]]]]]]].
  unfold cacheAside. rewrite run_try_catch, run_bind, Hget, Hv, Hrun.
  exists r, (es0 ++ es). split; [reflexivity|].
  repeat split; auto.
  intros text Htext.
  destruct (getFromCache_returns env cacheKey h) as [v' [es' [Hget' [Hwarn _]]]].
  rewrite Hget in Hget'. injection Hget' as _ ->.
  destruct (warnings_no_command Hwarn) as [Hw0 _].
  change (EvRedisGet cacheKey :: es') with ([EvRedisGet cacheKey] ++ es').
  rewrite !written_app, Hw0. simpl. apply Hw. exact Htext.
Qed.

(** X18. The successful path of [getFormData] and of the GET version of
    [getAdmitCard]: on a cache miss, when the upstream answers with an
    envelope whose [success] and [data] are truthy, the transformer
    returns and the fetch answers [success = true] with the transformed
    data, [cached = false], no message and no error code; the one cache
    write is that data under the fetch's key with the domain's time to
    live.  A failure of the cache write does not change the answer. *)
Theorem fetch_success_path :
  forall (config : ApiConfig) (env : Env) (h : Trace) (v : JsValue)
         (es0 : Trace) (apiResponse : JsValue) (es2 : Trace),
    truthy v = false ->
    truthy (prop apiResponse "success") = true ->
    truthy (prop apiResponse "data") = true ->
    (forall registrationNumber,
        getFromCache env
          (FormDataService.cacheKeyOf config registrationNumber) h
        = (Returned v, es0) ->
        httpGet config env (FormDataService.urlOf config registrationNumber)
                ((h ++ es0) ++ [fetchingFormData registrationNumber])
        = (Returned apiResponse, es2) ->
        exists normalized,
          FormDataService.transformResponse (prop apiResponse "data")
          = Returned normalized /\
          exists r es,
            FormDataService.getFormData config env registrationNumber h
            = (Returned r, es) /\
            fresh_success env
              (FormDataService.cacheKeyOf config registrationNumber)
              (fd_cacheTtl (formData config)) normalized r es) /\
    (forall dto type,
        truthy_str (registrationNumber dto) = true ->
        getFromCache env
          (AdmitCardService_GET.cacheKeyOf config type
             (interp (registrationNumber dto))) h
        = (Returned v, es0) ->
        httpGet config env
                (AdmitCardService_GET.urlOf config
                   (interp (registrationNumber dto)))
                ((h ++ es0)
                 ++ [fetchingAdmitCard_GET config type
                       (interp (registrationNumber dto))])
        = (Returned apiResponse, es2) ->
        exists normalized,
          AdmitCardService_GET.transformResponse (prop apiResponse "data") type
          = Returned normalized /\
          exists r es,
            AdmitCardService_GET.getAdmitCard config env dto type h
            = (Returned r, es) /\
            fresh_success env
              (AdmitCardService_GET.cacheKeyOf config type
                 (interp (registrationNumber dto)))
              (ac_cacheTtl (admitCard config)) normalized r es).
Proof.
  intros config env h v es0 apiResponse es2 Hv Hsuccess Hdata.
  pose proof (truthy_not_nullish _ Hdata) as Hraw.
  assert (Hquiet : written es2 = [] ->
                   forall (cacheKey : string) ttl normalized r es3 line,
                     fresh_success env cacheKey ttl normalized r es3 ->
                     fresh_success env cacheKey ttl normalized r
                       ([EvLog LogInfo line] ++ es2 ++ [] ++ es3)).
  { intros Hw2 cacheKey ttl normalized r es3 line
           [Hs [Hp [Hc [Hm [He Hw]]]]].
    repeat split; auto. intros text Htext.
    rewrite !written_app, Hw2. simpl. apply Hw. exact Htext. }
  split.
  - intros registrationNumber Hget Hhttp.
    assert (Hnorm : exists normalized,
               FormDataService.transformResponse (prop apiResponse "data")
               = Returned normalized).
    { unfold FormDataService.transformResponse.
      destruct (prop apiResponse "data"); simpl in *; try discriminate;
        eexists; reflexivity. }
    destruct Hnorm as [normalized Hnorm].
    exists normalized. split; [exact Hnorm|].
    rewrite getFormData_cacheAside.
    eapply cacheAside_fresh_returns; [exact Hget | exact Hv |].
    unfold freshFormData. cbv zeta. rewrite run_bind.
    unfold logger, emit. cbv beta iota. rewrite run_bind.
    unfold fetchingFormData in Hhttp. rewrite Hhttp.
    rewrite (@checked_envelope_tail apiResponse _ _ _ Hsuccess Hdata), Hnorm.
    match goal with
    | |- context [bind (lift (Returned normalized)) ?k ?h'] =>
        destruct (store_and_answer_success env
                    (FormDataService.cacheKeyOf config registrationNumber)
                    (fd_cacheTtl (formData config)) normalized h')
          as [r [es3 [Hrun Hfresh]]]
    end.
    rewrite Hrun. do 2 eexists. split; [reflexivity|].
    apply Hquiet; [|exact Hfresh].
    unfold httpGet, axios_get in Hhttp. cbv zeta in Hhttp.
    match type of Hhttp with
    | executeWithRetry _ (send _ ?request) ?n ?h' = _ =>
        destruct (executeWithRetry_quiet config env request n h')
          as [o [es' [Hrun' [_ [Hw _]]]]]
    end.
    rewrite Hhttp in Hrun'. injection Hrun' as _ <-. exact Hw.
  - intros dto type Hreg Hget Hhttp.
    assert (Hnorm : exists normalized,
               AdmitCardService_GET.transformResponse
                 (prop apiResponse "data") type = Returned normalized).
    { unfold AdmitCardService_GET.transformResponse.
      destruct (prop apiResponse "data"); simpl in *; try discriminate;
        eexists; reflexivity. }
    destruct Hnorm as [normalized Hnorm].
    exists normalized. split; [exact Hnorm|].
    rewrite (getAdmitCard_GET_cacheAside config env dto type Hreg).
    eapply cacheAside_fresh_returns; [exact Hget | exact Hv |].
    unfold freshAdmitCard_GET. cbv zeta. rewrite run_bind.
    unfold logger, emit. cbv beta iota. rewrite run_bind.
    unfold fetchingAdmitCard_GET in Hhttp. rewrite Hhttp.
    rewrite (@checked_envelope_tail apiResponse _ _ _ Hsuccess Hdata), Hnorm.
    match goal with
    | |- context [bind (lift (Returned normalized)) ?k ?h'] =>
        destruct (store_and_answer_success env
                    (AdmitCardService_GET.cacheKeyOf config type
                       (interp (registrationNumber dto)))
                    (ac_cacheTtl (admitCard config)) normalized h')
          as [r [es3 [Hrun Hfresh]]]
    end.
    rewrite Hrun. do 2 eexists. split; [reflexivity|].
    apply Hquiet; [|exact Hfresh].
    unfold httpGet, axios_get in Hhttp. cbv zeta in Hhttp.
    match type of Hhttp with
    | executeWithRetry _ (send _ ?request) ?n ?h' = _ =>
        destruct (executeWithRetry_quiet config env request n h')
          as [o [es' [Hrun' [_ [Hw _]]]]]
    end.
    rewrite Hhttp in Hrun'. injection Hrun' as _ <-. exact Hw.
Qed.

(** The upstream fails once and then answers: the fetch still succeeds,
    with fresh data. *)
Lemma fetch_success_path_witness :
  let env := flakyEnv 1 sampleFormAnswer in
  exists r es,
    FormDataService.getFormData BsebApiConfig env "91341-00009-24" []
    = (Returned r, es) /\
    success r = true /\ payload r = Some sampleFormRecord /\
    cached r = Some false.
Proof.
  intros env.
  destruct (proj1 (@fetch_success_path BsebApiConfig env [] JNull
                     [EvRedisGet "bseb:form:91341-00009-24"]
                     (JObj [("success", JBool true);
                            ("data", sampleFormPayload)])
                     _ eq_refl eq_refl eq_refl)
                  "91341-00009-24" eq_refl eq_refl)
    as [normalized [Hnorm [r [es [Hrun [Hs [Hp [Hc _]]]]]]]].
  exists r, es. split; [exact Hrun|]. split; [exact Hs|].
  split; [|exact Hc].
  rewrite Hp. f_equal.
  unfold sampleFormRecord.
  change (FormDataService.transformResponse sampleFormPayload)
    with (FormDataService.transformResponse
            (prop (JObj [("success", JBool true);
                         ("data", sampleFormPayload)]) "data")).
  rewrite Hnorm. reflexivity.
Defined.

(** ** The requests a fetch sends *)

Lemma requests_app es es' : requests (es ++ es') = requests es ++ requests es'.
Proof.
  induction es as [|ev es IH]; simpl; auto.
  destruct ev; simpl; rewrite IH; reflexivity.
Qed.

Lemma no_calls_no_requests es : upstream_calls es = 0%nat -> requests es = [].
Proof.
  unfold upstream_calls.
  induction es as [|ev es IH]; simpl; auto.
  destruct ev; simpl; auto. discriminate.
Qed.

Lemma requests_failedAttempts d request retries k :
  requests (failedAttempts d (sending request) retries k) = repeat request k.
Proof.
  induction k as [|k IH]; simpl failedAttempts; auto.
  rewrite requests_app, IH. simpl.
  change (request :: repeat request k) with (repeat request (S k)).
  rewrite <- repeat_cons. reflexivity.
Qed.

Lemma executeWithRetry_requests config env request retries h :
  exists o es,
    executeWithRetry config (send env request) retries h = (o, es) /\
    sends_only request retries es.
Proof.
  unfold executeWithRetry.
  destruct (@attemptLoop_shape config env request retries retries 0%nat h
              (Nat.add_0_l retries)) as [o [k [es [Hrun [Hk Hes]]]]].
  exists o, es. split; [exact Hrun|].
  simpl in Hes. exists (k + 1)%nat. split; [lia|].
  rewrite Hes, requests_app, requests_failedAttempts.
  simpl. rewrite repeat_app. reflexivity.
Qed.

Lemma after_upstream_requests config env request
      (k : JsValue -> M BsebBaseResponse) line h :
  (forall value h' o es, k value h' = (o, es) -> upstream_calls es = 0%nat) ->
  sends_only request (retryAttempts (global config))
    (snd ((logger LogInfo line ;;;
           value <- executeWithRetry config (send env request)
                                     (retryAttempts (global config)) ;;
           k value) h)).
Proof.
  intros Hk. rewrite run_bind. unfold logger, emit. cbv beta iota.
  rewrite run_bind.
  destruct (executeWithRetry_requests config env request
              (retryAttempts (global config)) (h ++ [EvLog LogInfo line]))
    as [o [es [-> [n [Hn Hreq]]]]].
  destruct o as [value|error].
  - destruct (k value ((h ++ [EvLog LogInfo line]) ++ es)) as [o2 es2] eqn:E.
    pose proof (no_calls_no_requests _ (Hk _ _ _ _ E)) as Hnone.
    exists n. split; [exact Hn|]. cbn [snd].
    rewrite !requests_app, Hreq, Hnone, app_nil_r. reflexivity.
  - exists n. split; [exact Hn|]. cbn [snd].
    rewrite !requests_app, Hreq. reflexivity.
Qed.

Lemma checked_tail_no_calls env cacheKey ttl apiResponse failure
      (o : Outcome JsValue) h o' es :
  (flag <- lift (member apiResponse "success") ;;
   if negb (truthy flag) || negb (truthy (prop apiResponse "data")) then
     ret failure
   else
     value <- lift o ;;
     setInCache env cacheKey value ttl ;;;
     createSuccessResponse env value false) h = (o', es) ->
  upstream_calls es = 0%nat.
Proof.
  intros Hrun. apply upstream_envelope_check_io in Hrun.
  destruct Hrun as [-> | Htail]; [reflexivity|].
  apply store_and_answer_io in Htail. tauto.
Qed.

Lemma cacheAside_requests env cacheKey hitText fresh context identifier
      request retries h :
  (forall h', sends_only request retries (snd (fresh h'))) ->
  sends_only request retries
    (snd (cacheAside env cacheKey hitText fresh context identifier h)).
Proof.
  intros Hfresh. unfold cacheAside.
  rewrite run_try_catch, run_bind.
  destruct (getFromCache_returns env cacheKey h) as [v [es0 [-> [Hwarn _]]]].
  destruct (warnings_counts Hwarn) as [Hup0 _].
  assert (Hnone : requests (EvRedisGet cacheKey :: es0) = []).
  { simpl. apply no_calls_no_requests. exact Hup0. }
  destruct (truthy v).
  - rewrite run_bind. unfold logger, emit. cbv beta iota.
    rewrite createSuccessResponse_run. cbn [snd].
    exists 0%nat. split; [lia|].
    rewrite !requests_app, Hnone. reflexivity.
  - specialize (Hfresh (h ++ EvRedisGet cacheKey :: es0)).
    destruct (fresh (h ++ EvRedisGet cacheKey :: es0)) as [[r|error] es2].
    + cbn [snd] in *. destruct Hfresh as [n [Hn Hreq]].
      exists n. split; [exact Hn|]. rewrite requests_app, Hnone. exact Hreq.
    + destruct (handleApiError_run env error context identifier
                  (h ++ (EvRedisGet cacheKey :: es0) ++ es2))
        as [r [line [-> _]]].
      cbn [snd] in *. destruct Hfresh as [n [Hn Hreq]].
      exists n. split; [exact Hn|].
      rewrite !requests_app, Hnone, Hreq. simpl. apply app_nil_r.
Qed.

(** X19. All upstream traffic of a fetch is one and the same request, sent
    at most [retryAttempts + 1] times: for [getFormData] a GET of
    [baseUrl/registrationNumber?hash=hash]; for the POST version of
    [getAdmitCard] a POST to the endpoint of the type with the body
    [{registrationNumber, rollCode, rollNumber}], absent fields sent as
    empty strings; for the GET version a GET of
    [baseUrl/registrationNumber?hash=hash] whatever the type.  Each carries
    the configured timeout and user agent. *)
Theorem fetch_sends_one_request :
  forall (config : ApiConfig) (env : Env) (h : Trace),
    (forall registrationNumber,
        sends_only
          (Get (template [fd_baseUrl (formData config); "/";
                          registrationNumber; "?hash=";
                          fd_hash (formData config)])
               (getConfig config))
          (retryAttempts (global config))
          (snd (FormDataService.getFormData config env
                  registrationNumber h))) /\
    (forall dto type,
        sends_only
          (Post (template [ac_baseUrl (admitCard config); "/";
                           match type with
                           | THEORY => ac_endpoints_theory (admitCard config)
                           | PRACTICAL =>
                               ac_endpoints_practical (admitCard config)
                           end])
                (JObj [("registrationNumber",
                        JStr (str_or (registrationNumber dto) ""));
                       ("rollCode", JStr (str_or (rollCode dto) ""));
                       ("rollNumber", JStr (str_or (rollNumber dto) ""))])
                (postConfig config))
          (retryAttempts (global config))
          (snd (AdmitCardService_POST.getAdmitCard config env dto type h))) /\
    (forall dto type,
        sends_only
          (Get (template [ac_baseUrl (admitCard config); "/";
                          interp (registrationNumber dto); "?hash=";
                          interp (ac_hash (admitCard config))])
               (getConfig config))
          (retryAttempts (global config))
          (snd (AdmitCardService_GET.getAdmitCard config env dto type h))).
Proof.
  intros config env h. split; [|split].
  - intros registrationNumber. rewrite getFormData_cacheAside.
    apply cacheAside_requests. intros h'.
    unfold freshFormData, httpGet, axios_get. cbv zeta.
    apply after_upstream_requests.
    intros value h'' o es. apply checked_tail_no_calls.
  - intros dto type. rewrite getAdmitCard_POST_cacheAside.
    apply cacheAside_requests. intros h'.
    unfold freshAdmitCard_POST, httpPost, axios_post. cbv zeta.
    apply after_upstream_requests.
    intros value h'' o es Hrun.
    apply store_and_answer_io in Hrun. tauto.
  - intros dto type.
    destruct (truthy_str (registrationNumber dto)) eqn:Hreg.
    + rewrite (getAdmitCard_GET_cacheAside config env dto type Hreg).
      apply cacheAside_requests. intros h'.
      unfold freshAdmitCard_GET, httpGet, axios_get. cbv zeta.
      apply after_upstream_requests.
      intros value h'' o es. apply checked_tail_no_calls.
    + unfold AdmitCardService_GET.getAdmitCard. rewrite Hreg.
      exists 0%nat. split; [lia | reflexivity].
Qed.
